(** * IvyLine essay assistant: embedding service, similarity search and
      the tool-calling agent

    A shallow embedding of the TypeScript services
    ([EmbeddingService], [SupabaseService], [WritingSpecialistAgent]) and of
    the SQL function [match_essays], followed by the properties checked
    against the written specification.

    Conventions of the model.
    - A JavaScript string is the list of its UTF-16 code units.
    - A JavaScript [number] that the code does arithmetic on
      ([calculateSimilarity]) is an IEEE 754 binary64 value, i.e. a
      primitive [float].
    - A thrown exception is the [Throw] case of [result]; [try]/[catch]
      is a match on it.
    - An embedding travelling from the model to the database is never
      inspected by the search path, so its type is a parameter [vector]
      there, and pgvector's [<=>] operator is a parameter
      [cosine_distance] with rational values.
    - An [async] method is cut at its [await]s into pieces that each run
      to completion; one caller runs the pieces back to back, several
      callers interleave them under a schedule.
    - What lies outside the process (the language model, the loader of
      the embedding model, the database) is a parameter of the turn.
    - Where the database reads text the service sends, the reader is
      spelled out: the [id] column is a UUID and the topic filter an
      array literal.  What a column makes of a value it stores (the
      single-precision vector, the printed timestamp, the identifier it
      draws) is a parameter. *)

From Stdlib Require Import String Ascii.
From Stdlib Require Import List Bool Arith ZArith NArith QArith Floats.
From Stdlib Require Import Lia Sorted Permutation.
From Stdlib Require DecimalString.
Import ListNotations.

Set Implicit Arguments.
Close Scope Q_scope.

(* ===================================================================== *)
(** * Part I: the model                                                   *)
(* ===================================================================== *)

(** ** JavaScript strings and exceptions *)

Module Js.

Definition jsstring : Type := list N.

(** A string literal of the source (all literals are ASCII). *)
Definition lit (s : string) : jsstring :=
  map N_of_ascii (list_ascii_of_string s).

Definition jsstring_eqb (a b : jsstring) : bool :=
  if list_eq_dec N.eq_dec a b then true else false.

(** A parameter with a default value: [undefined] takes the default. *)
Definition or_default {A : Type} (arg : option A) (default : A) : A :=
  match arg with Some a => a | None => default end.

(** [s.substring(0, n)]. *)
Definition substring0 (n : nat) (s : jsstring) : jsstring := firstn n s.

(** The values the code throws. *)
Inductive exn : Type :=
| Error (message : jsstring)
| TypeError (message : jsstring).

Definition message (e : exn) : jsstring :=
  match e with Error m | TypeError m => m end.

(** The string a template literal [`${error}`] interpolates. *)
Definition exn_toString (e : exn) : jsstring :=
  match e with
  | Error m => lit "Error: " ++ m
  | TypeError m => lit "TypeError: " ++ m
  end.

Inductive result (A : Type) : Type :=
| Ok (a : A)
| Throw (e : exn).
Arguments Throw {A} e.

(** Code points matched by [\s] and removed by [trim()]: the WhiteSpace
    and LineTerminator productions of ECMAScript. *)
Definition isWhiteSpace (c : N) : bool :=
  (existsb (N.eqb c)
     [0x09; 0x0A; 0x0B; 0x0C; 0x0D; 0x20; 0xA0; 0x1680;
      0x2028; 0x2029; 0x202F; 0x205F; 0x3000; 0xFEFF]
   || ((0x2000 <=? c) && (c <=? 0x200A)))%N.

Fixpoint trimStart (s : jsstring) : jsstring :=
  match s with
  | c :: s' => if isWhiteSpace c then trimStart s' else s
  | [] => []
  end.

Definition trimEnd (s : jsstring) : jsstring := rev (trimStart (rev s)).

Definition trim (s : jsstring) : jsstring := trimEnd (trimStart s).

(** [\w]: ASCII letters, digits and the underscore. *)
Definition isWordChar (c : N) : bool :=
  (((0x41 <=? c) && (c <=? 0x5A)) || ((0x61 <=? c) && (c <=? 0x7A))
   || ((0x30 <=? c) && (c <=? 0x39)) || (c =? 0x5F))%N.

(** [toLowerCase] on one code unit.  Only the ASCII range is spelled
    out: [preprocessText] lowercases the output of its two [replace]
    calls, which holds ASCII code units only (lemma
    [cleaned_is_ascii] below). *)
Definition toLowerCase_unit (c : N) : N :=
  (if (0x41 <=? c) && (c <=? 0x5A) then c + 0x20 else c)%N.

Definition toLowerCase (s : jsstring) : jsstring := map toLowerCase_unit s.

(** [Promise.all] over calls whose outcomes are known: the values in
    order when every call fulfils, otherwise a rejection.  Of several
    rejections it is the one that settles first that [Promise.all]
    reports; the model takes the first in array order, which is the
    settling order of calls that run to their end without waiting. *)
Fixpoint promise_all {A : Type} (l : list (result A)) : result (list A) :=
  match l with
  | [] => Ok []
  | Throw e :: _ => Throw e
  | Ok a :: l' =>
      match promise_all l' with
      | Ok rest => Ok (a :: rest)
      | Throw e => Throw e
      end
  end.

(** [array.slice(0, end)] for an integer [end]: a negative [end] counts
    from the end of the array. *)
Definition slice0 {A : Type} (end_ : Z) (l : list A) : list A :=
  if (end_ <? 0)%Z
  then firstn (Z.to_nat (Z.of_nat (length l) + end_)) l
  else firstn (Z.to_nat end_) l.

(** A JSON value, for an argument the code receives untyped. *)
#[warnings="-register-all"] Inductive JsValue : Type :=
| JsNull
| JsBoolean (b : bool)
| JsNumber (n : float)
| JsString (s : jsstring)
| JsArray (items : list JsValue)
| JsObject (fields : list (jsstring * JsValue)).

End Js.
Import Js.

Arguments lit s%_string.

(** ** EmbeddingService *)

Module EmbeddingService.

(** *** preprocessText *)

Definition space : N := 0x20%N.

(** [.replace(/\s+/g, ' ')]: every maximal run of whitespace becomes one
    space.  [in_run] tells that the previous unit was whitespace. *)
Fixpoint collapse_from (in_run : bool) (s : jsstring) : jsstring :=
  match s with
  | [] => []
  | c :: s' =>
      if isWhiteSpace c
      then (if in_run then collapse_from true s'
            else space :: collapse_from true s')
      else c :: collapse_from false s'
  end.

Definition collapseWhitespace (s : jsstring) : jsstring :=
  collapse_from false s.

(** The second [replace] removes what is outside the class of word
    characters, whitespace, the punctuation . , ! ? ; : ( ) - and the
    two quote marks (apostrophe 0x27 and double quote 0x22). *)
Definition isKept (c : N) : bool :=
  isWordChar c || isWhiteSpace c
  || existsb (N.eqb c)
       (lit ".,!?;:()-'" ++ [0x22%N]).

Definition removeSpecial (s : jsstring) : jsstring := filter isKept s.

Definition preprocessText (text : jsstring) : jsstring :=
  toLowerCase (removeSpecial (collapseWhitespace (trim text))).

(** A string is trimmed when neither end is whitespace. *)
Definition trimmed (s : jsstring) : Prop :=
  trimStart s = s /\ trimStart (rev s) = rev s.

(** The alphabet of cleaned text: lowercase letters, digits, the
    underscore, the space and the kept punctuation. *)
Definition isCleanUnit (c : N) : bool :=
  (((0x61 <=? c) && (c <=? 0x7A)) || ((0x30 <=? c) && (c <=? 0x39))
   || (c =? 0x5F) || (c =? space)
   || existsb (N.eqb c) (lit ".,!?;:()-'" ++ [0x22]))%N.

(** *** calculateSimilarity *)

(** The [for] loop: three accumulators updated at every index of
    [embedding1].  Past the end of [embedding2] an element reads as
    [undefined], which arithmetic turns into NaN; the length guard of
    [calculateSimilarity] keeps the loop away from that case. *)
Fixpoint similarity_loop (embedding1 embedding2 : list float)
         (dotProduct norm1 norm2 : float) : float * float * float :=
  match embedding1 with
  | [] => (dotProduct, norm1, norm2)
  | x :: rest1 =>
      let y := hd nan embedding2 in
      similarity_loop rest1 (tl embedding2)
        (dotProduct + x * y)%float (norm1 + x * x)%float (norm2 + y * y)%float
  end.

Definition calculateSimilarity (embedding1 embedding2 : list float)
  : result float :=
  if negb (length embedding1 =? length embedding2)%nat
  then Throw (Error (lit "Embeddings must have the same dimension"))
  else
    let '(dotProduct, norm1, norm2) :=
      similarity_loop embedding1 embedding2 0%float 0%float 0%float in
    let norm1 := PrimFloat.sqrt norm1 in
    let norm2 := PrimFloat.sqrt norm2 in
    if (norm1 =? 0)%float || (norm2 =? 0)%float
    then Ok 0%float
    else Ok (dotProduct / (norm1 * norm2))%float.

(** The magnitude of one vector as the loop computes it: the square
    root of the left-to-right sum of squares. *)
Definition sum_squares (v : list float) : float :=
  fold_left (fun acc x => (acc + x * x)%float) v 0%float.

Definition magnitude (v : list float) : float :=
  PrimFloat.sqrt (sum_squares v).

Definition zero_magnitude (v : list float) : Prop :=
  (magnitude v =? 0)%float = true.

(** A JavaScript zero is [+0] or [-0]. *)
Definition is_zero (x : float) : Prop := x = 0%float \/ x = (-0)%float.

(** *** findMostSimilar *)

Section Ranking.

(** The type of the [metadata] a candidate carries. *)
Variable Meta : Type.

Record Candidate : Type := {
  embedding : list float;
  metadata : Meta
}.

Record Ranked : Type := {
  similarity : float;
  ranked_metadata : Meta
}.

(** [Array.prototype.sort] with a comparison function. *)
Variable sort : (Ranked -> Ranked -> float) -> list Ranked -> list Ranked.

Definition score (queryEmbedding : list float) (candidate : Candidate)
  : result Ranked :=
  match calculateSimilarity queryEmbedding (embedding candidate) with
  | Ok s => Ok {| similarity := s; ranked_metadata := metadata candidate |}
  | Throw e => Throw e
  end.

Definition findMostSimilar (queryEmbedding : list float)
           (candidateEmbeddings : list Candidate) (topK : option Z)
  : result (list Ranked) :=
  let topK := or_default topK 5%Z in
  match promise_all (map (score queryEmbedding) candidateEmbeddings) with
  | Ok similarities =>
      Ok (slice0 topK
            (sort (fun a b => (similarity b - similarity a)%float) similarities))
  | Throw e => Throw e
  end.

End Ranking.

(** *** Model loading and generateEmbedding *)

Section Loading.

(** What [Array.from(result.data)] yields; opaque to this service. *)
Variable vector : Type.

(** The loaded pipeline, as [generateEmbedding] uses it: called on the
    cleaned text with mean pooling and normalisation, its output
    converted to an array.  The call may throw. *)
Definition Model : Type := jsstring -> result vector.

Record State : Type := {
  model : option Model;
  modelName : jsstring;
  isLoading : bool
}.

Definition new (name : option jsstring) : State :=
  {| model := None;
     modelName := match name with
                  | Some (c :: n) => c :: n
                  | _ => lit "Xenova/all-MiniLM-L6-v2"
                  end;
     isLoading := false |}.

(** [initializeModel] runs in two atomic pieces, separated by
    [await pipeline(...)]. *)
Inductive init_status : Type :=
| InitReturned           (* the guard fired: the call returned at once *)
| InitAwaitingPipeline.  (* suspended until the load settles *)

Definition initializeModel_enter (s : State) : State * init_status :=
  if (match model s with Some _ => true | None => false end) || isLoading s
  then (s, InitReturned)
  else ({| model := model s; modelName := modelName s; isLoading := true |},
        InitAwaitingPipeline).

Definition initializeModel_settle (s : State) (loaded : result Model)
  : State * result unit :=
  match loaded with
  | Ok m =>
      ({| model := Some m; modelName := modelName s; isLoading := false |},
       Ok tt)
  | Throw error =>
      ({| model := model s; modelName := modelName s; isLoading := false |},
       Throw (Error (lit "Failed to load embedding model: "
                     ++ exn_toString error)))
  end.

(** The [try] block of [generateEmbedding].  [text] is [None] when the
    caller passed [undefined], on which [text.trim()] throws. *)
Definition embed_with (m : Model) (text : option jsstring) : result vector :=
  let attempt :=
    match text with
    | None =>
        Throw (TypeError
                 (lit "Cannot read properties of undefined (reading 'trim')"))
    | Some t => m (preprocessText t)
    end in
  match attempt with
  | Ok embedding => Ok embedding
  | Throw error =>
      Throw (Error (lit "Failed to generate embedding: " ++ exn_toString error))
  end.

(** [generateEmbedding] from its second [if] on: what runs once the
    awaited [initializeModel()] promise is fulfilled, or at once when
    the model was already there. *)
Definition generateEmbedding_resume (s : State) (text : option jsstring)
  : result vector :=
  match model s with
  | None => Throw (Error (lit "Embedding model not initialized"))
  | Some m => embed_with m text
  end.

(** One caller at a time: the pieces run back to back. *)
Definition initializeModel (pipeline : jsstring -> result Model) (s : State)
  : State * result unit :=
  match initializeModel_enter s with
  | (s', InitReturned) => (s', Ok tt)
  | (s', InitAwaitingPipeline) =>
      initializeModel_settle s' (pipeline (modelName s'))
  end.

Definition generateEmbedding (pipeline : jsstring -> result Model)
           (s : State) (text : option jsstring) : State * result vector :=
  match model s with
  | Some _ => (s, generateEmbedding_resume s text)
  | None =>
      match initializeModel pipeline s with
      | (s', Ok _) => (s', generateEmbedding_resume s' text)
      | (s', Throw error) => (s', Throw error)
      end
  end.

(** The [for] loop of [generateBatchEmbeddings]: ten texts at a time,
    each chunk through [Promise.all].  The model is present when the
    loop runs, so each [generateEmbedding] call goes straight to its
    [try] block and leaves the service as it is.  [fuel] bounds the
    number of chunks; the length of [texts] is always enough. *)
Definition batchSize : nat := 10.

Fixpoint batch_loop (fuel : nat) (s : State) (texts : list jsstring)
         (embeddings : list vector) : result (list vector) :=
  match texts with
  | [] => Ok embeddings
  | _ :: _ =>
      match fuel with
      | O => Ok embeddings
      | S fuel' =>
          match promise_all
                  (map (fun text => generateEmbedding_resume s (Some text))
                       (firstn batchSize texts)) with
          | Ok batchEmbeddings =>
              batch_loop fuel' s (skipn batchSize texts)
                (embeddings ++ batchEmbeddings)
          | Throw error => Throw error
          end
      end
  end.

Definition generateBatchEmbeddings (pipeline : jsstring -> result Model)
           (s : State) (texts : list jsstring) : State * result (list vector) :=
  let '(s', initialized) :=
    match model s with
    | Some _ => (s, Ok tt)
    | None => initializeModel pipeline s
    end in
  match initialized with
  | Throw error => (s', Throw error)
  | Ok _ =>
      match model s' with
      | None => (s', Throw (Error (lit "Embedding model not initialized")))
      | Some _ =>
          (s',
           match batch_loop (length texts) s' texts [] with
           | Ok embeddings => Ok embeddings
           | Throw error =>
               Throw (Error (lit "Failed to generate batch embeddings: "
                             ++ exn_toString error))
           end)
      end
  end.

Record ModelInfo : Type := {
  name : jsstring;
  dimension : Z;
  isLoaded : bool
}.

Definition getModelInfo (s : State) : ModelInfo :=
  {| name := modelName s;
     dimension := 384;
     isLoaded := match model s with Some _ => true | None => false end |}.

Definition warmUp (pipeline : jsstring -> result Model) (s : State)
  : State * result unit :=
  match generateEmbedding pipeline s
          (Some (lit "This is a test sentence for warming up the model.")) with
  | (s', Ok _) => (s', Ok tt)
  | (s', Throw error) => (s', Throw error)
  end.

(** Several callers on the single-threaded event loop.  A schedule is
    a list of events; each event runs one atomic piece of code. *)
Inductive event : Type :=
| Call (caller : nat) (text : option jsstring)
    (* [caller] invokes [generateEmbedding(text)] *)
| Continue (caller : nat)
    (* [caller] resumes after awaiting an [initializeModel()] call
       that had returned at once *)
| PipelineSettled (loaded : result Model).
    (* the pending [pipeline(...)] promise settles; the
       [initializeModel] call awaiting it finishes and its caller
       resumes *)

Record Loop : Type := {
  service : State;
  pipeline_calls : nat;
  loader : option (nat * option jsstring);
  returned_early : list (nat * option jsstring);
  finished : list (nat * result vector)
}.

Definition boot (s : State) : Loop :=
  {| service := s; pipeline_calls := 0; loader := None;
     returned_early := []; finished := [] |}.

Definition lookup_caller (c : nat) (l : list (nat * option jsstring))
  : option (option jsstring) :=
  option_map snd (find (fun p => Nat.eqb (fst p) c) l).

Definition remove_caller (c : nat) (l : list (nat * option jsstring)) :=
  filter (fun p => negb (Nat.eqb (fst p) c)) l.

Definition step (l : Loop) (e : event) : Loop :=
  match e with
  | Call c text =>
      match model (service l) with
      | Some _ =>
          {| service := service l; pipeline_calls := pipeline_calls l;
             loader := loader l; returned_early := returned_early l;
             finished :=
               finished l ++ [(c, generateEmbedding_resume (service l) text)] |}
      | None =>
          match initializeModel_enter (service l) with
          | (s', InitReturned) =>
              {| service := s'; pipeline_calls := pipeline_calls l;
                 loader := loader l;
                 returned_early := returned_early l ++ [(c, text)];
                 finished := finished l |}
          | (s', InitAwaitingPipeline) =>
              {| service := s'; pipeline_calls := S (pipeline_calls l);
                 loader := Some (c, text);
                 returned_early := returned_early l;
                 finished := finished l |}
          end
      end
  | Continue c =>
      match lookup_caller c (returned_early l) with
      | Some text =>
          {| service := service l; pipeline_calls := pipeline_calls l;
             loader := loader l;
             returned_early := remove_caller c (returned_early l);
             finished :=
               finished l ++ [(c, generateEmbedding_resume (service l) text)] |}
      | None => l
      end
  | PipelineSettled loaded =>
      match loader l with
      | Some (c, text) =>
          let '(s', r) := initializeModel_settle (service l) loaded in
          {| service := s'; pipeline_calls := pipeline_calls l;
             loader := None; returned_early := returned_early l;
             finished :=
               finished l ++
               [(c, match r with
                    | Ok _ => generateEmbedding_resume s' text
                    | Throw error => Throw error
                    end)] |}
      | None => l
      end
  end.

Definition run (l : Loop) (schedule : list event) : Loop :=
  fold_left step schedule l.

Definition outcome (c : nat) (l : Loop) : option (result vector) :=
  option_map snd (find (fun p => Nat.eqb (fst p) c) (finished l)).

(** The number of loads of a schedule that end in failure. *)
Definition failed_loads (schedule : list event) : nat :=
  length (filter (fun e => match e with
                           | PipelineSettled (Throw _) => true
                           | _ => false
                           end) schedule).

(** The loop's bookkeeping agrees with the service: a load is awaited
    exactly when [isLoading] is set, and then no model is present. *)
Definition coherent (l : Loop) : Prop :=
  (isLoading (service l) = true <-> loader l <> None)
  /\ (isLoading (service l) = true -> model (service l) = None).

End Loading.

Arguments Call {vector} caller text.
Arguments Continue {vector} caller.
Arguments PipelineSettled {vector} loaded.

End EmbeddingService.

(** ** PostgreSQL's readers for the literals the service sends

    The service hands identifiers and topics to the database as text.
    The [id] column has type UUID and the [topics] column type TEXT[],
    so the database reads that text with [uuid_in] and [array_in];
    both are spelled out here as PostgreSQL has them. *)

Module Postgres.

(** *** [uuid_in] *)

(** [isxdigit] and the value of a hexadecimal digit. *)
Definition hex_value (c : N) : option N :=
  (if (0x30 <=? c) && (c <=? 0x39) then Some (c - 0x30)
   else if (0x41 <=? c) && (c <=? 0x46) then Some (c - 0x41 + 10)
   else if (0x61 <=? c) && (c <=? 0x66) then Some (c - 0x61 + 10)
   else None)%N.

Definition hyphen : N := 0x2D%N.

(** The loop of [string_to_uuid]: [remaining] bytes are still to be
    read, [i] is the index of the next one.  Two hexadecimal digits
    make a byte; a hyphen may follow a byte of odd index other than the
    last. *)
Fixpoint uuid_bytes (remaining i : nat) (src : jsstring)
  : option (list N * jsstring) :=
  match remaining with
  | O => Some ([], src)
  | S remaining' =>
      match src with
      | hi :: lo :: rest =>
          match hex_value hi, hex_value lo with
          | Some a, Some b =>
              let rest' :=
                match rest with
                | c :: rest'' =>
                    if (c =? hyphen)%N && Nat.odd i && (i <? 15)%nat
                    then rest'' else rest
                | [] => rest
                end in
              match uuid_bytes remaining' (S i) rest' with
              | Some (bytes, tail) => Some ((16 * a + b)%N :: bytes, tail)
              | None => None
              end
          | _, _ => None
          end
      | _ => None
      end
  end.

(** [uuid_in]: the sixteen bytes of a UUID literal, or [None] for the
    error [invalid input syntax for type uuid].  The literal may stand
    between braces. *)
Definition uuid_in (s : jsstring) : option (list N) :=
  let '(braces, src) :=
    match s with
    | (0x7B :: src)%N => (true, src)
    | _ => (false, s)
    end in
  match uuid_bytes 16 0 src with
  | Some (bytes, tail) =>
      match (if braces
             then match tail with (0x7D :: tail')%N => Some tail' | _ => None end
             else Some tail) with
      | Some [] => Some bytes
      | _ => None
      end
  | None => None
  end.

Definition hex_digit (n : N) : N :=
  (if n <? 10 then 0x30 + n else 0x61 + (n - 10))%N.

Definition byte_out (b : N) : jsstring := [hex_digit (b / 16); hex_digit (b mod 16)].

(** [uuid_out]: lower-case digits in groups of 8, 4, 4, 4 and 12. *)
Fixpoint uuid_out_from (i : nat) (bytes : list N) : jsstring :=
  match bytes with
  | [] => []
  | b :: bytes' =>
      (if (i =? 4)%nat || (i =? 6)%nat || (i =? 8)%nat || (i =? 10)%nat
       then [hyphen] else [])
      ++ byte_out b ++ uuid_out_from (S i) bytes'
  end.

Definition uuid_out (bytes : list N) : jsstring := uuid_out_from 0 bytes.

(** An identifier written the way the database prints it. *)
Definition is_canonical_uuid (s : jsstring) : bool :=
  match uuid_in s with
  | Some bytes => jsstring_eqb (uuid_out bytes) s
  | None => false
  end.

(** *** [array_in] for [text[]] *)

Definition array_isspace (c : N) : bool :=
  existsb (N.eqb c) [0x20; 0x09; 0x0A; 0x0D; 0x0B; 0x0C]%N.

Definition backslash : N := 0x5C%N.
Definition dquote : N := 0x22%N.
Definition lbrace : N := 0x7B%N.
Definition rbrace : N := 0x7D%N.
Definition comma : N := 0x2C%N.

Inductive ArrayParseState : Type :=
| ARRAY_NO_LEVEL
| ARRAY_LEVEL_STARTED
| ARRAY_ELEM_STARTED
| ARRAY_QUOTED_ELEM_STARTED
| ARRAY_QUOTED_ELEM_COMPLETED
| ARRAY_ELEM_DELIMITED
| ARRAY_LEVEL_COMPLETED
| ARRAY_LEVEL_DELIMITED
| ARRAY_CLOSED.

(** The reader's state.  [item] holds the units of the element being
    read that are kept for sure, [spaces] the unquoted white space met
    after them, which is kept only if the element goes on.  [counts]
    holds the number of members read so far in each open brace level,
    innermost first; [dims] the length found for each level that has
    been closed once; [leaf] the level at which elements stand. *)
Record ArrayReader : Type := {
  parse_state : ArrayParseState;
  in_quotes : bool;
  escaped : bool;
  hasquoting : bool;
  item : jsstring;
  spaces : jsstring;
  items : list (option jsstring);
  counts : list nat;
  dims : list (nat * nat);
  leaf : option nat
}.

Definition array_start : ArrayReader :=
  {| parse_state := ARRAY_NO_LEVEL; in_quotes := false; escaped := false;
     hasquoting := false; item := []; spaces := []; items := [];
     counts := []; dims := []; leaf := None |}.

Definition ascii_lower (c : N) : N :=
  (if (0x41 <=? c) && (c <=? 0x5A) then c + 0x20 else c)%N.

(** The element read: unquoted [NULL], in any case, is the null
    element. *)
Definition read_item (r : ArrayReader) : option jsstring :=
  if negb (hasquoting r) && jsstring_eqb (map ascii_lower (item r)) (lit "null")
  then None else Some (item r).

(** Keep one more unit of the current element. *)
Definition keep (r : ArrayReader) (ps : ArrayParseState) (quoting : bool) (c : N)
  : ArrayReader :=
  {| parse_state := ps; in_quotes := in_quotes r; escaped := false;
     hasquoting := hasquoting r || quoting;
     item := item r ++ spaces r ++ [c]; spaces := [];
     items := items r; counts := counts r; dims := dims r; leaf := leaf r |}.

Definition with_state (r : ArrayReader) (ps : ArrayParseState) (q e h : bool)
  : ArrayReader :=
  {| parse_state := ps; in_quotes := q; escaped := e; hasquoting := h;
     item := item r; spaces := spaces r; items := items r;
     counts := counts r; dims := dims r; leaf := leaf r |}.

Definition bump (counts : list nat) : list nat :=
  match counts with
  | n :: counts' => S n :: counts'
  | [] => []
  end.

(** The element in progress, if any, ends here: it joins the elements
    read, at the level of the innermost open brace. *)
Definition close_item (r : ArrayReader) : option ArrayReader :=
  match parse_state r with
  | ARRAY_ELEM_STARTED | ARRAY_QUOTED_ELEM_COMPLETED =>
      let level := length (counts r) in
      if match leaf r with Some l => (l =? level)%nat | None => true end
      then Some {| parse_state := parse_state r; in_quotes := false;
                   escaped := false; hasquoting := false;
                   item := []; spaces := [];
                   items := items r ++ [read_item r];
                   counts := bump (counts r); dims := dims r;
                   leaf := Some level |}
      else None
  | _ => Some r
  end.

Definition lookup_dim (level : nat) (dims : list (nat * nat)) : option nat :=
  option_map snd (find (fun p => (fst p =? level)%nat) dims).

(** One unit of the literal; [None] is the error
    [malformed array literal]. *)
Definition array_step (r : ArrayReader) (c : N) : option ArrayReader :=
  let ps := parse_state r in
  if (c =? 0)%N then None
  else match ps with
  | ARRAY_CLOSED => if array_isspace c then Some r else None
  | _ =>
  if escaped r then
    Some (keep r ps true c)
  else if (c =? backslash)%N then
    match ps with
    | ARRAY_LEVEL_STARTED | ARRAY_ELEM_STARTED | ARRAY_QUOTED_ELEM_STARTED
    | ARRAY_ELEM_DELIMITED =>
        Some (with_state r (if in_quotes r then ps else ARRAY_ELEM_STARTED)
                (in_quotes r) true true)
    | _ => None
    end
  else if (c =? dquote)%N then
    match ps with
    | ARRAY_LEVEL_STARTED | ARRAY_QUOTED_ELEM_STARTED | ARRAY_ELEM_DELIMITED =>
        Some (with_state r
                (if in_quotes r then ARRAY_QUOTED_ELEM_COMPLETED
                 else ARRAY_QUOTED_ELEM_STARTED)
                (negb (in_quotes r)) false true)
    | _ => None
    end
  else if in_quotes r then
    Some (keep r ps false c)
  else if (c =? lbrace)%N then
    match ps with
    | ARRAY_NO_LEVEL | ARRAY_LEVEL_STARTED | ARRAY_LEVEL_DELIMITED =>
        if (length (counts r) <? 6)%nat
        then Some {| parse_state := ARRAY_LEVEL_STARTED; in_quotes := false;
                     escaped := false; hasquoting := false;
                     item := []; spaces := []; items := items r;
                     counts := 0 :: counts r; dims := dims r; leaf := leaf r |}
        else None
    | _ => None
    end
  else if (c =? rbrace)%N then
    let allowed :=
      match ps with
      | ARRAY_ELEM_STARTED | ARRAY_QUOTED_ELEM_COMPLETED
      | ARRAY_LEVEL_COMPLETED => true
      | ARRAY_LEVEL_STARTED => (length (counts r) =? 1)%nat
      | _ => false
      end in
    if allowed then
      match close_item r with
      | Some r' =>
          match counts r' with
          | n :: outer =>
              let level := length (counts r') in
              if match lookup_dim level (dims r') with
                 | Some d => (d =? n)%nat
                 | None => true
                 end
              then Some {| parse_state :=
                             match outer with
                             | [] => ARRAY_CLOSED
                             | _ => ARRAY_LEVEL_COMPLETED
                             end;
                           in_quotes := false; escaped := false;
                           hasquoting := false; item := []; spaces := [];
                           items := items r'; counts := bump outer;
                           dims := (level, n) :: dims r'; leaf := leaf r' |}
              else None
          | [] => None
          end
      | None => None
      end
    else None
  else if (c =? comma)%N then
    match ps with
    | ARRAY_ELEM_STARTED | ARRAY_QUOTED_ELEM_COMPLETED =>
        match close_item r with
        | Some r' => Some (with_state r' ARRAY_ELEM_DELIMITED false false false)
        | None => None
        end
    | ARRAY_LEVEL_COMPLETED =>
        Some (with_state r ARRAY_LEVEL_DELIMITED false false false)
    | _ => None
    end
  else if array_isspace c then
    match ps with
    | ARRAY_ELEM_STARTED =>
        Some {| parse_state := ps; in_quotes := false; escaped := false;
                hasquoting := hasquoting r; item := item r;
                spaces := spaces r ++ [c]; items := items r;
                counts := counts r; dims := dims r; leaf := leaf r |}
    | _ => Some r
    end
  else
    match ps with
    | ARRAY_LEVEL_STARTED | ARRAY_ELEM_STARTED | ARRAY_ELEM_DELIMITED =>
        Some (keep r ARRAY_ELEM_STARTED false c)
    | _ => None
    end
  end.

Fixpoint array_read (r : ArrayReader) (s : jsstring) : option ArrayReader :=
  match s with
  | [] => Some r
  | c :: s' =>
      match array_step r c with
      | Some r' => array_read r' s'
      | None => None
      end
  end.

(** [array_in] on a literal without dimension decoration: the elements
    in order, sub-arrays flattened, [None] standing for a null element;
    or [None] for a malformed literal. *)
Definition array_in (s : jsstring) : option (list (option jsstring)) :=
  match array_read array_start s with
  | Some r =>
      match parse_state r with
      | ARRAY_CLOSED => Some (items r)
      | _ => None
      end
  | None => None
  end.

(** [a @> b] on [text[]]: every element of [b] equals an element of [a];
    a null element equals nothing. *)
Definition array_contains (a : list jsstring) (b : list (option jsstring)) : bool :=
  forallb (fun x => match x with
                    | Some s => existsb (jsstring_eqb s) a
                    | None => false
                    end) b.


(** A topic that stands for itself between the braces of an array
    literal: not empty, no NUL, backslash, double quote, brace, comma or
    surrogate, no white space at either end, and not the word NULL. *)
Definition plain_unit (c : N) : bool :=
  (negb (c =? 0) && negb (c =? backslash) && negb (c =? dquote)
   && negb (c =? lbrace) && negb (c =? rbrace) && negb (c =? comma)
   && ((c <? 0xD800) || (0xDFFF <? c)))%N.

Definition plain_topic (t : jsstring) : bool :=
  match t with
  | [] => false
  | c :: _ =>
      forallb plain_unit t
      && negb (array_isspace c) && negb (array_isspace (last t 0%N))
      && negb (jsstring_eqb (map ascii_lower t) (lit "null"))
  end.

(** What the reader does with a plain unit inside an unquoted element,
    and the states in which it is inside one. *)
Definition plain_step (r : ArrayReader) (c : N) : ArrayReader :=
  if array_isspace c
  then {| parse_state := ARRAY_ELEM_STARTED; in_quotes := false; escaped := false;
          hasquoting := hasquoting r; item := item r;
          spaces := spaces r ++ [c]; items := items r;
          counts := counts r; dims := dims r; leaf := leaf r |}
  else keep r ARRAY_ELEM_STARTED false c.

Definition in_element (r : ArrayReader) : Prop :=
  parse_state r = ARRAY_ELEM_STARTED /\ in_quotes r = false /\ escaped r = false.

End Postgres.

(** ** The essays table, [match_essays] and SupabaseService *)

Module SupabaseService.

Section Store.

Local Open Scope Q_scope.

Variable vector : Type.

(** pgvector's cosine-distance operator [<=>].  Distances and
    similarities are read as rationals; the query is read exactly as
    written (an index scan may visit fewer rows, which the properties
    below, all on what is returned, do not depend on). *)
Variable cosine_distance : vector -> vector -> Q.

(** A row of the [essays] table.  The two JSONB columns are kept as
    their JSON text. *)
Record Essay : Type := {
  id : jsstring;
  title : option jsstring;
  content : jsstring;
  type : jsstring;
  college : option jsstring;
  prompt : option jsstring;
  topics : list jsstring;
  structure_analysis : option jsstring;
  metadata : option jsstring;
  embedding : option vector;
  created_at : jsstring;
  updated_at : jsstring
}.

(** A row returned by [match_essays]: the essay and the added
    [similarity] column. *)
Record Match : Type := {
  essay : Essay;
  similarity : Q
}.

Record PostgrestError : Type := {
  message : jsstring;
  code : jsstring
}.

(** *** The SQL function match_essays *)

Definition default_match_threshold : Q := 78 # 100.
Definition default_match_count : Z := 5.

Definition Qgt_bool (a b : Q) : bool := negb (Qle_bool a b).

(** [FROM essays WHERE embedding IS NOT NULL AND
    1 - (embedding <=> query_embedding) > match_threshold], each row
    paired with its distance to the query. *)
Definition where_clause (query_embedding : vector) (match_threshold : Q)
           (essays : list Essay) : list (Essay * Q) :=
  flat_map
    (fun e =>
       match embedding e with
       | None => []
       | Some v =>
           let d := cosine_distance v query_embedding in
           if Qgt_bool (1 - d) match_threshold then [(e, d)] else []
       end)
    essays.

(** [ORDER BY embedding <=> query_embedding], ascending; rows at the
    same distance keep their table order. *)
Fixpoint insert_by_distance (x : Essay * Q) (l : list (Essay * Q))
  : list (Essay * Q) :=
  match l with
  | [] => [x]
  | y :: l' =>
      if Qle_bool (snd x) (snd y) then x :: l
      else y :: insert_by_distance x l'
  end.

Definition order_by_distance (l : list (Essay * Q)) : list (Essay * Q) :=
  fold_right insert_by_distance [] l.

Definition select_row (p : Essay * Q) : Match :=
  {| essay := fst p; similarity := 1 - snd p |}.

(** The whole function.  An omitted argument takes its declared
    DEFAULT; a negative LIMIT is an error of the database. *)
Definition match_essays (essays : list Essay) (query_embedding : vector)
           (match_threshold : option Q) (match_count : option Z)
  : list Match + PostgrestError :=
  let match_threshold :=
    or_default match_threshold default_match_threshold in
  let match_count :=
    or_default match_count default_match_count in
  if (match_count <? 0)%Z
  then inr {| message := lit "LIMIT must not be negative";
              code := lit "2201W" |}
  else inl (firstn (Z.to_nat match_count)
              (map select_row
                 (order_by_distance
                    (where_clause query_embedding match_threshold essays)))).

(** *** The PostgREST client *)

(** What awaiting a query builder gives: the [{ data, error }] object,
    or a rejection. *)
Inductive PostgrestResponse (A : Type) : Type :=
| Settled (data : option A) (error : option PostgrestError)
| Rejected (e : exn).
Arguments Rejected {A} e.

(** The database as the service sees it. *)
Inductive Backend : Type :=
| Online (essays : list Essay)
| Failing (error : PostgrestError)
| Unreachable (e : exn).

Definition type_is (t : jsstring) (e : Essay) : bool :=
  jsstring_eqb (type e) t.

(** [supabase.rpc('match_essays', args)] followed by an optional
    [.eq('type', t)]: PostgREST calls the function with the arguments
    and applies the filter to the rows the function returned. *)
Definition rpc_match_essays (db : Backend) (query_embedding : vector)
           (match_threshold : Q) (match_count : Z) (eq_type : option jsstring)
  : PostgrestResponse (list Match) :=
  match db with
  | Online essays =>
      match match_essays essays query_embedding
              (Some match_threshold) (Some match_count) with
      | inl rows =>
          Settled
            (Some match eq_type with
                  | Some t => filter (fun r => type_is t (essay r)) rows
                  | None => rows
                  end)
            None
      | inr err => Settled None (Some err)
      end
  | Failing err => Settled None (Some err)
  | Unreachable e => Rejected e
  end.

(** [.contains('topics', [topic])] sends the filter [cs.{...}] with
    [[topic].join(',')] between the braces, where an [undefined] topic
    joins to the empty string.  The database reads the braces as a
    [text[]] literal and keeps the rows whose [topics] contain every
    element of it. *)
Definition topics_literal (topic : option jsstring) : jsstring :=
  lit "{" ++ or_default topic [] ++ lit "}".

Definition has_topic (topic : option jsstring) (e : Essay) : bool :=
  match Postgres.array_in (topics_literal topic) with
  | Some elements => Postgres.array_contains (topics e) elements
  | None => false
  end.

(** [from('essays').select('*').contains('topics', [topic]).limit(n)]
    with an optional [.eq('type', t)]: one SELECT whose filters all
    apply before its LIMIT. *)
Definition select_by_topic (db : Backend) (topic : option jsstring) (limit : Z)
           (eq_type : option jsstring) : PostgrestResponse (list Essay) :=
  match db with
  | Online essays =>
      if (limit <? 0)%Z
      then Settled None
             (Some {| message := lit "LIMIT must not be negative";
                      code := lit "2201W" |})
      else if match Postgres.array_in (topics_literal topic) with
              | Some _ => false
              | None => true
              end
      then Settled None
             (Some {| message :=
                        lit "malformed array literal: " ++ [0x22%N]
                        ++ topics_literal topic ++ [0x22%N];
                      code := lit "22P02" |})
      else
        Settled
          (Some (firstn (Z.to_nat limit)
                   (filter
                      (fun e =>
                         has_topic topic e
                         && match eq_type with
                            | Some t => type_is t e
                            | None => true
                            end)
                      essays)))
          None
  | Failing err => Settled None (Some err)
  | Unreachable e => Rejected e
  end.

(** *** The service methods *)

Definition default_limit : Z := 5.
Definition default_threshold : Q := 7 # 10.

(** A string is truthy when it is not empty. *)
Definition truthy (s : jsstring) : bool :=
  match s with [] => false | _ => true end.

(** [if (essayType && essayType !== 'all')]: the value handed to
    [.eq('type', ...)], if any. *)
Definition search_filter (essayType : option jsstring) : option jsstring :=
  match essayType with
  | Some t =>
      if truthy t && negb (jsstring_eqb t (lit "all")) then Some t else None
  | None => None
  end.

Definition searchSimilarEssays (db : Backend) (queryEmbedding : vector)
           (essayType : option jsstring) (limit : option Z)
           (threshold : option Q) : list Match :=
  let limit := or_default limit default_limit in
  let threshold := or_default threshold default_threshold in
  match rpc_match_essays db queryEmbedding threshold limit
          (search_filter essayType) with
  | Settled data error =>
      match error with
      | Some _ => []
      | None => match data with Some rows => rows | None => [] end
      end
  | Rejected _ => []
  end.

Definition default_topic_limit : Z := 10.

Definition getEssaysByTopic (db : Backend) (topic : option jsstring)
           (essayType : option jsstring) (limit : option Z)
  : result (list Essay) :=
  let limit := or_default limit default_topic_limit in
  let eq_type :=
    match essayType with
    | Some t => if truthy t then Some t else None
    | None => None
    end in
  match select_by_topic db topic limit eq_type with
  | Settled data error =>
      match error with
      | Some err =>
          Throw (Error (lit "Failed to get essays by topic: " ++ message err))
      | None => Ok (match data with Some rows => rows | None => [] end)
      end
  | Rejected e => Throw e
  end.

(** The read a search performs has failed when the awaited query
    carries an error or rejects. *)
Definition read_failed {A : Type} (r : PostgrestResponse A) : Prop :=
  match r with
  | Settled _ (Some _) => True
  | Settled _ None => False
  | Rejected _ => True
  end.

(** *** Point lookup and insertion *)

(** [.single()]: the one row of the answer, or the error PGRST116 when
    the answer has no row or several. *)
Definition single {A : Type} (rows : list A) : PostgrestResponse A :=
  match rows with
  | [row] => Settled (Some row) None
  | _ =>
      Settled None
        (Some {| message :=
                   lit "JSON object requested, multiple (or no) rows returned";
                 code := lit "PGRST116" |})
  end.

(** The row's identifier is the UUID [u]. *)
Definition has_uuid (u : list N) (e : Essay) : bool :=
  match Postgres.uuid_in (id e) with
  | Some u' => jsstring_eqb u' u
  | None => false
  end.

(** [from('essays').select('*').eq('id', id).single()].  The column
    [id] has type UUID: the database reads [id] as a UUID literal and
    answers with an error when it is none. *)
Definition select_by_id (db : Backend) (id' : jsstring)
  : PostgrestResponse Essay :=
  match db with
  | Online essays =>
      match Postgres.uuid_in id' with
      | Some u => single (filter (has_uuid u) essays)
      | None =>
          Settled None
            (Some {| message :=
                       lit "invalid input syntax for type uuid: "
                       ++ [0x22%N] ++ id' ++ [0x22%N];
                     code := lit "22P02" |})
      end
  | Failing err => Settled None (Some err)
  | Unreachable e => Rejected e
  end.

Definition getEssayById (db : Backend) (id' : jsstring) : result (option Essay) :=
  match select_by_id db id' with
  | Settled data error =>
      match error with
      | Some err =>
          if jsstring_eqb (code err) (lit "PGRST116") then Ok None
          else Throw (Error (lit "Failed to get essay: " ++ message err))
      | None => Ok data
      end
  | Rejected e => Throw e
  end.

(** The argument of [insertEssay]: an essay without [id], [created_at]
    and [updated_at]. *)
Record NewEssay : Type := {
  new_title : option jsstring;
  new_content : jsstring;
  new_type : jsstring;
  new_college : option jsstring;
  new_prompt : option jsstring;
  new_topics : list jsstring;
  new_structure_analysis : option jsstring;
  new_metadata : option jsstring;
  new_embedding : option vector
}.

(** What the table's declaration brings in: the identifier the database
    draws for a new row ([gen_random_uuid()]); the dimension of a
    vector, which the column [vector(384)] checks; the single-precision
    vector that column stores and gives back for the one it is sent
    ([float4]); and the text a TIMESTAMPTZ column gives back for the
    timestamp it is sent ([timestamptz]). *)
Variable gen_random_uuid : list Essay -> jsstring.
Variable dimension : vector -> nat.
Variable float4 : vector -> vector.
Variable timestamptz : jsstring -> jsstring.

Definition essay_types : list jsstring :=
  [lit "personal_statement"; lit "supplemental"; lit "common_app"; lit "other"].

(** The row an INSERT of [essay] stores, with the columns' defaults. *)
Definition stored_row (essays : list Essay) (essay : NewEssay)
           (created updated : jsstring) : Essay :=
  {| id := gen_random_uuid essays;
     title := new_title essay;
     content := new_content essay;
     type := new_type essay;
     college := new_college essay;
     prompt := new_prompt essay;
     topics := new_topics essay;
     structure_analysis := new_structure_analysis essay;
     metadata := Some (or_default (new_metadata essay) (lit "{}"));
     embedding := option_map float4 (new_embedding essay);
     created_at := timestamptz created;
     updated_at := timestamptz updated |}.

(** A name between double quotes, as error messages print it. *)
Definition quoted (name : jsstring) : jsstring := [0x22%N] ++ name ++ [0x22%N].

(** The constraints of the table: the CHECK on [type], the dimension of
    the embedding, the primary key. *)
Definition violated_constraint (essays : list Essay) (row : Essay)
  : option PostgrestError :=
  if negb (existsb (jsstring_eqb (type row)) essay_types) then
    Some {| message :=
              lit "new row for relation " ++ quoted (lit "essays")
              ++ lit " violates check constraint "
              ++ quoted (lit "essays_type_check");
            code := lit "23514" |}
  else match (match embedding row with
              | Some v => if (dimension v =? 384)%nat then None else Some v
              | None => None
              end) with
  | Some v =>
    Some {| message :=
              lit "expected 384 dimensions, not "
              ++ lit (DecimalString.NilEmpty.string_of_uint
                        (Nat.to_uint (dimension v)));
            code := lit "22000" |}
  | None =>
  if existsb (fun e => jsstring_eqb (id e) (id row)) essays then
    Some {| message :=
              lit "duplicate key value violates unique constraint "
              ++ quoted (lit "essays_pkey");
            code := lit "23505" |}
  else None
  end.

(** [from('essays').insert([row]).select().single()] and what it leaves
    in the database.  [created] and [updated] are the two readings of
    the clock the method takes. *)
Definition insertEssay (db : Backend) (essay : NewEssay)
           (created updated : jsstring) : Backend * result Essay :=
  match db with
  | Online essays =>
      let row := stored_row essays essay created updated in
      match violated_constraint essays row with
      | Some err =>
          (db, Throw (Error (lit "Failed to insert essay: " ++ message err)))
      | None => (Online (essays ++ [row]), Ok row)
      end
  | Failing err =>
      (db, Throw (Error (lit "Failed to insert essay: " ++ message err)))
  | Unreachable e => (db, Throw e)
  end.

(** The identifiers of a table are those of a primary key. *)
Definition unique_ids (essays : list Essay) : Prop := NoDup (map id essays).

(** The identifiers of a table are written the way a UUID column gives
    them back. *)
Definition canonical_ids (essays : list Essay) : Prop :=
  Forall (fun e => Postgres.is_canonical_uuid (id e) = true) essays.

(** What the table's constraints guarantee of its rows. *)
Definition well_formed (essays : list Essay) : Prop :=
  unique_ids essays
  /\ Forall (fun e => In (type e) essay_types
                      /\ forall v, embedding e = Some v -> dimension v = 384%nat)
       essays.

(** An essay passes the WHERE clause of [match_essays]. *)
Definition qualifies (query_embedding : vector) (match_threshold : Q) (e : Essay)
  : bool :=
  match embedding e with
  | Some v => Qgt_bool (1 - cosine_distance v query_embedding) match_threshold
  | None => false
  end.

(** An essay passes the filters of [getEssaysByTopic]. *)
Definition on_topic (topic essayType : option jsstring) (e : Essay) : bool :=
  has_topic topic e
  && match essayType with
     | Some t => if truthy t then type_is t e else true
     | None => true
     end.

(** *** Predicates on answers

    Ascending distance, the same order read on similarities, and what
    the WHERE clause lets through. *)
Definition by_distance (a b : Essay * Q) : Prop := snd a <= snd b.

Definition by_similarity (a b : Match) : Prop := similarity b <= similarity a.

Definition let_through (essays : list Essay) (q : vector) (thr : Q)
           (e : Essay) (d : Q) : Prop :=
  In e essays
  /\ thr < 1 - d
  /\ exists v, embedding e = Some v /\ d = cosine_distance v q.

(** A row is a sound answer to query [q] under threshold [thr]: it is
    an essay of the table with an embedding, its [similarity] is one
    minus the distance to [q], and exceeds [thr]. *)
Definition sound_row (essays : list Essay) (q : vector) (thr : Q) (r : Match)
  : Prop :=
  In (essay r) essays
  /\ thr < similarity r
  /\ exists v, embedding (essay r) = Some v
               /\ similarity r = 1 - cosine_distance v q.

(** The rows behind a backend; none can be read during an outage. *)
Definition table (db : Backend) : list Essay :=
  match db with
  | Online essays => essays
  | Failing _ | Unreachable _ => []
  end.

(** An outage: every read answers with an error or rejects. *)
Definition outage (db : Backend) : Prop :=
  match db with
  | Online _ => False
  | Failing _ | Unreachable _ => True
  end.

(** *** The query as the specification words it

    Filter by category first, then keep what exceeds the threshold,
    rank, and cut at the limit. *)
Definition spec_query (essays : list Essay) (queryVector : vector)
           (categoryFilter : option jsstring) (threshold : Q) (limit : Z)
  : list Match :=
  let pool :=
    match categoryFilter with
    | Some t => filter (type_is t) essays
    | None => essays
    end in
  firstn (Z.to_nat limit)
    (map select_row (order_by_distance (where_clause queryVector threshold pool))).

End Store.

Arguments Rejected {A} e.
Arguments Settled {A} data error.
Arguments Failing {vector} error.
Arguments Unreachable {vector} e.
Arguments by_distance {vector} a b.
Arguments by_similarity {vector} a b.
Arguments select_row {vector} p.

End SupabaseService.

(** ** WritingSpecialistAgent *)

Module WritingSpecialistAgent.

Module ES := EmbeddingService.
Module DB := SupabaseService.

(** *** Data *)

Inductive EssayType : Type :=
| personal_statement | supplemental | common_app | other.

Record EssayStructure : Type := {
  hook : jsstring;
  exposition : jsstring;
  conflict : jsstring;
  learning : jsstring;
  conclusion : jsstring
}.

Record EssayAnalysis : Type := {
  type : EssayType;
  college : option jsstring;
  prompt : option jsstring;
  structure : EssayStructure;
  topics : list jsstring;
  strengths : list jsstring;
  weaknesses : list jsstring;
  suggestions : list jsstring
}.

(** The [input] object of a tool invocation, read at the properties
    [handleToolCall] reads.  [None] is an absent property
    ([undefined]).  [essay_text], on which [analyzeEssay] calls a string
    method, is any JSON value; the properties that are handed on to the
    services have the JSON type their schema declares. *)
Record ToolInput : Type := {
  essay_text : option JsValue;
  analysis_type : option jsstring;
  query : option jsstring;
  essay_type : option jsstring;
  limit : option Z;
  topic : option jsstring
}.

Definition no_input : ToolInput :=
  {| essay_text := None; analysis_type := None; query := None;
     essay_type := None; limit := None; topic := None |}.

(** Content blocks of a model response. *)
Inductive ContentBlock : Type :=
| TextBlock (text : jsstring)
| ToolUseBlock (id name : jsstring) (input : ToolInput)
| OtherBlock (kind : jsstring).

Record Message : Type := { content : list ContentBlock }.

(** Tool schemas sent with every request. *)
Record Property : Type := {
  prop_name : jsstring;
  prop_type : jsstring;
  prop_enum : option (list jsstring);
  prop_description : jsstring;
  prop_default : option Z
}.

Record Tool : Type := {
  name : jsstring;
  description : jsstring;
  properties : list Property;
  required : list jsstring
}.

Definition string_prop (n d : jsstring) (e : option (list jsstring)) : Property :=
  {| prop_name := n; prop_type := lit "string"; prop_enum := e;
     prop_description := d; prop_default := None |}.

Definition tools : list Tool :=
  [ {| name := lit "analyze_essay";
       description :=
         lit "Analyze an essay for structure, content, and provide feedback";
       properties :=
         [ string_prop (lit "essay_text") (lit "The essay text to analyze") None;
           string_prop (lit "analysis_type") (lit "Type of analysis to perform")
             (Some [lit "quick_check"; lit "deep_analysis";
                    lit "structure_analysis"]) ];
       required := [lit "essay_text"; lit "analysis_type"] |};
    {| name := lit "search_similar_essays";
       description :=
         lit "Search for similar essays in the database using semantic similarity";
       properties :=
         [ string_prop (lit "query") (lit "Query to search for similar essays") None;
           string_prop (lit "essay_type") (lit "Type of essays to search")
             (Some [lit "personal_statement"; lit "supplemental";
                    lit "common_app"; lit "all"]);
           {| prop_name := lit "limit"; prop_type := lit "number";
              prop_enum := None;
              prop_description := lit "Number of similar essays to return";
              prop_default := Some 5%Z |} ];
       required := [lit "query"] |};
    {| name := lit "get_essay_examples";
       description := lit "Get examples of essays by topic or type";
       properties :=
         [ string_prop (lit "topic") (lit "Topic to find essay examples for") None;
           string_prop (lit "essay_type")
             (lit "Type of essay examples to retrieve")
             (Some [lit "personal_statement"; lit "supplemental";
                    lit "common_app"]) ];
       required := [lit "topic"] |} ].

(** Requests to the language model. *)
Inductive Role : Type := user | assistant.

Record ToolResultBlock : Type := {
  tool_use_id : jsstring;
  result_content : jsstring
}.

Inductive MessageContent : Type :=
| Text (s : jsstring)
| Blocks (blocks : list ContentBlock)
| ToolResults (results : list ToolResultBlock).

Record MessageParam : Type := {
  role : Role;
  param_content : MessageContent
}.

Record Request : Type := {
  model : jsstring;
  max_tokens : Z;
  messages : list MessageParam;
  request_tools : list Tool
}.

Definition apology : jsstring :=
  lit "I apologize, but I encountered an error processing your request. Please try again.".

Definition tools_fallback : jsstring :=
  lit "I processed your request using my tools.".

Definition no_text_fallback : jsstring :=
  lit "I apologize, but I could not generate a response.".

Definition newline : N := 0x0A%N.

(** The template literal of the first request. *)
Definition first_prompt (message : jsstring) : jsstring :=
  lit "You are a WritingSpecialist agent that helps students with college essays. You have access to a database of successful essays and can analyze writing, provide feedback, and suggest improvements."
  ++ [newline; newline]
  ++ lit "Current user message: " ++ message
  ++ [newline; newline]
  ++ lit "Please help the user with their writing needs. If they provide an essay to analyze, use the analyze_essay function. If they want to see examples or find similar essays, use the appropriate search functions.".

Definition claude_model : jsstring := lit "claude-3-5-sonnet-20241022".

Definition first_request (message : jsstring) : Request :=
  {| model := claude_model; max_tokens := 4000;
     messages := [ {| role := user; param_content := Text (first_prompt message) |} ];
     request_tools := tools |}.

Definition followup_request (message : jsstring) (response : Message)
           (id toolResult : jsstring) : Request :=
  {| model := claude_model; max_tokens := 4000;
     messages :=
       [ {| role := user; param_content := Text message |};
         {| role := assistant; param_content := Blocks (content response) |};
         {| role := user;
            param_content :=
              ToolResults [ {| tool_use_id := id; result_content := toolResult |} ] |} ];
     request_tools := tools |}.

(** [content.find(c => c.type === 'tool_use')] and
    [content.find(c => c.type === 'text')]. *)
Fixpoint find_tool_use (l : list ContentBlock)
  : option (jsstring * jsstring * ToolInput) :=
  match l with
  | [] => None
  | ToolUseBlock i n inp :: _ => Some (i, n, inp)
  | _ :: l' => find_tool_use l'
  end.

Fixpoint find_text (l : list ContentBlock) : option jsstring :=
  match l with
  | [] => None
  | TextBlock t :: _ => Some t
  | _ :: l' => find_text l'
  end.

(** *** analyzeEssay *)

(** [essayText.substring(0, 100)] is evaluated first: it throws when
    [essayText] is [undefined] or [null], and when it is a value of
    another type than string, none of which has a [substring]
    method. *)
Definition analyzeEssay (essayText : option JsValue) (analysisType : option jsstring)
  : result EssayAnalysis :=
  match essayText with
  | None =>
      Throw (TypeError
               (lit "Cannot read properties of undefined (reading 'substring')"))
  | Some JsNull =>
      Throw (TypeError
               (lit "Cannot read properties of null (reading 'substring')"))
  | Some (JsBoolean _) | Some (JsNumber _) | Some (JsArray _) | Some (JsObject _) =>
      Throw (TypeError (lit "essayText.substring is not a function"))
  | Some (JsString essayText) =>
      Ok {| type := personal_statement;
            college := None;
            prompt := None;
            structure :=
              {| hook := substring0 100 essayText ++ lit "...";
                 exposition := lit "Analysis of exposition section...";
                 conflict := lit "Analysis of conflict section...";
                 learning := lit "Analysis of learning/growth section...";
                 conclusion := lit "Analysis of conclusion..." |};
            topics := [lit "identity"; lit "growth"; lit "challenges"];
            strengths :=
              [lit "Strong hook"; lit "Clear narrative arc"; lit "Personal voice"];
            weaknesses :=
              [lit "Could use more specific examples";
               lit "Conclusion could be stronger"];
            suggestions :=
              [lit "Add more concrete details";
               lit "Strengthen the conclusion with future goals"] |}
  end.

(** *** Validation as the specification words it

    An invocation is valid when its tool is registered, every required
    parameter is present and every enumerated parameter takes a value
    of its closed set.  The source has no function for this; the
    definition serves to state what the dispatch does on invocations
    that fail it. *)
Definition get_property (input : ToolInput) (p : jsstring) : option jsstring :=
  if jsstring_eqb p (lit "essay_text")
  then match essay_text input with Some (JsString s) => Some s | _ => None end
  else if jsstring_eqb p (lit "analysis_type") then analysis_type input
  else if jsstring_eqb p (lit "query") then query input
  else if jsstring_eqb p (lit "essay_type") then essay_type input
  else if jsstring_eqb p (lit "topic") then topic input
  else None.

Definition is_present (input : ToolInput) (p : jsstring) : bool :=
  if jsstring_eqb p (lit "limit")
  then match limit input with Some _ => true | None => false end
  else if jsstring_eqb p (lit "essay_text")
  then match essay_text input with Some _ => true | None => false end
  else match get_property input p with Some _ => true | None => false end.

Definition enum_respected (input : ToolInput) (p : Property) : bool :=
  match prop_enum p, get_property input (prop_name p) with
  | Some allowed, Some v => existsb (jsstring_eqb v) allowed
  | _, _ => true
  end.

Inductive ValidationError : Type := UnknownTool | InvalidArguments.

Definition spec_validate (toolName : jsstring) (input : ToolInput)
  : option ValidationError :=
  match find (fun t => jsstring_eqb (name t) toolName) tools with
  | None => Some UnknownTool
  | Some t =>
      if forallb (is_present input) (required t)
         && forallb (enum_respected input) (properties t)
      then None
      else Some InvalidArguments
  end.

(** *** The turn: language-model calls, tools, processMessage *)

Section Turn.

Variable vector : Type.
Variable cosine_distance : vector -> vector -> Q.

Inductive ToolResult : Type :=
| Analysis (analysis : EssayAnalysis)
| SimilarEssays (rows : list (DB.Match vector))
| Examples (rows : list (DB.Essay vector)).

Variable JSON_stringify : ToolResult -> jsstring.

(** What lies outside the process: the language model (its answer may
    depend on how many requests the turn has already made), the
    loader of the embedding model, and the database. *)
Record World : Type := {
  anthropic_create : nat -> Request -> result Message;
  pipeline : jsstring -> result (ES.Model vector);
  database : DB.Backend vector
}.

Variable w : World.

(** The state a turn threads: the requests sent so far, oldest first,
    and the shared embedding service. *)
Record AgentState : Type := {
  requests : list Request;
  embeddingService : ES.State vector
}.

Definition M (A : Type) : Type := AgentState -> result A * AgentState.

Definition ret {A : Type} (a : A) : M A := fun st => (Ok a, st).

Definition bind {A B : Type} (m : M A) (k : A -> M B) : M B :=
  fun st =>
    match m st with
    | (Ok a, st') => k a st'
    | (Throw e, st') => (Throw e, st')
    end.

Definition throw {A : Type} (e : exn) : M A := fun st => (Throw e, st).

Definition lift {A : Type} (r : result A) : M A := fun st => (r, st).

Definition try_catch {A : Type} (body : M A) (handler : exn -> M A) : M A :=
  fun st =>
    match body st with
    | (Ok a, st') => (Ok a, st')
    | (Throw e, st') => handler e st'
    end.

Notation "x <- m ;; k" := (bind m (fun x => k))
  (at level 61, m at next level, right associativity).

(** [this.anthropic.messages.create(request)]. *)
Definition messages_create (request : Request) : M Message :=
  fun st =>
    (anthropic_create w (length (requests st)) request,
     {| requests := requests st ++ [request];
        embeddingService := embeddingService st |}).

(** [this.embeddingService.generateEmbedding(text)]. *)
Definition generateEmbedding (text : option jsstring) : M vector :=
  fun st =>
    let '(s', r) := ES.generateEmbedding (pipeline w) (embeddingService st) text in
    (r, {| requests := requests st; embeddingService := s' |}).

Definition searchSimilarEssays (query essayType : option jsstring)
           (limit : option Z) : M (list (DB.Match vector)) :=
  let essayType := or_default essayType (lit "all") in
  let limit := or_default limit 5%Z in
  try_catch
    (queryEmbedding <- generateEmbedding query ;;
     ret (DB.searchSimilarEssays cosine_distance (database w) queryEmbedding
            (if jsstring_eqb essayType (lit "all") then None else Some essayType)
            (Some limit) None))
    (fun _ => ret []).

Definition getEssayExamples (topic essayType : option jsstring)
  : M (list (DB.Essay vector)) :=
  try_catch
    (lift (DB.getEssaysByTopic (database w) topic essayType None))
    (fun _ => ret []).

Definition handleToolCall (toolName : jsstring) (input : ToolInput)
  : M ToolResult :=
  if jsstring_eqb toolName (lit "analyze_essay") then
    a <- lift (analyzeEssay (essay_text input) (analysis_type input)) ;;
    ret (Analysis a)
  else if jsstring_eqb toolName (lit "search_similar_essays") then
    rows <- searchSimilarEssays (query input) (essay_type input) (limit input) ;;
    ret (SimilarEssays rows)
  else if jsstring_eqb toolName (lit "get_essay_examples") then
    rows <- getEssayExamples (topic input) (essay_type input) ;;
    ret (Examples rows)
  else
    throw (Error (lit "Unknown tool: " ++ toolName)).

(** The [try] block of [processMessage]. *)
Definition processMessage_body (message : jsstring) : M jsstring :=
  response <- messages_create (first_request message) ;;
  match find_tool_use (content response) with
  | Some (id, name, input) =>
      toolResult <- handleToolCall name input ;;
      followUpResponse <-
        messages_create
          (followup_request message response id (JSON_stringify toolResult)) ;;
      ret (match find_text (content followUpResponse) with
           | Some text => text
           | None => tools_fallback
           end)
  | None =>
      ret (match find_text (content response) with
           | Some text => text
           | None => no_text_fallback
           end)
  end.

Definition processMessage (message sessionId : jsstring) : M jsstring :=
  try_catch (processMessage_body message) (fun _ => ret apology).

(** Observations on one turn started in state [st]. *)
Definition answer (message sessionId : jsstring) (st : AgentState)
  : result jsstring :=
  fst (processMessage message sessionId st).

Definition requests_sent (message sessionId : jsstring) (st : AgentState)
  : list Request :=
  skipn (length (requests st))
    (requests (snd (processMessage message sessionId st))).

Definition followup_calls (message sessionId : jsstring) (st : AgentState)
  : list Request :=
  tl (requests_sent message sessionId st).

(** What a tool call returns or throws, and the embedding service it
    leaves behind, started from embedding service [s]. *)
Definition tool_outcome (s : ES.State vector) (toolName : jsstring)
           (input : ToolInput) : result ToolResult * ES.State vector :=
  let '(r, st') :=
    handleToolCall toolName input {| requests := []; embeddingService := s |} in
  (r, embeddingService st').

Definition registered_names : list jsstring := map name tools.

(** The record [a] with its [hook] replaced. *)
Definition set_hook (h : jsstring) (a : EssayAnalysis) : EssayAnalysis :=
  {| type := type a; college := college a; prompt := prompt a;
     structure :=
       {| hook := h;
          exposition := exposition (structure a);
          conflict := conflict (structure a);
          learning := learning (structure a);
          conclusion := conclusion (structure a) |};
     topics := topics a; strengths := strengths a;
     weaknesses := weaknesses a; suggestions := suggestions a |}.

End Turn.

Arguments Analysis {vector} analysis.
Arguments SimilarEssays {vector} rows.
Arguments Examples {vector} rows.

End WritingSpecialistAgent.

(** ** The server: start-up, socket events, HTTP routes *)

Module Server.

Module ES := EmbeddingService.
Module DB := SupabaseService.
Module Agent := WritingSpecialistAgent.

(** [s || d] on an optional string: the empty string is falsy too. *)
Definition string_or (s : option jsstring) (d : jsstring) : jsstring :=
  match s with
  | Some (c :: r) => c :: r
  | _ => d
  end.

(** [n || d] on an optional number: zero is falsy too. *)
Definition number_or (n : option Z) (d : Z) : Z :=
  match n with
  | Some 0%Z | None => d
  | Some n => n
  end.

Definition quote : N := 0x22%N.

(** The message the [analyze_essay] event hands to the agent. *)
Definition analysisMessage (essayText : jsstring) (analysisType : option jsstring)
  : jsstring :=
  lit "Please analyze this essay using "
  ++ string_or analysisType (lit "deep_analysis")
  ++ lit ": " ++ [quote] ++ essayText ++ [quote].

(** The message the [find_similar_essays] event hands to the agent. *)
Definition searchMessage (query : jsstring) (essayType : option jsstring)
  : jsstring :=
  lit "Find similar essays for: " ++ [quote] ++ query ++ [quote]
  ++ lit " of type: " ++ string_or essayType (lit "all").

(** Events the server emits on a socket. *)
Inductive Emitted : Type :=
| error (message : jsstring)
| agent_typing (on : bool)
| agent_message (message timestamp sessionId : jsstring)
| essay_analysis (analysis timestamp sessionId : jsstring)
| similar_essays (results timestamp sessionId : jsstring).

Definition still_initializing : jsstring :=
  lit "AI services are still initializing. Please wait a moment and try again.".

(** Answers of the HTTP routes: the JSON body of a 200, or a status with
    an error message. *)
Inductive HttpResponse (A : Type) : Type :=
| Json (body : A)
| Failed (status : Z) (error : jsstring).
Arguments Failed {A} status error.

Section Process.

Variable vector : Type.
Variable cosine_distance : vector -> vector -> Q.
Variable JSON_stringify : Agent.ToolResult vector -> jsstring.
Variable gen_random_uuid : list (DB.Essay vector) -> jsstring.
Variable dimension : vector -> nat.
Variable float4 : vector -> vector.
Variable timestamptz : jsstring -> jsstring.
Variable w : Agent.World vector.

(** [initializeServices]: load the model, warm it up, and only then set
    [isEmbeddingServiceReady]; any failure leaves the flag unset.  The
    connection test that follows catches its own errors. *)
Definition initializeServices (s : ES.State vector) : ES.State vector * bool :=
  match ES.initializeModel (Agent.pipeline w) s with
  | (s1, Throw _) => (s1, false)
  | (s1, Ok _) =>
      match ES.warmUp (Agent.pipeline w) s1 with
      | (s2, Throw _) => (s2, false)
      | (s2, Ok _) => (s2, true)
      end
  end.

(** The common shape of the three socket handlers: refuse while the
    service is not ready; otherwise switch the typing indicator on, ask
    the agent, switch the indicator off and emit the result; on an
    exception switch the indicator off and emit [failure]. *)
Definition respond (isEmbeddingServiceReady : bool) (message : jsstring)
           (sessionId : option jsstring)
           (result_event : jsstring -> jsstring -> Emitted) (failure : jsstring)
           (st : Agent.AgentState vector)
  : list Emitted * Agent.AgentState vector :=
  if negb isEmbeddingServiceReady then ([error still_initializing], st)
  else
    match Agent.processMessage cosine_distance JSON_stringify w message
            (string_or sessionId (lit "default")) st with
    | (Ok response, st') =>
        ([agent_typing true; agent_typing false;
          result_event response (string_or sessionId (lit "default"))], st')
    | (Throw _, st') =>
        ([agent_typing true; agent_typing false; error failure], st')
    end.

Definition on_user_message (ready : bool) (message : jsstring)
           (sessionId : option jsstring) (now : jsstring) :=
  respond ready message sessionId
    (fun response session => agent_message response now session)
    (lit "Sorry, I encountered an error processing your request. Please try again.").

Definition on_analyze_essay (ready : bool) (essayText : jsstring)
           (analysisType sessionId : option jsstring) (now : jsstring) :=
  respond ready (analysisMessage essayText analysisType) sessionId
    (fun response session => essay_analysis response now session)
    (lit "Sorry, I encountered an error analyzing your essay. Please try again.").

Definition on_find_similar_essays (ready : bool) (query : jsstring)
           (essayType : option jsstring) (limit : option Z)
           (sessionId : option jsstring) (now : jsstring) :=
  respond ready (searchMessage query essayType) sessionId
    (fun response session => similar_essays response now session)
    (lit "Sorry, I encountered an error finding similar essays. Please try again.").

(** [POST /api/essays/search]. *)
Definition post_essays_search (ready : bool) (query essayType : option jsstring)
           (limit : option Z) (s : ES.State vector)
  : HttpResponse (list (DB.Match vector)) * ES.State vector :=
  if negb ready then (Failed 503 (lit "Embedding service not ready"), s)
  else
    match ES.generateEmbedding (Agent.pipeline w) s query with
    | (s', Ok queryEmbedding) =>
        (Json (DB.searchSimilarEssays cosine_distance (Agent.database w)
                 queryEmbedding essayType (Some (number_or limit 5)) None), s')
    | (s', Throw _) => (Failed 500 (lit "Failed to search essays"), s')
    end.

(** [GET /api/essays/:id]. *)
Definition get_essay (db : DB.Backend vector) (id : jsstring)
  : HttpResponse (DB.Essay vector) :=
  match DB.getEssayById db id with
  | Ok (Some essay) => Json essay
  | Ok None => Failed 404 (lit "Essay not found")
  | Throw _ => Failed 500 (lit "Failed to fetch essay")
  end.

(** [essayData.embedding = embedding]. *)
Definition with_embedding (essayData : DB.NewEssay vector) (v : vector)
  : DB.NewEssay vector :=
  {| DB.new_title := DB.new_title essayData;
     DB.new_content := DB.new_content essayData;
     DB.new_type := DB.new_type essayData;
     DB.new_college := DB.new_college essayData;
     DB.new_prompt := DB.new_prompt essayData;
     DB.new_topics := DB.new_topics essayData;
     DB.new_structure_analysis := DB.new_structure_analysis essayData;
     DB.new_metadata := DB.new_metadata essayData;
     DB.new_embedding := Some v |}.

(** [POST /api/essays]: the body is embedded when the service is ready,
    and stored as it came otherwise. *)
Definition post_essays (ready : bool) (essayData : DB.NewEssay vector)
           (created updated : jsstring) (s : ES.State vector)
           (db : DB.Backend vector)
  : HttpResponse (DB.Essay vector) * ES.State vector * DB.Backend vector :=
  let '(s', prepared) :=
    if ready then
      match ES.generateEmbedding (Agent.pipeline w) s
              (Some (DB.new_content essayData)) with
      | (s', Ok embedding) => (s', Ok (with_embedding essayData embedding))
      | (s', Throw e) => (s', Throw e)
      end
    else (s, Ok essayData) in
  match prepared with
  | Throw _ => (Failed 500 (lit "Failed to add essay"), s', db)
  | Ok essayData =>
      match DB.insertEssay gen_random_uuid dimension float4 timestamptz db
              essayData created updated with
      | (db', Ok essay) => (Json essay, s', db')
      | (db', Throw _) => (Failed 500 (lit "Failed to add essay"), s', db')
      end
  end.

End Process.

End Server.

(** ** The import script *)

Module ImportScript.

Module ES := EmbeddingService.
Module DB := SupabaseService.

(** An entry of the JSON file. *)
Record JsonEssay : Type := {
  id : option jsstring;
  title : option jsstring;
  content : jsstring;
  type : option jsstring;
  college : option jsstring;
  prompt : option jsstring;
  topics : option (list jsstring)
}.

(** The decimal digits of a number, as a template literal prints it. *)
Definition decimal (n : nat) : jsstring :=
  lit (DecimalString.NilEmpty.string_of_uint (Nat.to_uint n)).

Section Script.

Variable vector : Type.
Variable gen_random_uuid : list (DB.Essay vector) -> jsstring.
Variable dimension : vector -> nat.
Variable float4 : vector -> vector.
Variable timestamptz : jsstring -> jsstring.
Variable pipeline : jsstring -> result (ES.Model vector).

(** The two readings of the clock [insertEssay] takes for the essay at
    index [i]. *)
Variable clock : nat -> jsstring * jsstring.

(** The argument the script passes to [insertEssay] for the essay at
    index [i]. *)
Definition prepared (i : nat) (essay : JsonEssay) (embedding : vector)
  : DB.NewEssay vector :=
  {| DB.new_title :=
       Some (Server.string_or (title essay) (lit "Essay " ++ decimal (i + 1)));
     DB.new_content := content essay;
     DB.new_type := Server.string_or (type essay) (lit "personal_statement");
     DB.new_college := college essay;
     DB.new_prompt := prompt essay;
     DB.new_topics := match topics essay with Some t => t | None => [] end;
     DB.new_structure_analysis := None;
     DB.new_metadata := None;
     DB.new_embedding := Some embedding |}.

(** The body of the [for] loop from index [i] on: an essay whose
    embedding or insertion throws is logged and skipped. *)
Fixpoint import_loop (i : nat) (essaysData : list JsonEssay)
         (s : ES.State vector) (db : DB.Backend vector)
  : ES.State vector * DB.Backend vector :=
  match essaysData with
  | [] => (s, db)
  | essay :: rest =>
      match ES.generateEmbedding pipeline s (Some (content essay)) with
      | (s', Ok embedding) =>
          let '(db', _) :=
            DB.insertEssay gen_random_uuid dimension float4 timestamptz db
              (prepared i essay embedding) (fst (clock i)) (snd (clock i)) in
          import_loop (S i) rest s' db'
      | (s', Throw _) => import_loop (S i) rest s' db
      end
  end.

(** [processJsonEssays]: nothing is imported when the model fails to
    load at the start. *)
Definition processJsonEssays (essaysData : list JsonEssay)
           (s : ES.State vector) (db : DB.Backend vector)
  : ES.State vector * DB.Backend vector :=
  match ES.initializeModel pipeline s with
  | (s', Throw _) => (s', db)
  | (s', Ok _) => import_loop 0 essaysData s' db
  end.

End Script.

End ImportScript.

(** ** Sample data

    Embeddings of the samples are rational vectors of length one, for
    which the cosine distance is one minus the dot product. *)

Module Scenario.

Module DB := SupabaseService.
Module Agent := WritingSpecialistAgent.

Local Open Scope Q_scope.

Definition vec : Type := list Q.

Fixpoint dot (a b : vec) : Q :=
  match a, b with
  | x :: a', y :: b' => x * y + dot a' b'
  | _, _ => 0
  end.

Definition unit_cosine_distance (a b : vec) : Q := 1 - dot a b.

Definition sample_essay (i t : jsstring) (v : vec) : DB.Essay vec :=
  {| DB.id := i; DB.title := None; DB.content := lit "sample";
     DB.type := t; DB.college := None; DB.prompt := None;
     DB.topics := [lit "identity"]; DB.structure_analysis := None;
     DB.metadata := None; DB.embedding := Some v;
     DB.created_at := lit "2024-01-01T00:00:00Z";
     DB.updated_at := lit "2024-01-01T00:00:00Z" |}.

Definition query_vector : vec := [1; 0].

(** Similarity 1 to the query. *)
Definition essay_a : DB.Essay vec :=
  sample_essay (lit "a") (lit "supplemental") [1; 0].

(** Similarity 4/5 to the query. *)
Definition essay_b : DB.Essay vec :=
  sample_essay (lit "b") (lit "personal_statement") [4 # 5; 3 # 5].

(** Similarity 21/29, between 0.7 and 0.78. *)
Definition essay_c : DB.Essay vec :=
  sample_essay (lit "c") (lit "personal_statement") [21 # 29; 20 # 29].

Definition ids (rows : list (DB.Match vec)) : list jsstring :=
  map (fun r => DB.id (DB.essay r)) rows.

(** A loaded embedding model that maps every text to the query vector. *)
Definition constant_model : EmbeddingService.Model vec :=
  fun _ => Ok query_vector.

Definition loaded_service : EmbeddingService.State vec :=
  {| EmbeddingService.model := Some constant_model;
     EmbeddingService.modelName := lit "Xenova/all-MiniLM-L6-v2";
     EmbeddingService.isLoading := false |}.

Definition start : Agent.AgentState vec :=
  {| Agent.requests := []; Agent.embeddingService := loaded_service |}.

(** A serialiser that tells the three kinds of tool result apart. *)
Definition stringify (r : Agent.ToolResult vec) : jsstring :=
  match r with
  | Agent.Analysis _ => lit "{analysis}"
  | Agent.SimilarEssays _ => lit "[similar]"
  | Agent.Examples _ => lit "[examples]"
  end.

Definition tool_use (name : jsstring) (input : Agent.ToolInput) : Agent.Message :=
  {| Agent.content :=
       [Agent.TextBlock (lit "Let me look."); Agent.ToolUseBlock (lit "toolu_1") name input] |}.

Definition final_text : Agent.Message :=
  {| Agent.content := [Agent.TextBlock (lit "Here is my feedback.")] |}.

(** A language model that first asks for [name] on [input] and then
    answers in plain text. *)
Definition scripted_world (name : jsstring) (input : Agent.ToolInput)
  : Agent.World vec :=
  {| Agent.anthropic_create :=
       fun n _ => match n with
                  | O => Ok (tool_use name input)
                  | _ => Ok final_text
                  end;
     Agent.pipeline := fun _ => Ok constant_model;
     Agent.database := DB.Online [essay_a; essay_b; essay_c] |}.

(** The same, with the database answering every read with an error. *)
Definition offline_world (name : jsstring) (input : Agent.ToolInput)
  : Agent.World vec :=
  {| Agent.anthropic_create := Agent.anthropic_create (scripted_world name input);
     Agent.pipeline := fun _ => Ok constant_model;
     Agent.database :=
       DB.Failing {| DB.message := lit "connection refused"; DB.code := lit "503" |} |}.

Definition search_input : Agent.ToolInput :=
  {| Agent.essay_text := None; Agent.analysis_type := None;
     Agent.query := Some (lit "essays about identity");
     Agent.essay_type := Some (lit "personal_statement");
     Agent.limit := Some 2%Z; Agent.topic := Some (lit "identity") |}.

(** A language model whose every call fails. *)
Definition unreachable_model : Agent.World vec :=
  {| Agent.anthropic_create := fun _ _ => Throw (Error (lit "529 overloaded"));
     Agent.pipeline := fun _ => Ok constant_model;
     Agent.database := DB.Online [essay_a; essay_b; essay_c] |}.

Definition review_request : jsstring := lit "Please review my essay.".
Definition session : jsstring := lit "session-1".

Definition missing_analysis_type : Agent.ToolInput :=
  {| Agent.essay_text := Some (JsString (lit "My essay."));
     Agent.analysis_type := None;
     Agent.query := None; Agent.essay_type := None;
     Agent.limit := None; Agent.topic := None |}.

(** A stable insertion sort driven by the sign of the comparison
    function, as [Array.prototype.sort] reads it. *)
Fixpoint sort_insert {A : Type} (cmp : A -> A -> float) (x : A) (l : list A)
  : list A :=
  match l with
  | [] => [x]
  | y :: l' =>
      if (0 <? cmp x y)%float then y :: sort_insert cmp x l' else x :: l
  end.

Definition insertion_sort {A : Type} (cmp : A -> A -> float) (l : list A)
  : list A :=
  fold_right (sort_insert cmp) [] l.

Definition candidate (v : list float) (tag : jsstring)
  : EmbeddingService.Candidate jsstring :=
  {| EmbeddingService.embedding := v; EmbeddingService.metadata := tag |}.

Definition candidates : list (EmbeddingService.Candidate jsstring) :=
  [ candidate [0; 1]%float (lit "orthogonal");
    candidate [1; 1]%float (lit "diagonal");
    candidate [2; 0]%float (lit "parallel") ].

(** Eleven texts: more than one chunk of ten. *)
Definition eleven_texts : list jsstring :=
  map (fun n => lit "essay " ++ [N.of_nat n + 0x30]%N) (seq 0 11).

(** A fresh service on which a first caller has started the load, and
    the schedule of a second caller that arrives, resumes before the
    load settles, and of the load then succeeding. *)
Definition first_caller_loading : EmbeddingService.Loop vec :=
  EmbeddingService.run
    (EmbeddingService.boot (EmbeddingService.new vec None))
    [EmbeddingService.Call 1 (Some (lit "first"))].

Definition overlapping_caller : list (EmbeddingService.event vec) :=
  [ EmbeddingService.Call 2 (Some (lit "second"));
    EmbeddingService.Continue 2;
    EmbeddingService.PipelineSettled (Ok constant_model) ].

(** A loader that cannot fetch the model. *)
Definition offline_pipeline : jsstring -> result (EmbeddingService.Model vec) :=
  fun _ => Throw (Error (lit "fetch failed")).

(** Identifiers drawn from the size of the table, and the length of a
    rational vector as its dimension. *)
Definition sample_uuid (essays : list (DB.Essay vec)) : jsstring :=
  lit "00000000-0000-4000-8000-00000000000"
  ++ [N.of_nat (length essays) + 0x30]%N.

Definition sample_dimension (v : vec) : nat := length v.

(** A column that keeps 24 binary digits after the point of each
    coordinate, and one that prints a timestamp to the second with its
    offset. *)
Definition sample_float4 (v : vec) : vec :=
  map (fun q => Qred ((Qnum q * 16777216 / Zpos (Qden q))%Z # 16777216)) v.

Definition sample_timestamptz (t : jsstring) : jsstring :=
  firstn 19 t ++ lit "+00:00".

(** Two essays under identifiers as the database prints them. *)
Definition essay_e : DB.Essay vec :=
  sample_essay (lit "11111111-1111-4111-8111-111111111111")
    (lit "supplemental") [1; 0].

Definition essay_f : DB.Essay vec :=
  sample_essay (lit "22222222-2222-4222-8222-222222222222")
    (lit "personal_statement") [4 # 5; 3 # 5].

(** An essay stored without an embedding. *)
Definition essay_d : DB.Essay vec :=
  {| DB.id := lit "d"; DB.title := None; DB.content := lit "draft";
     DB.type := lit "other"; DB.college := None; DB.prompt := None;
     DB.topics := [lit "growth"]; DB.structure_analysis := None;
     DB.metadata := None; DB.embedding := None;
     DB.created_at := lit "2024-01-01T00:00:00Z";
     DB.updated_at := lit "2024-01-01T00:00:00Z" |}.

Definition new_essay : DB.NewEssay vec :=
  {| DB.new_title := Some (lit "Why I write");
     DB.new_content := lit "I write to think.";
     DB.new_type := lit "common_app";
     DB.new_college := None; DB.new_prompt := None;
     DB.new_topics := [lit "identity"];
     DB.new_structure_analysis := None; DB.new_metadata := None;
     DB.new_embedding := None |}.

(** A language model that answers in plain text at once. *)
Definition plain_world : Agent.World vec :=
  {| Agent.anthropic_create := fun _ _ => Ok final_text;
     Agent.pipeline := fun _ => Ok constant_model;
     Agent.database := DB.Online [essay_a; essay_b; essay_c] |}.

(** An essay text that is a number. *)
Definition numeric_essay_text : Agent.ToolInput :=
  {| Agent.essay_text := Some (JsNumber 42%float);
     Agent.analysis_type := Some (lit "quick_check");
     Agent.query := None; Agent.essay_type := None;
     Agent.limit := None; Agent.topic := None |}.

Definition bogus_analysis : Agent.ToolInput :=
  {| Agent.essay_text := Some (JsString (lit "My essay."));
     Agent.analysis_type := Some (lit "bogus");
     Agent.query := None; Agent.essay_type := None;
     Agent.limit := None; Agent.topic := None |}.

End Scenario.

(* ===================================================================== *)
(** * Part II: properties                                                 *)
(* ===================================================================== *)

(** ** EmbeddingService *)

Section EmbeddingServiceFacts.

Import EmbeddingService.

(** *** preprocessText *)

Lemma isWordChar_ascii c : isWordChar c = true -> (c < 128)%N.
Proof.
  unfold isWordChar.
  rewrite !orb_true_iff, !andb_true_iff, !N.leb_le, N.eqb_eq. lia.
Qed.

Lemma punctuation_ascii c :
  existsb (N.eqb c) (lit ".,!?;:()-'" ++ [0x22%N]) = true -> (c < 128)%N.
Proof.
  rewrite existsb_exists. intros [x [Hin Heq]].
  apply N.eqb_eq in Heq. subst x.
  cbn in Hin.
  repeat (destruct Hin as [<- | Hin]; [lia |]). destruct Hin.
Qed.

(** After the first [replace] the only whitespace left is the space. *)
Lemma collapse_only_spaces b s :
  Forall (fun c => isWhiteSpace c = true -> c = space) (collapse_from b s).
Proof.
  revert b. induction s as [| c s IH]; intros b; cbn; [constructor |].
  destruct (isWhiteSpace c) eqn:Hc.
  - destruct b; [apply IH | constructor; [reflexivity | apply IH]].
  - constructor; [congruence | apply IH].
Qed.

(** What reaches [toLowerCase] in [preprocessText] is ASCII. *)
Lemma cleaned_is_ascii s :
  Forall (fun c => (c < 128)%N) (removeSpecial (collapseWhitespace s)).
Proof.
  unfold removeSpecial, collapseWhitespace.
  pose proof (collapse_only_spaces false s) as H.
  induction H as [| c l Hc _ IH]; cbn; [constructor |].
  destruct (isKept c) eqn:Hk; [| exact IH].
  constructor; [| exact IH].
  unfold isKept in Hk. rewrite !orb_true_iff in Hk.
  destruct Hk as [[Hw | Hs] | Hp].
  - now apply isWordChar_ascii.
  - rewrite (Hc Hs). unfold space. lia.
  - now apply punctuation_ascii.
Qed.

(** C5: normalisation is not idempotent.  The text [a # b] is cleaned to
    [a  b] with two spaces, because the character is removed after the
    whitespace runs were collapsed; cleaning that once more gives
    [a b]. *)
Theorem preprocessText_twice_differs :
  preprocessText (lit "a # b") = lit "a  b"
  /\ preprocessText (preprocessText (lit "a # b")) = lit "a b"
  /\ preprocessText (preprocessText (lit "a # b")) <> preprocessText (lit "a # b").
Proof.
  split; [reflexivity |]. split; [reflexivity |].
  vm_compute. discriminate.
Qed.

(** Lowercasing touches neither whitespace nor what is kept, so it
    commutes with the other three steps. *)

Lemma upper_not_whitespace c :
  ((0x41 <=? c) && (c <=? 0x5A))%N = true ->
  isWhiteSpace c = false /\ isWhiteSpace (c + 0x20) = false.
Proof.
  rewrite andb_true_iff, !N.leb_le. intros [Hlo Hhi].
  unfold isWhiteSpace. cbn [existsb].
  split; rewrite !orb_false_iff, andb_false_iff, !N.eqb_neq, !N.leb_gt;
    repeat split; try lia.
Qed.

Lemma toLowerCase_unit_whitespace c :
  isWhiteSpace (toLowerCase_unit c) = isWhiteSpace c.
Proof.
  unfold toLowerCase_unit.
  destruct ((0x41 <=? c) && (c <=? 0x5A))%N eqn:Hup; [| reflexivity].
  destruct (@upper_not_whitespace _ Hup) as [-> ->]. reflexivity.
Qed.

Lemma toLowerCase_unit_idem c :
  toLowerCase_unit (toLowerCase_unit c) = toLowerCase_unit c.
Proof.
  unfold toLowerCase_unit.
  destruct ((0x41 <=? c) && (c <=? 0x5A))%N eqn:Hup; [| now rewrite Hup].
  apply andb_true_iff in Hup. rewrite !N.leb_le in Hup.
  replace ((0x41 <=? c + 0x20) && (c + 0x20 <=? 0x5A))%N with false; [reflexivity |].
  symmetry. apply andb_false_iff. right. apply N.leb_gt. lia.
Qed.

Lemma toLowerCase_unit_kept c : isKept (toLowerCase_unit c) = isKept c.
Proof.
  unfold toLowerCase_unit.
  destruct ((0x41 <=? c) && (c <=? 0x5A))%N eqn:Hup; [| reflexivity].
  apply andb_true_iff in Hup. rewrite !N.leb_le in Hup.
  unfold isKept, isWordChar.
  replace ((0x41 <=? c) && (c <=? 0x5A))%N with true
    by (symmetry; apply andb_true_iff; rewrite !N.leb_le; lia).
  replace ((0x61 <=? c + 0x20) && (c + 0x20 <=? 0x7A))%N with true
    by (symmetry; apply andb_true_iff; rewrite !N.leb_le; lia).
  now rewrite !orb_true_r.
Qed.

Lemma trimStart_toLowerCase s : trimStart (toLowerCase s) = toLowerCase (trimStart s).
Proof.
  induction s as [| c s IH]; cbn; [reflexivity |].
  rewrite toLowerCase_unit_whitespace. destruct (isWhiteSpace c); [exact IH | reflexivity].
Qed.

Lemma rev_toLowerCase s : rev (toLowerCase s) = toLowerCase (rev s).
Proof. unfold toLowerCase. symmetry. apply map_rev. Qed.

Lemma trim_toLowerCase s : trim (toLowerCase s) = toLowerCase (trim s).
Proof.
  unfold trim, trimEnd.
  now rewrite trimStart_toLowerCase, rev_toLowerCase, trimStart_toLowerCase,
    rev_toLowerCase.
Qed.

Lemma collapse_toLowerCase b s :
  collapse_from b (toLowerCase s) = toLowerCase (collapse_from b s).
Proof.
  revert b. induction s as [| c s IH]; intros b; cbn; [reflexivity |].
  rewrite toLowerCase_unit_whitespace.
  destruct (isWhiteSpace c); [destruct b |]; cbn; now rewrite IH.
Qed.

Lemma removeSpecial_toLowerCase s :
  removeSpecial (toLowerCase s) = toLowerCase (removeSpecial s).
Proof.
  unfold removeSpecial, toLowerCase.
  induction s as [| c s IH]; cbn; [reflexivity |].
  rewrite toLowerCase_unit_kept. destruct (isKept c); cbn; now rewrite IH.
Qed.

Lemma toLowerCase_idem s : toLowerCase (toLowerCase s) = toLowerCase s.
Proof.
  unfold toLowerCase. rewrite map_map. apply map_ext. apply toLowerCase_unit_idem.
Qed.

(** Collapsing whitespace runs is idempotent. *)
Lemma collapse_from_idem s :
  collapse_from true (collapse_from true s) = collapse_from true s
  /\ collapse_from false (collapse_from false s) = collapse_from false s.
Proof.
  induction s as [| c s [IHt IHf]]; cbn; [split; reflexivity |].
  destruct (isWhiteSpace c) eqn:Hc; cbn.
  - split; [exact IHt |]. change (isWhiteSpace space) with true. cbn. now rewrite IHt.
  - rewrite Hc. now rewrite IHf.
Qed.

Lemma collapse_from_snoc b s z :
  isWhiteSpace z = false -> collapse_from b (s ++ [z]) = collapse_from b s ++ [z].
Proof.
  intros Hz. revert b. induction s as [| c s IH]; intros b; cbn.
  - now rewrite Hz.
  - destruct (isWhiteSpace c); [destruct b |]; cbn; now rewrite IH.
Qed.

Lemma collapse_from_kept b s :
  Forall (fun c => isKept c = true) s ->
  removeSpecial (collapse_from b s) = collapse_from b s.
Proof.
  intros H. revert b. unfold removeSpecial.
  induction H as [| c s Hc _ IH]; intros b; cbn; [reflexivity |].
  destruct (isWhiteSpace c); [destruct b |]; cbn; rewrite ?Hc, IH; reflexivity.
Qed.

(** Trimming. *)
Lemma trimStart_length s : length (trimStart s) <= length s.
Proof.
  induction s as [| c s IH]; cbn; [lia |]. destruct (isWhiteSpace c); cbn; lia.
Qed.

Lemma trimStart_fixed s :
  trimStart s = s <-> match s with [] => True | c :: _ => isWhiteSpace c = false end.
Proof.
  destruct s as [| c s]; cbn; [tauto |].
  destruct (isWhiteSpace c) eqn:Hc; split; try congruence; try reflexivity.
  intros H. pose proof (trimStart_length s) as Hl. rewrite H in Hl. cbn in Hl. lia.
Qed.

Lemma trimStart_idem s : trimStart (trimStart s) = trimStart s.
Proof.
  induction s as [| c s IH]; cbn; [reflexivity |].
  destruct (isWhiteSpace c) eqn:Hc; [exact IH |]. cbn. now rewrite Hc.
Qed.

Lemma trimStart_suffix s : exists p, s = p ++ trimStart s.
Proof.
  induction s as [| c s [p Hp]]; cbn; [now exists [] |].
  destruct (isWhiteSpace c); [| now exists []].
  exists (c :: p). cbn. now rewrite <- Hp.
Qed.

Lemma trimStart_prefix_fixed x y : trimStart (x ++ y) = x ++ y -> trimStart x = x.
Proof.
  destruct x as [| c x]; [reflexivity |]. intros H.
  apply trimStart_fixed in H. now apply trimStart_fixed.
Qed.

Lemma Forall_trimStart (P : N -> Prop) s : Forall P s -> Forall P (trimStart s).
Proof.
  induction 1 as [| c s Hc Hs IH]; cbn; [constructor |].
  destruct (isWhiteSpace c); [exact IH | now constructor].
Qed.

Lemma Forall_trim (P : N -> Prop) s : Forall P s -> Forall P (trim s).
Proof.
  intros H. unfold trim, trimEnd.
  apply Forall_rev, Forall_trimStart, Forall_rev, Forall_trimStart, H.
Qed.

Lemma trim_trimmed s : trimmed s -> trim s = s.
Proof.
  intros [Hs He]. unfold trim, trimEnd. now rewrite Hs, He, rev_involutive.
Qed.

Lemma trim_is_trimmed s : trimmed (trim s).
Proof.
  unfold trimmed, trim, trimEnd. rewrite rev_involutive, trimStart_idem.
  split; [| reflexivity].
  destruct (trimStart_suffix (rev (trimStart s))) as [p Hp].
  apply trimStart_prefix_fixed with (y := rev p).
  rewrite <- rev_app_distr, <- Hp, rev_involutive. apply trimStart_idem.
Qed.

Lemma collapse_trimmed s : trimmed s -> trimmed (collapse_from false s).
Proof.
  intros [Hs He]. split.
  - apply trimStart_fixed. apply trimStart_fixed in Hs.
    destruct s as [| c s]; cbn; [exact I |]. rewrite Hs. exact Hs.
  - apply trimStart_fixed. apply trimStart_fixed in He.
    destruct (rev s) as [| z r] eqn:Hr; [| ].
    + apply (f_equal (@rev N)) in Hr. rewrite rev_involutive in Hr. subst s. exact I.
    + apply (f_equal (@rev N)) in Hr. rewrite rev_involutive in Hr. subst s.
      cbn [rev]. rewrite collapse_from_snoc by exact He.
      rewrite rev_app_distr. cbn. exact He.
Qed.

(** X9: the defect is confined to removed characters: normalising a text
    all of whose characters are kept, twice, is normalising it once. *)
Lemma preprocessText_idempotent_on_kept text :
  Forall (fun c => isKept c = true) text ->
  preprocessText (preprocessText text) = preprocessText text.
Proof.
  intros Hkept. unfold preprocessText.
  rewrite trim_toLowerCase. unfold collapseWhitespace.
  rewrite collapse_toLowerCase, removeSpecial_toLowerCase, toLowerCase_idem.
  f_equal.
  pose proof (@Forall_trim _ _ Hkept) as Htrim.
  rewrite (@collapse_from_kept false _ Htrim).
  rewrite (@trim_trimmed _ (@collapse_trimmed _ (trim_is_trimmed text))).
  rewrite (proj2 (collapse_from_idem (trim text))).
  now apply collapse_from_kept.
Qed.

(** *** calculateSimilarity *)

Lemma similarity_loop_norms e1 : forall e2 d n1 n2,
  length e1 = length e2 ->
  similarity_loop e1 e2 d n1 n2
  = (fst (fst (similarity_loop e1 e2 d n1 n2)),
     fold_left (fun acc x => (acc + x * x)%float) e1 n1,
     fold_left (fun acc x => (acc + x * x)%float) e2 n2).
Proof.
  induction e1 as [| x e1 IH]; intros [| y e2] d n1 n2 Hlen;
    try discriminate; cbn.
  - reflexivity.
  - apply IH. now injection Hlen.
Qed.

Lemma sum_squares_of_zeros v acc :
  acc = 0%float -> Forall is_zero v ->
  fold_left (fun acc x => (acc + x * x)%float) v acc = 0%float.
Proof.
  intros Hacc Hv. revert acc Hacc.
  induction Hv as [| x v [-> | ->] _ IH]; intros acc ->; cbn.
  - reflexivity.
  - apply IH. reflexivity.
  - apply IH. reflexivity.
Qed.

(** A vector of zeros has zero magnitude. *)
Lemma zero_vector_zero_magnitude v : Forall is_zero v -> zero_magnitude v.
Proof.
  intros Hv. unfold zero_magnitude, magnitude, sum_squares.
  rewrite (sum_squares_of_zeros (acc := 0%float) eq_refl Hv). reflexivity.
Qed.

(** C8: for vectors of equal length, if either has zero magnitude then
    [calculateSimilarity] returns exactly [0]: it does not throw and
    the value is not NaN. *)
Theorem calculateSimilarity_zero_magnitude (e1 e2 : list float) :
  length e1 = length e2 ->
  zero_magnitude e1 \/ zero_magnitude e2 ->
  calculateSimilarity e1 e2 = Ok 0%float.
Proof.
  intros Hlen Hzero. unfold calculateSimilarity.
  rewrite Hlen, Nat.eqb_refl. cbn [negb].
  rewrite (similarity_loop_norms e1 e2 _ _ _ Hlen).
  unfold zero_magnitude, magnitude, sum_squares in Hzero.
  destruct Hzero as [H | H]; rewrite H; [reflexivity |].
  now rewrite orb_true_r.
Qed.

Lemma calculateSimilarity_zero_magnitude_witness :
  length [0; -0; 0]%float = length [1; 2; 3]%float
  /\ (zero_magnitude [0; -0; 0]%float \/ zero_magnitude [1; 2; 3]%float)
  /\ calculateSimilarity [0; -0; 0]%float [1; 2; 3]%float = Ok 0%float.
Proof.
  split; [reflexivity |]. split; [left; reflexivity |].
  apply calculateSimilarity_zero_magnitude.
  - reflexivity.
  - left. reflexivity.
Defined.

(** *** Model loading *)

Section LoadingFacts.

Variable vector : Type.

(** While a load is in progress [initializeModel] returns at once and
    leaves the service as it is: no second load is started, and the
    model is still absent when the call returns. *)
Lemma initializeModel_enter_while_loading (s : State vector) :
  isLoading s = true -> initializeModel_enter s = (s, InitReturned).
Proof.
  intros H. unfold initializeModel_enter. rewrite H, orb_true_r. reflexivity.
Qed.

Lemma step_pipeline_calls (l : Loop vector) (e : event vector) :
  isLoading (service l) = true \/ model (service l) <> None ->
  pipeline_calls (step l e) = pipeline_calls l.
Proof.
  intros H. destruct e as [c text | c | loaded]; cbn.
  - destruct (model (service l)) eqn:Hm; [reflexivity |].
    destruct H as [H | H]; [| congruence].
    unfold initializeModel_enter. rewrite Hm, H. reflexivity.
  - destruct (lookup_caller c (returned_early l)); reflexivity.
  - destruct (loader l) as [[c text] |]; [| reflexivity].
    destruct (initializeModel_settle (service l) loaded). reflexivity.
Qed.

Lemma find_app_fresh (A : Type) (f : A -> bool) (l : list A) (x : A) :
  find f l = None -> f x = true -> find f (l ++ [x]) = Some x.
Proof.
  induction l as [| a l IH]; cbn; intros Hl Hx.
  - now rewrite Hx.
  - destruct (f a); [discriminate | now apply IH].
Qed.

(** C3, as the code has it: [initializeModel] starts no second load, but
    it does not wait for the one in progress.  While a load is in
    progress a call of [initializeModel] returns at once and changes
    nothing, so a caller of [generateEmbedding] that arrives then starts
    no load, and when it resumes before the load has settled it throws
    [Embedding model not initialized].  Once a model is present
    [initializeModel] does nothing, and a caller that arrives then
    embeds with that model. *)
Theorem initializeModel_does_not_wait
        (pipeline : jsstring -> result (Model vector)) (l : Loop vector)
        (c : nat) (text : option jsstring) :
  isLoading (service l) = true -> model (service l) = None ->
  lookup_caller c (returned_early l) = None -> outcome c l = None ->
  initializeModel pipeline (service l) = (service l, Ok tt)
  /\ service (step l (Call c text)) = service l
  /\ pipeline_calls (run l [Call c text; Continue c]) = pipeline_calls l
  /\ outcome c (run l [Call c text; Continue c])
     = Some (Throw (Error (lit "Embedding model not initialized")))
  /\ (forall (l' : Loop vector) m,
         model (service l') = Some m -> outcome c l' = None ->
         initializeModel pipeline (service l') = (service l', Ok tt)
         /\ pipeline_calls (step l' (Call c text)) = pipeline_calls l'
         /\ outcome c (step l' (Call c text)) = Some (embed_with m text)).
Proof.
  intros Hloading Hmodel Hfresh Hnone.
  assert (Henter : initializeModel_enter (service l) = (service l, InitReturned))
    by now apply initializeModel_enter_while_loading.
  assert (Hcall : step l (Call c text)
                  = {| service := service l; pipeline_calls := pipeline_calls l;
                       loader := loader l;
                       returned_early := returned_early l ++ [(c, text)];
                       finished := finished l |}).
  { cbn. now rewrite Hmodel, Henter. }
  assert (Hlook : lookup_caller c (returned_early l ++ [(c, text)]) = Some text).
  { unfold lookup_caller in *.
    destruct (find (fun p => fst p =? c) (returned_early l)) eqn:Hf;
      [discriminate |].
    rewrite (@find_app_fresh _ _ _ (c, text) Hf); [reflexivity |].
    cbn. apply Nat.eqb_refl. }
  split; [| split; [| split; [| split]]].
  - unfold initializeModel. now rewrite Henter.
  - now rewrite Hcall.
  - cbn [run fold_left]. rewrite Hcall. cbn [step returned_early].
    now rewrite Hlook.
  - cbn [run fold_left]. rewrite Hcall. cbn [step returned_early].
    rewrite Hlook. unfold outcome in *. cbn [finished service].
    destruct (find (fun p => fst p =? c) (finished l)) eqn:Hf; [discriminate |].
    rewrite (@find_app_fresh _ _ _
               (c, generateEmbedding_resume (service l) text) Hf);
      [| cbn; apply Nat.eqb_refl].
    cbn. unfold generateEmbedding_resume. now rewrite Hmodel.
  - intros l' m Hm Hnone'. split; [| split].
    + unfold initializeModel, initializeModel_enter. now rewrite Hm.
    + cbn. now rewrite Hm.
    + cbn. rewrite Hm. unfold outcome in *. cbn [finished].
      destruct (find (fun p => fst p =? c) (finished l')) eqn:Hf; [discriminate |].
      rewrite (@find_app_fresh _ _ _
                 (c, generateEmbedding_resume (service l') text) Hf);
        [| cbn; apply Nat.eqb_refl].
      cbn. unfold generateEmbedding_resume. now rewrite Hm.
Qed.

End LoadingFacts.

End EmbeddingServiceFacts.

Section LoadingScenarios.

Import EmbeddingService Scenario.

Lemma initializeModel_does_not_wait_witness :
  isLoading (service first_caller_loading) = true
  /\ model (service first_caller_loading) = None
  /\ pipeline_calls
       (run first_caller_loading
          [Call 2 (Some (lit "second")); Continue (vector := vec) 2])
     = 1
  /\ outcome 2
       (run first_caller_loading
          [Call 2 (Some (lit "second")); Continue (vector := vec) 2])
     = Some (Throw (Error (lit "Embedding model not initialized"))).
Proof.
  split; [reflexivity |]. split; [reflexivity |].
  destruct (@initializeModel_does_not_wait vec (fun _ => Ok constant_model)
              first_caller_loading 2 (Some (lit "second"))
              eq_refl eq_refl eq_refl eq_refl) as [_ [_ [Hcalls [Hout _]]]].
  split; [exact Hcalls | exact Hout].
Defined.

(** C3 as stated fails: two callers use a fresh service at the same
    time.  The first starts the load and waits for it; the second
    arrives while the load is in progress, resumes before it has
    settled and throws, although the load then succeeds and the first
    caller gets its embedding.  One load was started. *)
Lemma caller_during_loading_is_rejected :
  isLoading (service first_caller_loading) = true
  /\ pipeline_calls (run first_caller_loading overlapping_caller) = 1
  /\ model (service (run first_caller_loading overlapping_caller))
     = Some constant_model
  /\ outcome 1 (run first_caller_loading overlapping_caller)
     = Some (Ok query_vector)
  /\ outcome 2 (run first_caller_loading overlapping_caller)
     = Some (Throw (Error (lit "Embedding model not initialized"))).
Proof.
  repeat split; reflexivity.
Qed.

End LoadingScenarios.

(** ** The store: match_essays and SupabaseService *)

Section StoreFacts.

Import SupabaseService.
Local Open Scope Q_scope.

Variable vector : Type.
Variable cosine_distance : vector -> vector -> Q.

Lemma Qgt_bool_true a b : Qgt_bool a b = true -> b < a.
Proof.
  unfold Qgt_bool. intros H. apply negb_true_iff in H.
  apply Qnot_le_lt. intros Hle. apply Qle_bool_iff in Hle. congruence.
Qed.

Lemma where_clause_sound q thr essays :
  Forall (fun p => let_through cosine_distance essays q thr (fst p) (snd p))
         (where_clause cosine_distance q thr essays).
Proof.
  apply Forall_forall. intros [e d] Hin.
  unfold where_clause in Hin. apply in_flat_map in Hin.
  destruct Hin as [e' [He' Hin]].
  destruct (embedding e') as [v |] eqn:Hv; [| destruct Hin].
  destruct (Qgt_bool (1 - cosine_distance v q) thr) eqn:Hgt; [| destruct Hin].
  destruct Hin as [Heq | []]. injection Heq as <- <-.
  cbn. repeat split; [assumption | now apply Qgt_bool_true | eauto].
Qed.

Lemma in_insert_by_distance (x : Essay vector * Q) l z :
  In z (insert_by_distance x l) <-> z = x \/ In z l.
Proof.
  induction l as [| y l IH]; cbn.
  - intuition.
  - destruct (Qle_bool (snd x) (snd y)); cbn; [intuition |].
    rewrite IH. intuition.
Qed.

Lemma in_order_by_distance (l : list (Essay vector * Q)) z : In z (order_by_distance l) <-> In z l.
Proof.
  induction l as [| x l IH]; cbn; [reflexivity |].
  rewrite in_insert_by_distance, IH. intuition.
Qed.

Lemma insert_by_distance_sorted (x : Essay vector * Q) l :
  StronglySorted by_distance l ->
  StronglySorted by_distance (insert_by_distance x l).
Proof.
  induction 1 as [| y l Hs IH Hy]; cbn.
  - repeat constructor.
  - destruct (Qle_bool (snd x) (snd y)) eqn:Hxy.
    + apply Qle_bool_iff in Hxy.
      constructor; [now constructor |].
      constructor; [exact Hxy |].
      eapply Forall_impl; [| exact Hy].
      intros z Hz. unfold by_distance in *. now apply Qle_trans with (snd y).
    + assert (Hyx : snd y <= snd x).
      { apply Qlt_le_weak, Qnot_le_lt. intros Hle.
        apply Qle_bool_iff in Hle. congruence. }
      constructor; [exact IH |].
      apply Forall_forall. intros z Hz.
      apply in_insert_by_distance in Hz. destruct Hz as [-> | Hz].
      * exact Hyx.
      * rewrite Forall_forall in Hy. now apply Hy.
Qed.

Lemma order_by_distance_sorted (l : list (Essay vector * Q)) :
  StronglySorted by_distance (order_by_distance l).
Proof.
  induction l as [| x l IH]; cbn; [constructor |].
  now apply insert_by_distance_sorted.
Qed.

Lemma select_row_sorted (l : list (Essay vector * Q)) :
  StronglySorted by_distance l ->
  StronglySorted by_similarity (map select_row l).
Proof.
  induction 1 as [| x l Hs IH Hx]; cbn; constructor; [exact IH |].
  apply Forall_map. eapply Forall_impl; [| exact Hx].
  intros y Hy. unfold by_similarity, by_distance in *. cbn.
  unfold Qminus. apply Qplus_le_r. now apply Qopp_le_compat.
Qed.

(** Cutting a list or filtering it keeps its order and what holds of
    all its members. *)
Lemma in_firstn (A : Type) n (l : list A) x : In x (firstn n l) -> In x l.
Proof.
  revert n. induction l as [| y l IH]; intros [| n]; cbn; try tauto.
  intros [-> | H]; [now left | right; eauto].
Qed.

Lemma StronglySorted_firstn (A : Type) (R : A -> A -> Prop) n l :
  StronglySorted R l -> StronglySorted R (firstn n l).
Proof.
  intros H. revert n. induction H as [| x l Hs IH Hx]; intros [| n]; cbn;
    try constructor; [apply IH |].
  rewrite Forall_forall in *. intros y Hy. apply Hx.
  eapply in_firstn; eassumption.
Qed.

Lemma StronglySorted_filter (A : Type) (R : A -> A -> Prop) f l :
  StronglySorted R l -> StronglySorted R (filter f l).
Proof.
  induction 1 as [| x l Hs IH Hx]; cbn; [constructor |].
  destruct (f x); [| exact IH].
  constructor; [exact IH |].
  rewrite Forall_forall in *. intros y Hy. apply Hx.
  now apply filter_In in Hy.
Qed.

Lemma Forall_firstn (A : Type) (P : A -> Prop) n l :
  Forall P l -> Forall P (firstn n l).
Proof.
  rewrite !Forall_forall. intros H x Hx. apply H.
  eapply in_firstn; eassumption.
Qed.

Lemma Forall_filter (A : Type) (P : A -> Prop) f l :
  Forall P l -> Forall P (filter f l).
Proof.
  rewrite !Forall_forall. intros H x Hx. apply H. now apply filter_In in Hx.
Qed.

Lemma filter_length_le (A : Type) (f : A -> bool) l :
  (length (filter f l) <= length l)%nat.
Proof.
  induction l as [| x l IH]; cbn; [lia |]. destruct (f x); cbn; lia.
Qed.

(** The rows [match_essays] returns for threshold [thr] and count [k]. *)
Lemma ranked_rows_sound essays q thr k :
  Forall (sound_row cosine_distance essays q thr)
    (firstn k (map select_row
                 (order_by_distance (where_clause cosine_distance q thr essays)))).
Proof.
  apply Forall_firstn, Forall_forall. intros r Hr.
  apply in_map_iff in Hr. destruct Hr as [[e d] [<- Hin]].
  apply (proj1 (in_order_by_distance _ _)) in Hin.
  pose proof (where_clause_sound q thr essays) as Hw.
  rewrite Forall_forall in Hw. specialize (Hw _ Hin). cbn in Hw.
  destruct Hw as [He [Hd [v [Hv ->]]]].
  repeat split; cbn; eauto.
Qed.

Lemma ranked_rows_sorted essays q thr k :
  StronglySorted by_similarity
    (firstn k (map select_row
                 (order_by_distance (where_clause cosine_distance q thr essays)))).
Proof.
  apply StronglySorted_firstn, select_row_sorted, order_by_distance_sorted.
Qed.

(** The SQL function on its own: its declared defaults are 0.78 and 5. *)
Lemma match_essays_defaults essays q :
  match_essays cosine_distance essays q None None
  = match_essays cosine_distance essays q (Some (78 # 100)) (Some 5%Z).
Proof. reflexivity. Qed.

(** The service never calls the function without a threshold, so the
    SQL default is not in play behind [searchSimilarEssays]. *)
Lemma searchSimilarEssays_defaults db q essayType :
  searchSimilarEssays cosine_distance db q essayType None None
  = searchSimilarEssays cosine_distance db q essayType (Some 5%Z) (Some (7 # 10)).
Proof. reflexivity. Qed.

(** C1, as the code has it: with no threshold supplied the service
    searches with 0.7 (and with limit 5 when no limit is supplied);
    every returned row is an essay of the table with an embedding whose
    similarity to the query strictly exceeds the threshold in force;
    rows come in descending similarity; there are at most [limit]. *)
Theorem searchSimilarEssays_sound_ranked_capped
        (db : Backend vector) (q : vector) (essayType : option jsstring)
        (limit : option Z) (threshold : option Q) :
  Forall (sound_row cosine_distance (table db) q (or_default threshold (7 # 10)))
         (searchSimilarEssays cosine_distance db q essayType limit threshold)
  /\ StronglySorted by_similarity
       (searchSimilarEssays cosine_distance db q essayType limit threshold)
  /\ (length (searchSimilarEssays cosine_distance db q essayType limit threshold)
      <= Z.to_nat (or_default limit 5%Z))%nat.
Proof.
  unfold searchSimilarEssays, default_limit, default_threshold.
  set (thr := or_default threshold (7 # 10)).
  set (n := or_default limit 5%Z).
  destruct db as [essays | err | e]; cbn;
    try (repeat split; [constructor | constructor | lia]).
  unfold match_essays. cbn [or_default].
  destruct (n <? 0)%Z; cbn; [repeat split; [constructor | constructor | lia] |].
  destruct (search_filter essayType) as [t |].
  - repeat split.
    + apply Forall_filter, ranked_rows_sound.
    + apply StronglySorted_filter, ranked_rows_sorted.
    + etransitivity; [apply filter_length_le | apply firstn_le_length].
  - repeat split.
    + apply ranked_rows_sound.
    + apply ranked_rows_sorted.
    + apply firstn_le_length.
Qed.

(** The category filter acts on the rows [match_essays] has already
    ranked and cut at [limit]. *)
Lemma category_filter_is_post_filter db q t limit threshold :
  search_filter (Some t) = Some t ->
  searchSimilarEssays cosine_distance db q (Some t) limit threshold
  = filter (fun r => type_is t (essay r))
      (searchSimilarEssays cosine_distance db q None limit threshold).
Proof.
  intros Ht. unfold searchSimilarEssays. rewrite Ht. cbn [search_filter].
  destruct db as [essays | err | e]; cbn; try reflexivity.
  destruct (match_essays _ _ _ _ _); reflexivity.
Qed.

(** A failed read makes [searchSimilarEssays] answer with no rows. *)
Lemma searchSimilarEssays_read_failed db q essayType limit threshold :
  read_failed (rpc_match_essays cosine_distance db q
                 (or_default threshold default_threshold)
                 (or_default limit default_limit) (search_filter essayType)) ->
  searchSimilarEssays cosine_distance db q essayType limit threshold = [].
Proof.
  unfold searchSimilarEssays.
  destruct (rpc_match_essays _ _ _ _ _ _) as [data [err |] | e]; cbn;
    [reflexivity | contradiction | reflexivity].
Qed.

Lemma outage_fails_rpc db q thr n ty :
  outage db -> read_failed (rpc_match_essays cosine_distance db q thr n ty).
Proof. destruct db; cbn; tauto. Qed.

(** A failed read makes [getEssaysByTopic] throw. *)
Lemma getEssaysByTopic_outage (db : Backend vector) topic essayType limit :
  outage db -> exists e, getEssaysByTopic db topic essayType limit = Throw e.
Proof.
  destruct db as [essays | err | e]; cbn; [tauto | |]; intros _;
    unfold getEssaysByTopic; cbn; eauto.
Qed.

End StoreFacts.

(** ** The store on sample data *)

Section StoreScenarios.

Import SupabaseService Scenario.
Local Open Scope Q_scope.

Lemma samples_have_length_one :
  Forall (fun v => dot v v == 1)
    [query_vector; [1; 0]; [4 # 5; 3 # 5]; [21 # 29; 20 # 29]].
Proof. repeat constructor. Qed.

(** C1 as stated fails: with no threshold supplied, the search returns
    essay [c], whose similarity 21/29 does not exceed 0.78. *)
Lemma default_threshold_is_not_078 :
  ids (searchSimilarEssays unit_cosine_distance (Online [essay_c])
         query_vector None None None) = [lit "c"]
  /\ Forall (fun r => similarity r == 21 # 29 /\ ~ 78 # 100 < similarity r)
       (searchSimilarEssays unit_cosine_distance (Online [essay_c])
          query_vector None None None).
Proof.
  split; [reflexivity |].
  repeat constructor; vm_compute; congruence.
Qed.

(** C6: the table holds essay [a] (supplemental, similarity 1) and essay
    [b] (personal_statement, similarity 4/5).  A search for one
    personal statement returns nothing: [match_essays] keeps the single
    best row, [a], and the filter then drops it.  Filtering first, as
    the specification words it, returns [b]. *)
Theorem category_filter_runs_after_limit :
  ids (searchSimilarEssays unit_cosine_distance (Online [essay_a; essay_b])
         query_vector (Some (lit "personal_statement")) (Some 1%Z) None) = []
  /\ ids (spec_query unit_cosine_distance [essay_a; essay_b]
            query_vector (Some (lit "personal_statement")) (7 # 10) 1) = [lit "b"].
Proof. split; reflexivity. Qed.

End StoreScenarios.

(** ** WritingSpecialistAgent *)

Section TurnFacts.

Import WritingSpecialistAgent.

Variable vector : Type.
Variable cosine_distance : vector -> vector -> Q.
Variable JSON_stringify : ToolResult vector -> jsstring.
Variable w : World vector.

Local Abbreviation handleToolCall := (handleToolCall cosine_distance w).
Local Abbreviation tool_outcome := (tool_outcome cosine_distance w).
Local Abbreviation processMessage := (processMessage cosine_distance JSON_stringify w).
Local Abbreviation answer := (answer cosine_distance JSON_stringify w).
Local Abbreviation requests_sent := (requests_sent cosine_distance JSON_stringify w).
Local Abbreviation followup_calls := (followup_calls cosine_distance JSON_stringify w).

Lemma jsstring_eqb_eq a b : jsstring_eqb a b = true <-> a = b.
Proof.
  unfold jsstring_eqb. destruct (list_eq_dec N.eq_dec a b); split;
    congruence.
Qed.

Lemma skipn_length_app (A : Type) (l l' : list A) : skipn (length l) (l ++ l') = l'.
Proof. induction l; cbn; auto. Qed.

(** A tool call reads and writes the embedding service only: the list
    of requests passes through untouched. *)
Lemma handleToolCall_frame name input (st : AgentState vector) :
  handleToolCall name input st
  = (fst (tool_outcome (embeddingService st) name input),
     {| requests := requests st;
        embeddingService := snd (tool_outcome (embeddingService st) name input) |}).
Proof.
  destruct st as [reqs s].
  unfold WritingSpecialistAgent.tool_outcome, WritingSpecialistAgent.handleToolCall.
  cbn [requests embeddingService].
  destruct (jsstring_eqb name (lit "analyze_essay")).
  { unfold bind, lift, ret.
    destruct (analyzeEssay (essay_text input) (analysis_type input)); reflexivity. }
  destruct (jsstring_eqb name (lit "search_similar_essays")).
  { unfold bind, searchSimilarEssays, try_catch, bind, generateEmbedding, ret.
    cbn [requests embeddingService].
    destruct (ES.generateEmbedding (pipeline w) s (query input)) as [s' [v | e]];
      reflexivity. }
  destruct (jsstring_eqb name (lit "get_essay_examples")).
  { unfold bind, getEssayExamples, try_catch, lift, ret.
    destruct (DB.getEssaysByTopic (database w) (topic input) (essay_type input) None);
      reflexivity. }
  reflexivity.
Qed.

(** One turn, unfolded: the four ways it can go, with the answer and the
    final state in each. *)
Lemma processMessage_unfold message sessionId (st : AgentState vector) :
  processMessage message sessionId st
  = let first := first_request message in
    let sent := requests st ++ [first] in
    match anthropic_create w (length (requests st)) first with
    | Throw _ =>
        (Ok apology, {| requests := sent; embeddingService := embeddingService st |})
    | Ok response =>
        match find_tool_use (content response) with
        | None =>
            (Ok (or_default (find_text (content response)) no_text_fallback),
             {| requests := sent; embeddingService := embeddingService st |})
        | Some (id, name, input) =>
            let s' := snd (tool_outcome (embeddingService st) name input) in
            match fst (tool_outcome (embeddingService st) name input) with
            | Throw _ => (Ok apology, {| requests := sent; embeddingService := s' |})
            | Ok toolResult =>
                let followup :=
                  followup_request message response id (JSON_stringify toolResult) in
                (match anthropic_create w (S (length (requests st))) followup with
                 | Ok followUpResponse =>
                     Ok (or_default (find_text (content followUpResponse))
                           tools_fallback)
                 | Throw _ => Ok apology
                 end,
                 {| requests := sent ++ [followup]; embeddingService := s' |})
            end
        end
    end.
Proof.
  unfold WritingSpecialistAgent.processMessage, try_catch, processMessage_body.
  unfold bind at 1. unfold messages_create at 1.
  destruct (anthropic_create w (length (requests st)) (first_request message))
    as [response | e]; [| reflexivity].
  destruct (find_tool_use (content response)) as [[[id name] input] |];
    [| reflexivity].
  unfold bind at 1. rewrite handleToolCall_frame. cbn [requests embeddingService].
  destruct (fst (tool_outcome (embeddingService st) name input))
    as [toolResult | e]; [| reflexivity].
  unfold bind, messages_create, ret. cbn [requests embeddingService].
  rewrite length_app, Nat.add_comm. cbn [length Nat.add].
  destruct (anthropic_create w (S (length (requests st))) _) as [followUp | e];
    reflexivity.
Qed.

Lemma answer_unfold message sessionId (st : AgentState vector) :
  answer message sessionId st
  = match anthropic_create w (length (requests st)) (first_request message) with
    | Throw _ => Ok apology
    | Ok response =>
        match find_tool_use (content response) with
        | None => Ok (or_default (find_text (content response)) no_text_fallback)
        | Some (id, name, input) =>
            match fst (tool_outcome (embeddingService st) name input) with
            | Throw _ => Ok apology
            | Ok toolResult =>
                match anthropic_create w (S (length (requests st)))
                        (followup_request message response id
                           (JSON_stringify toolResult)) with
                | Ok followUpResponse =>
                    Ok (or_default (find_text (content followUpResponse))
                          tools_fallback)
                | Throw _ => Ok apology
                end
            end
        end
    end.
Proof.
  unfold WritingSpecialistAgent.answer. rewrite processMessage_unfold. cbv zeta.
  destruct (anthropic_create w _ _) as [response | e]; [| reflexivity].
  destruct (find_tool_use _) as [[[id name] input] |]; [| reflexivity].
  destruct (fst (tool_outcome _ _ _)); reflexivity.
Qed.

Lemma requests_sent_unfold message sessionId (st : AgentState vector) :
  requests_sent message sessionId st
  = first_request message ::
    match anthropic_create w (length (requests st)) (first_request message) with
    | Throw _ => []
    | Ok response =>
        match find_tool_use (content response) with
        | None => []
        | Some (id, name, input) =>
            match fst (tool_outcome (embeddingService st) name input) with
            | Throw _ => []
            | Ok toolResult =>
                [followup_request message response id (JSON_stringify toolResult)]
            end
        end
    end.
Proof.
  unfold WritingSpecialistAgent.requests_sent. rewrite processMessage_unfold.
  cbv zeta.
  destruct (anthropic_create w _ _) as [response | e];
    [| cbn [snd requests]; now rewrite skipn_length_app].
  destruct (find_tool_use _) as [[[id name] input] |];
    [| cbn [snd requests]; now rewrite skipn_length_app].
  destruct (fst (tool_outcome _ _ _)); cbn [snd requests];
    rewrite <- ?app_assoc; now rewrite skipn_length_app.
Qed.

Lemma tool_outcome_fst name input (st : AgentState vector) :
  fst (tool_outcome (embeddingService st) name input)
  = fst (handleToolCall name input st).
Proof. now rewrite handleToolCall_frame. Qed.

(** A turn sends at most one follow-up request, whatever the responses. *)
Lemma at_most_one_followup message sessionId (st : AgentState vector) :
  length (followup_calls message sessionId st) <= 1.
Proof.
  unfold WritingSpecialistAgent.followup_calls. rewrite requests_sent_unfold.
  cbn [tl].
  destruct (anthropic_create w _ _) as [response | e]; [| cbn; lia].
  destruct (find_tool_use _) as [[[id name] input] |]; [| cbn; lia].
  destruct (fst (tool_outcome _ _ _)); cbn; lia.
Qed.

(** *** Tools *)

Lemma searchSimilarEssays_unfold query essayType limit (st : AgentState vector) :
  searchSimilarEssays cosine_distance w query essayType limit st
  = (Ok match snd (ES.generateEmbedding (pipeline w) (embeddingService st) query) with
        | Ok queryEmbedding =>
            DB.searchSimilarEssays cosine_distance (database w) queryEmbedding
              (if jsstring_eqb (or_default essayType (lit "all")) (lit "all")
               then None else Some (or_default essayType (lit "all")))
              (Some (or_default limit 5%Z)) None
        | Throw _ => []
        end,
     {| requests := requests st;
        embeddingService :=
          fst (ES.generateEmbedding (pipeline w) (embeddingService st) query) |}).
Proof.
  unfold searchSimilarEssays, try_catch, bind, generateEmbedding, ret.
  destruct (ES.generateEmbedding _ _ _) as [s' [v | e]]; reflexivity.
Qed.

Lemma getEssayExamples_unfold topic essayType (st : AgentState vector) :
  getEssayExamples w topic essayType st
  = (Ok match DB.getEssaysByTopic (database w) topic essayType None with
        | Ok rows => rows
        | Throw _ => []
        end, st).
Proof.
  unfold getEssayExamples, try_catch, lift, ret.
  destruct (DB.getEssaysByTopic _ _ _ _); reflexivity.
Qed.

Lemma handleToolCall_unregistered name input (st : AgentState vector) :
  ~ In name registered_names ->
  handleToolCall name input st
  = (Throw (Error (lit "Unknown tool: " ++ name)), st).
Proof.
  intros Hname. unfold WritingSpecialistAgent.handleToolCall.
  destruct (jsstring_eqb name (lit "analyze_essay")) eqn:E1.
  { apply jsstring_eqb_eq in E1. subst name. exfalso. apply Hname. cbn. tauto. }
  destruct (jsstring_eqb name (lit "search_similar_essays")) eqn:E2.
  { apply jsstring_eqb_eq in E2. subst name. exfalso. apply Hname. cbn. tauto. }
  destruct (jsstring_eqb name (lit "get_essay_examples")) eqn:E3.
  { apply jsstring_eqb_eq in E3. subst name. exfalso. apply Hname. cbn. tauto. }
  reflexivity.
Qed.

Lemma handleToolCall_analyze input (st : AgentState vector) :
  fst (handleToolCall (lit "analyze_essay") input st)
  = match analyzeEssay (essay_text input) (analysis_type input) with
    | Ok a => Ok (Analysis a)
    | Throw e => Throw e
    end.
Proof.
  unfold WritingSpecialistAgent.handleToolCall.
  rewrite (proj2 (jsstring_eqb_eq _ _) eq_refl). unfold bind, lift, ret.
  destruct (analyzeEssay _ _); reflexivity.
Qed.

Lemma handleToolCall_search input (st : AgentState vector) :
  fst (handleToolCall (lit "search_similar_essays") input st)
  = Ok (SimilarEssays
          (match fst (searchSimilarEssays cosine_distance w (query input)
                        (essay_type input) (limit input) st) with
           | Ok rows => rows
           | Throw _ => []
           end)).
Proof.
  unfold WritingSpecialistAgent.handleToolCall.
  change (jsstring_eqb (lit "search_similar_essays") (lit "analyze_essay")) with false.
  rewrite (proj2 (jsstring_eqb_eq _ _) eq_refl). cbv iota.
  unfold bind at 1. rewrite searchSimilarEssays_unfold. reflexivity.
Qed.

Lemma handleToolCall_examples input (st : AgentState vector) :
  fst (handleToolCall (lit "get_essay_examples") input st)
  = Ok (Examples
          (match fst (getEssayExamples w (topic input) (essay_type input) st) with
           | Ok rows => rows
           | Throw _ => []
           end)).
Proof.
  unfold WritingSpecialistAgent.handleToolCall.
  change (jsstring_eqb (lit "get_essay_examples") (lit "analyze_essay")) with false.
  change (jsstring_eqb (lit "get_essay_examples") (lit "search_similar_essays"))
    with false.
  rewrite (proj2 (jsstring_eqb_eq _ _) eq_refl). cbv iota.
  unfold bind at 1. rewrite getEssayExamples_unfold. reflexivity.
Qed.

(** C7: during an outage of the store the two read tools answer with an
    empty list and throw nothing, whatever their arguments and whatever
    the embedding service does. *)
Theorem read_tools_degrade_to_empty input (st : AgentState vector) :
  DB.outage (database w) ->
  fst (handleToolCall (lit "search_similar_essays") input st)
  = Ok (SimilarEssays [])
  /\ fst (handleToolCall (lit "get_essay_examples") input st) = Ok (Examples []).
Proof.
  intros Hout. split.
  - rewrite handleToolCall_search, searchSimilarEssays_unfold. cbn [fst].
    destruct (snd (ES.generateEmbedding _ _ _)) as [v | e]; [| reflexivity].
    rewrite searchSimilarEssays_read_failed; [reflexivity |].
    now apply outage_fails_rpc.
  - rewrite handleToolCall_examples, getEssayExamples_unfold. cbn [fst].
    destruct (getEssaysByTopic_outage (database w) (topic input)
                (essay_type input) None Hout) as [e ->].
    reflexivity.
Qed.

(** *** The turn *)

(** C2, as the code has it: when the first response holds a
    tool-invocation block and the tool call returns, exactly one follow-up
    request is sent; it carries the original user message, the content of
    the first response and the tool result bound to the invocation's
    identifier; when the follow-up call returns, the answer is its first
    text block, or the fixed fallback if it has none.  Nothing else is
    sent, whatever the follow-up response holds. *)
Theorem tool_turn_sends_one_followup
        message sessionId (st : AgentState vector) response id name input toolResult :
  anthropic_create w (length (requests st)) (first_request message) = Ok response ->
  find_tool_use (content response) = Some (id, name, input) ->
  fst (handleToolCall name input st) = Ok toolResult ->
  followup_calls message sessionId st
  = [followup_request message response id (JSON_stringify toolResult)]
  /\ messages (followup_request message response id (JSON_stringify toolResult))
     = [ {| role := user; param_content := Text message |};
         {| role := assistant; param_content := Blocks (content response) |};
         {| role := user;
            param_content :=
              ToolResults [ {| tool_use_id := id;
                               result_content := JSON_stringify toolResult |} ] |} ]
  /\ forall followUpResponse,
       anthropic_create w (S (length (requests st)))
         (followup_request message response id (JSON_stringify toolResult))
       = Ok followUpResponse ->
       answer message sessionId st
       = Ok (or_default (find_text (content followUpResponse)) tools_fallback).
Proof.
  intros Hfirst Hfind Htool. rewrite <- tool_outcome_fst in Htool.
  repeat split.
  - unfold WritingSpecialistAgent.followup_calls.
    rewrite requests_sent_unfold, Hfirst, Hfind, Htool. reflexivity.
  - intros followUpResponse Hfollow.
    rewrite answer_unfold, Hfirst, Hfind, Htool, Hfollow. reflexivity.
Qed.

(** C4, as the code has it: the dispatch looks at the tool name only.  A
    name outside the three registered ones throws the unknown-tool error
    before any tool runs, and the turn ends with the apology and without
    a follow-up request.  An invocation that names a registered tool is
    handed to that tool whatever its arguments: nothing checks required
    or enumerated parameters, and the outcome of the dispatch is the
    tool's own outcome.  So the two read tools answer on every input,
    and [analyze_essay] answers exactly when its essay text is a
    string. *)
Theorem dispatch_checks_the_name_only name input (st : AgentState vector) :
  (~ In name registered_names ->
   handleToolCall name input st
   = (Throw (Error (lit "Unknown tool: " ++ name)), st)
   /\ forall message sessionId response id,
        anthropic_create w (length (requests st)) (first_request message)
        = Ok response ->
        find_tool_use (content response) = Some (id, name, input) ->
        answer message sessionId st = Ok apology
        /\ followup_calls message sessionId st = [])
  /\ (name = lit "analyze_essay" ->
      fst (handleToolCall name input st)
      = match analyzeEssay (essay_text input) (analysis_type input) with
        | Ok a => Ok (Analysis a)
        | Throw e => Throw e
        end
      /\ ((exists toolResult, fst (handleToolCall name input st) = Ok toolResult)
          <-> exists text, essay_text input = Some (JsString text)))
  /\ (name = lit "search_similar_essays" ->
      fst (handleToolCall name input st)
      = Ok (SimilarEssays
              match fst (searchSimilarEssays cosine_distance w (query input)
                           (essay_type input) (limit input) st) with
              | Ok rows => rows
              | Throw _ => []
              end))
  /\ (name = lit "get_essay_examples" ->
      fst (handleToolCall name input st)
      = Ok (Examples
              match fst (getEssayExamples w (topic input) (essay_type input) st) with
              | Ok rows => rows
              | Throw _ => []
              end)).
Proof.
  split; [| split; [| split]].
  - intros Hname. split; [now apply handleToolCall_unregistered |].
    intros message sessionId response id Hfirst Hfind.
    assert (Hout : fst (tool_outcome (embeddingService st) name input)
                   = Throw (Error (lit "Unknown tool: " ++ name))).
    { rewrite tool_outcome_fst, handleToolCall_unregistered by assumption.
      reflexivity. }
    split.
    + rewrite answer_unfold, Hfirst, Hfind, Hout. reflexivity.
    + unfold WritingSpecialistAgent.followup_calls.
      rewrite requests_sent_unfold, Hfirst, Hfind, Hout. reflexivity.
  - intros ->. rewrite handleToolCall_analyze. split; [reflexivity |].
    destruct (essay_text input) as [[| b | n | text | items | fields] |]; cbn;
      split; intros [x Hx]; try discriminate; eauto.
  - intros ->. apply handleToolCall_search.
  - intros ->. apply handleToolCall_examples.
Qed.

(** C9: [analyzeEssay] on an essay text returns a record whose [hook] is
    the first 100 characters of the text (UTF-16 code units, as
    [substring] counts them; the whole text when it is shorter) followed
    by three dots, whose type is [personal_statement], whose four lists
    are not empty, and which, hook apart, is the same for every text and
    every analysis type; the analysis type plays no part. *)
Theorem analyzeEssay_is_a_fixed_template (essayText : jsstring)
        (analysisType : option jsstring) :
  exists a,
    analyzeEssay (Some (JsString essayText)) analysisType = Ok a
    /\ hook (structure a) = firstn 100 essayText ++ lit "..."
    /\ length (hook (structure a)) = Nat.min 100 (length essayText) + 3
    /\ type a = personal_statement
    /\ topics a <> [] /\ strengths a <> []
    /\ weaknesses a <> [] /\ suggestions a <> []
    /\ (forall analysisType',
          analyzeEssay (Some (JsString essayText)) analysisType' = Ok a)
    /\ (forall essayText' analysisType',
          exists a', analyzeEssay (Some (JsString essayText')) analysisType' = Ok a'
                     /\ set_hook (hook (structure a)) a' = a).
Proof.
  eexists. split; [reflexivity |].
  cbn [structure hook type topics strengths weaknesses suggestions].
  unfold substring0.
  split; [reflexivity |].
  split; [rewrite length_app, length_firstn; reflexivity |].
  repeat split; try discriminate.
  intros essayText' analysisType'. eexists. split; reflexivity.
Qed.

(** C10: [processMessage] always resolves to a string.  It answers with
    the one apology when the first model call fails, when the requested
    tool is not registered, when the tool call throws, and when the
    follow-up model call fails. *)
Theorem processMessage_never_throws message sessionId (st : AgentState vector) :
  (exists reply, answer message sessionId st = Ok reply)
  /\ (forall e,
        anthropic_create w (length (requests st)) (first_request message) = Throw e ->
        answer message sessionId st = Ok apology)
  /\ (forall response id name input,
        anthropic_create w (length (requests st)) (first_request message)
        = Ok response ->
        find_tool_use (content response) = Some (id, name, input) ->
        (~ In name registered_names -> answer message sessionId st = Ok apology)
        /\ (forall e, fst (handleToolCall name input st) = Throw e ->
                      answer message sessionId st = Ok apology)
        /\ (forall toolResult e,
              fst (handleToolCall name input st) = Ok toolResult ->
              anthropic_create w (S (length (requests st)))
                (followup_request message response id (JSON_stringify toolResult))
              = Throw e ->
              answer message sessionId st = Ok apology)).
Proof.
  split; [| split].
  - rewrite answer_unfold.
    destruct (anthropic_create w _ _) as [response | e]; [| eauto].
    destruct (find_tool_use _) as [[[id name] input] |]; [| eauto].
    destruct (fst (tool_outcome _ _ _)) as [toolResult | e]; [| eauto].
    destruct (anthropic_create w _ _); eauto.
  - intros e Hfirst. rewrite answer_unfold, Hfirst. reflexivity.
  - intros response id name input Hfirst Hfind. repeat split.
    + intros Hname.
      rewrite answer_unfold, Hfirst, Hfind, tool_outcome_fst,
        handleToolCall_unregistered by assumption.
      reflexivity.
    + intros e Htool.
      rewrite answer_unfold, Hfirst, Hfind, tool_outcome_fst, Htool. reflexivity.
    + intros toolResult e Htool Hfollow.
      rewrite answer_unfold, Hfirst, Hfind, tool_outcome_fst, Htool, Hfollow.
      reflexivity.
Qed.

End TurnFacts.

(** ** The agent on sample data *)

Section TurnScenarios.

Import WritingSpecialistAgent Scenario.

Lemma tool_turn_sends_one_followup_witness :
  followup_calls unit_cosine_distance stringify
    (scripted_world (lit "analyze_essay") bogus_analysis)
    review_request session start
  = [followup_request review_request
       (tool_use (lit "analyze_essay") bogus_analysis)
       (lit "toolu_1") (lit "{analysis}")]
  /\ answer unit_cosine_distance stringify
       (scripted_world (lit "analyze_essay") bogus_analysis)
       review_request session start
     = Ok (lit "Here is my feedback.").
Proof.
  destruct (@tool_turn_sends_one_followup vec unit_cosine_distance stringify
              (scripted_world (lit "analyze_essay") bogus_analysis)
              review_request session start
              (tool_use (lit "analyze_essay") bogus_analysis)
              (lit "toolu_1") (lit "analyze_essay") bogus_analysis
              _ eq_refl eq_refl eq_refl) as [Hcalls [_ Hanswer]].
  split; [exact Hcalls | exact (Hanswer final_text eq_refl)].
Defined.

(** C2 as stated fails: the first response holds a tool-invocation block
    naming a tool that is not registered; no follow-up request is sent
    and the answer is the apology. *)
Lemma unregistered_tool_turn_has_no_followup :
  find_tool_use (content (tool_use (lit "rewrite_essay") no_input))
  = Some (lit "toolu_1", lit "rewrite_essay", no_input)
  /\ followup_calls unit_cosine_distance stringify
       (scripted_world (lit "rewrite_essay") no_input)
       review_request session start = []
  /\ answer unit_cosine_distance stringify
       (scripted_world (lit "rewrite_essay") no_input)
       review_request session start = Ok apology.
Proof. repeat split. Qed.

Lemma dispatch_checks_the_name_only_witness :
  handleToolCall unit_cosine_distance
    (scripted_world (lit "rewrite_essay") no_input)
    (lit "rewrite_essay") no_input start
  = (Throw (Error (lit "Unknown tool: rewrite_essay")), start)
  /\ (exists toolResult,
        fst (handleToolCall unit_cosine_distance
               (scripted_world (lit "analyze_essay") bogus_analysis)
               (lit "analyze_essay") bogus_analysis start) = Ok toolResult)
  /\ ~ (exists toolResult,
          fst (handleToolCall unit_cosine_distance
                 (scripted_world (lit "analyze_essay") numeric_essay_text)
                 (lit "analyze_essay") numeric_essay_text start) = Ok toolResult).
Proof.
  split; [| split].
  - apply (@dispatch_checks_the_name_only vec unit_cosine_distance stringify
             (scripted_world (lit "rewrite_essay") no_input)
             (lit "rewrite_essay") no_input start).
    vm_compute. intuition discriminate.
  - apply (proj2 (proj1 (proj2 (@dispatch_checks_the_name_only vec
                                  unit_cosine_distance stringify
                                  (scripted_world (lit "analyze_essay") bogus_analysis)
                                  (lit "analyze_essay") bogus_analysis start))
                          eq_refl)).
    eexists. reflexivity.
  - intros H.
    apply (proj2 (proj1 (proj2 (@dispatch_checks_the_name_only vec
                                  unit_cosine_distance stringify
                                  (scripted_world (lit "analyze_essay")
                                     numeric_essay_text)
                                  (lit "analyze_essay") numeric_essay_text start))
                          eq_refl)) in H.
    destruct H as [text H]. discriminate.
Defined.

(** C4 as stated fails: an [analyze_essay] invocation whose analysis type
    lies outside the enumeration, and one without the required analysis
    type, are invalid in the specification's sense, yet the tool runs on
    both and the turn goes on to its normal answer. *)
Lemma invalid_arguments_reach_the_tool :
  spec_validate (lit "analyze_essay") bogus_analysis = Some InvalidArguments
  /\ spec_validate (lit "analyze_essay") missing_analysis_type = Some InvalidArguments
  /\ (exists a,
        fst (handleToolCall unit_cosine_distance
               (scripted_world (lit "analyze_essay") bogus_analysis)
               (lit "analyze_essay") bogus_analysis start) = Ok (Analysis a))
  /\ (exists a,
        fst (handleToolCall unit_cosine_distance
               (scripted_world (lit "analyze_essay") missing_analysis_type)
               (lit "analyze_essay") missing_analysis_type start) = Ok (Analysis a))
  /\ answer unit_cosine_distance stringify
       (scripted_world (lit "analyze_essay") bogus_analysis)
       review_request session start
     = Ok (lit "Here is my feedback.").
Proof.
  split; [reflexivity |]. split; [reflexivity |].
  split; [eexists; reflexivity |]. split; [eexists; reflexivity |].
  reflexivity.
Qed.

Lemma read_tools_degrade_to_empty_witness :
  SupabaseService.outage
    (database (offline_world (lit "search_similar_essays") search_input))
  /\ fst (handleToolCall unit_cosine_distance
            (offline_world (lit "search_similar_essays") search_input)
            (lit "search_similar_essays") search_input start)
     = Ok (SimilarEssays [])
  /\ fst (handleToolCall unit_cosine_distance
            (offline_world (lit "search_similar_essays") search_input)
            (lit "get_essay_examples") search_input start)
     = Ok (Examples []).
Proof.
  split; [exact I |].
  apply (@read_tools_degrade_to_empty vec unit_cosine_distance
           (offline_world (lit "search_similar_essays") search_input)
           search_input start).
  exact I.
Defined.

(** The same search against the reachable store finds an essay. *)
Example online_search_finds_rows :
  fst (searchSimilarEssays unit_cosine_distance
         (scripted_world (lit "search_similar_essays") search_input)
         (query search_input) (essay_type search_input) (limit search_input) start)
  <> Ok [].
Proof. vm_compute. discriminate. Qed.

(** A failing language model is answered with the apology. *)
Example unreachable_model_gets_apology :
  answer unit_cosine_distance stringify unreachable_model
    review_request session start = Ok apology.
Proof. reflexivity. Qed.

End TurnScenarios.

(* ===================================================================== *)
(** * Part III: the rest of the services                                  *)
(* ===================================================================== *)

(** ** EmbeddingService: text cleaning, ranking, batches, loading *)

Section MoreEmbeddingFacts.

Import EmbeddingService.

Lemma punctuation_clean c :
  existsb (N.eqb c) (lit ".,!?;:()-'" ++ [0x22%N]) = true ->
  toLowerCase_unit c = c.
Proof.
  rewrite existsb_exists. intros [x [Hin Heq]].
  apply N.eqb_eq in Heq. subst x. cbn in Hin.
  repeat (destruct Hin as [<- | Hin]; [reflexivity |]). destruct Hin.
Qed.

(** X8: cleaned text is made of lowercase ASCII letters, digits, the
    underscore, the space and the kept punctuation only. *)
Theorem preprocessText_alphabet (text : jsstring) :
  Forall (fun c => isCleanUnit c = true) (preprocessText text).
Proof.
  unfold preprocessText, toLowerCase, removeSpecial, collapseWhitespace.
  apply Forall_map.
  pose proof (collapse_only_spaces false (trim text)) as H.
  induction H as [| c l Hc _ IH]; cbn; [constructor |].
  destruct (isKept c) eqn:Hk; [| exact IH].
  constructor; [| exact IH].
  unfold isKept in Hk. rewrite !orb_true_iff in Hk.
  unfold isCleanUnit.
  destruct Hk as [[Hw | Hs] | Hp].
  - unfold isWordChar in Hw. unfold toLowerCase_unit.
    rewrite !orb_true_iff, !andb_true_iff, !N.leb_le, N.eqb_eq in Hw.
    destruct ((0x41 <=? c) && (c <=? 0x5A))%N eqn:Hup.
    + apply andb_true_iff in Hup. rewrite !N.leb_le in Hup.
      replace ((0x61 <=? c + 0x20) && (c + 0x20 <=? 0x7A))%N with true; [reflexivity |].
      symmetry. apply andb_true_iff. rewrite !N.leb_le. lia.
    + apply andb_false_iff in Hup. rewrite !N.leb_gt in Hup.
      destruct Hw as [[[Hu | Hlow] | Hd] | Hunder].
      * lia.
      * replace ((0x61 <=? c) && (c <=? 0x7A))%N with true; [reflexivity |].
        symmetry. apply andb_true_iff. rewrite !N.leb_le. lia.
      * replace ((0x30 <=? c) && (c <=? 0x39))%N with true;
          [now rewrite orb_true_r |].
        symmetry. apply andb_true_iff. rewrite !N.leb_le. lia.
      * subst c. reflexivity.
  - rewrite (Hc Hs). reflexivity.
  - rewrite (punctuation_clean _ Hp). rewrite Hp. now rewrite !orb_true_r.
Qed.

Lemma preprocessText_idempotent_on_kept_witness :
  Forall (fun c => isKept c = true) (lit "  Hello,   World! ")
  /\ preprocessText (preprocessText (lit "  Hello,   World! "))
     = preprocessText (lit "  Hello,   World! ").
Proof.
  assert (H : Forall (fun c => isKept c = true) (lit "  Hello,   World! ")).
  { repeat (constructor; [reflexivity |]). constructor. }
  split; [exact H | exact (preprocessText_idempotent_on_kept H)].
Defined.


Lemma SFmul_comm prec emax x y : SFmul prec emax x y = SFmul prec emax y x.
Proof.
  destruct x as [sx | sx | | sx mx ex], y as [sy | sy | | sy my ey]; cbn;
    try reflexivity; try (now rewrite xorb_comm).
  now rewrite xorb_comm, Pos.mul_comm, Z.add_comm.
Qed.

Lemma float_mul_comm (x y : float) : (x * y)%float = (y * x)%float.
Proof.
  apply Prim2SF_inj. rewrite !mul_spec. apply SFmul_comm.
Qed.

Lemma similarity_loop_swap e1 : forall e2 d n1 n2,
  length e1 = length e2 ->
  similarity_loop e2 e1 d n2 n1
  = (let '(dot, a, b) := similarity_loop e1 e2 d n1 n2 in (dot, b, a)).
Proof.
  induction e1 as [| x e1 IH]; intros [| y e2] d n1 n2 Hlen;
    try discriminate; cbn.
  - reflexivity.
  - rewrite (float_mul_comm y x). apply IH. now injection Hlen.
Qed.

(** X1: [calculateSimilarity] does not depend on the order of its
    operands: swapping them gives the same number, or the same error. *)
Theorem calculateSimilarity_symmetric (e1 e2 : list float) :
  calculateSimilarity e1 e2 = calculateSimilarity e2 e1.
Proof.
  unfold calculateSimilarity.
  rewrite (Nat.eqb_sym (length e2) (length e1)).
  destruct (length e1 =? length e2) eqn:Hlen; [| reflexivity]. cbn [negb].
  apply Nat.eqb_eq in Hlen.
  rewrite (@similarity_loop_swap e1 e2 _ _ _ Hlen).
  destruct (similarity_loop e1 e2 0 0 0) as [[d a] b].
  rewrite (orb_comm (PrimFloat.sqrt b =? 0)%float).
  now rewrite (float_mul_comm (PrimFloat.sqrt b)).
Qed.


Lemma calculateSimilarity_cases (e1 e2 : list float) :
  (length e1 = length e2 /\ exists s, calculateSimilarity e1 e2 = Ok s)
  \/ (length e1 <> length e2
      /\ calculateSimilarity e1 e2
         = Throw (Error (lit "Embeddings must have the same dimension"))).
Proof.
  unfold calculateSimilarity.
  destruct (length e1 =? length e2) eqn:Hlen; cbn [negb].
  - left. split; [now apply Nat.eqb_eq |].
    destruct (similarity_loop e1 e2 0 0 0) as [[d a] b].
    destruct ((PrimFloat.sqrt a =? 0)%float || (PrimFloat.sqrt b =? 0)%float); eauto.
  - right. split; [now apply Nat.eqb_neq | reflexivity].
Qed.

Lemma promise_all_ok (A : Type) (l : list (result A)) (vs : list A) :
  promise_all l = Ok vs <-> l = map (@Ok A) vs.
Proof.
  revert vs. induction l as [| [a | e] l IH]; intros vs; cbn.
  - split; [intros [= <-]; reflexivity | destruct vs; [reflexivity | discriminate]].
  - destruct (promise_all l) as [rest | e] eqn:Hl.
    + split.
      * intros [= <-]. cbn. f_equal. now apply IH.
      * destruct vs as [| v vs]; [discriminate |]. cbn. intros [= -> H].
        apply IH in H. now injection H as ->.
    + split; [discriminate |].
      destruct vs as [| v vs]; [discriminate |]. cbn. intros [= -> H].
      apply IH in H. discriminate.
  - split; [discriminate | destruct vs; discriminate].
Qed.

Lemma promise_all_throw (A : Type) (l : list (result A)) (e : exn) :
  promise_all l = Throw e -> In (Throw e) l.
Proof.
  induction l as [| [a | e'] l IH]; cbn; [discriminate | |].
  - destruct (promise_all l); [discriminate |]. intros [= ->]. right. now apply IH.
  - intros [= ->]. now left.
Qed.

Section RankingFacts.

Variable Meta : Type.
Variable sort : (Ranked Meta -> Ranked Meta -> float) -> list (Ranked Meta) -> list (Ranked Meta).

(** X2: [findMostSimilar] rejects with the dimension error as soon as one
    candidate's embedding has another length than the query, and returns
    a list when every candidate has the query's length. *)
Theorem findMostSimilar_dimension_error
        (q : list float) (candidates : list (Candidate Meta)) (topK : option Z) :
  (Exists (fun c => length q <> length (embedding c)) candidates ->
   findMostSimilar sort q candidates topK
   = Throw (Error (lit "Embeddings must have the same dimension")))
  /\ (Forall (fun c => length q = length (embedding c)) candidates ->
      exists ranked, findMostSimilar sort q candidates topK = Ok ranked).
Proof.
  unfold findMostSimilar. split.
  - intros Hex.
    destruct (promise_all (map (score q) candidates)) as [sims | e] eqn:Hall.
    + exfalso. apply promise_all_ok in Hall.
      apply Exists_exists in Hex. destruct Hex as [c [Hc Hlen]].
      assert (Hin : In (score q c) (map (score q) candidates)) by now apply in_map.
      rewrite Hall in Hin. apply in_map_iff in Hin. destruct Hin as [r [Hr _]].
      unfold score in Hr.
      destruct (calculateSimilarity_cases q (embedding c)) as [[Heq _] | [_ Hthrow]];
        [contradiction | rewrite Hthrow in Hr; discriminate].
    + apply promise_all_throw in Hall. apply in_map_iff in Hall.
      destruct Hall as [c [Hc _]]. unfold score in Hc.
      destruct (calculateSimilarity_cases q (embedding c)) as [[_ [s Hs]] | [_ Hthrow]].
      * rewrite Hs in Hc. discriminate.
      * rewrite Hthrow in Hc. now injection Hc as <-.
  - intros Hall.
    destruct (promise_all (map (score q) candidates)) as [sims | e] eqn:Hp; [eauto |].
    exfalso. apply promise_all_throw in Hp. apply in_map_iff in Hp.
    destruct Hp as [c [Hc Hin]]. rewrite Forall_forall in Hall.
    unfold score in Hc.
    destruct (calculateSimilarity_cases q (embedding c)) as [[_ [s Hs]] | [Hne _]].
    + rewrite Hs in Hc. discriminate.
    + now apply Hne, Hall.
Qed.

Hypothesis sort_permutes : forall cmp l, Permutation (sort cmp l) l.

Lemma slice0_length (A : Type) (k : Z) (l : list A) :
  length (slice0 k l)
  = if (k <? 0)%Z then length l - Z.to_nat (- k)
    else Nat.min (Z.to_nat k) (length l).
Proof.
  unfold slice0. destruct (k <? 0)%Z eqn:Hk; rewrite length_firstn.
  - apply Z.ltb_lt in Hk. lia.
  - reflexivity.
Qed.

Lemma in_slice0 (A : Type) (k : Z) (l : list A) x : In x (slice0 k l) -> In x l.
Proof.
  unfold slice0. destruct (k <? 0)%Z; apply in_firstn.
Qed.

(** X3: when [findMostSimilar] returns, every entry pairs a candidate's
    metadata with that candidate's similarity to the query, and the
    number of entries is the smaller of [topK] (default 5) and the
    number of candidates; a negative [topK] drops that many entries from
    the end instead.  Only that [sort] permutes its input is used. *)
Theorem findMostSimilar_shape
        (q : list float) (candidates : list (Candidate Meta)) (topK : option Z)
        (ranked : list (Ranked Meta)) :
  findMostSimilar sort q candidates topK = Ok ranked ->
  length ranked
  = (if (or_default topK 5 <? 0)%Z
     then length candidates - Z.to_nat (- or_default topK 5%Z)
     else Nat.min (Z.to_nat (or_default topK 5%Z)) (length candidates))
  /\ Forall (fun r => exists c,
                 In c candidates
                 /\ calculateSimilarity q (embedding c) = Ok (similarity r)
                 /\ ranked_metadata r = metadata c) ranked.
Proof.
  unfold findMostSimilar.
  destruct (promise_all (map (score q) candidates)) as [sims | e] eqn:Hall;
    [| discriminate].
  intros [= <-]. apply promise_all_ok in Hall.
  assert (Hlen : length sims = length candidates).
  { apply (f_equal (@length _)) in Hall. now rewrite !length_map in Hall. }
  split.
  - rewrite slice0_length, (Permutation_length (sort_permutes _ sims)), Hlen.
    reflexivity.
  - apply Forall_forall. intros r Hr. apply in_slice0 in Hr.
    apply (Permutation_in _ (sort_permutes _ sims)) in Hr.
    assert (Hin : In (Ok r) (map (score q) candidates)).
    { rewrite Hall. now apply in_map. }
    apply in_map_iff in Hin. destruct Hin as [c [Hc Hin]].
    exists c. split; [exact Hin |]. unfold score in Hc.
    destruct (calculateSimilarity q (embedding c)); [| discriminate].
    injection Hc as <-. cbn. split; reflexivity.
Qed.

End RankingFacts.

Section BatchFacts.
Variable vector : Type.

Lemma map_Ok_inj (A : Type) (l l' : list A) : map (@Ok A) l = map (@Ok A) l' -> l = l'.
Proof.
  revert l'. induction l as [| a l IH]; intros [| a' l']; cbn; try discriminate;
    [reflexivity |].
  intros [= -> H]. f_equal. now apply IH.
Qed.

Lemma batch_loop_nil (s : State vector) fuel embeddings :
  batch_loop fuel s [] embeddings = Ok embeddings.
Proof. destruct fuel; reflexivity. Qed.

Lemma batch_loop_step (s : State vector) fuel texts embeddings :
  texts <> [] ->
  batch_loop (S fuel) s texts embeddings
  = match promise_all
            (map (fun text => generateEmbedding_resume s (Some text))
                 (firstn batchSize texts)) with
    | Ok batchEmbeddings =>
        batch_loop fuel s (skipn batchSize texts) (embeddings ++ batchEmbeddings)
    | Throw error => Throw error
    end.
Proof. destruct texts; [congruence | reflexivity]. Qed.

Lemma skipn_shorter (A : Type) (l : list A) fuel :
  l <> [] -> length l <= S fuel -> length (skipn batchSize l) <= fuel.
Proof.
  intros Hne Hlen. rewrite length_skipn. unfold batchSize.
  destruct l; [congruence | cbn [length] in *; lia].
Qed.

Lemma batch_loop_ok (s : State vector) fuel : forall texts embeddings vs,
  length texts <= fuel ->
  map (fun text => generateEmbedding_resume s (Some text)) texts = map (@Ok _) vs ->
  batch_loop fuel s texts embeddings = Ok (embeddings ++ vs).
Proof.
  induction fuel as [| fuel IH]; intros texts embeddings vs Hfuel Hall.
  - destruct texts; [| cbn in Hfuel; lia]. destruct vs; [| discriminate].
    cbn. now rewrite app_nil_r.
  - destruct texts as [| t texts'].
    { destruct vs; [| discriminate]. cbn. now rewrite app_nil_r. }
    rewrite batch_loop_step by discriminate.
    assert (Hchunk : map (fun text => generateEmbedding_resume s (Some text))
                         (firstn batchSize (t :: texts'))
                     = map (@Ok _) (firstn batchSize vs)).
    { rewrite <- !firstn_map. now rewrite Hall. }
    rewrite (proj2 (promise_all_ok _ _) Hchunk).
    rewrite (IH (skipn batchSize (t :: texts')) _ (skipn batchSize vs)).
    + now rewrite <- app_assoc, firstn_skipn.
    + apply skipn_shorter; [discriminate | exact Hfuel].
    + rewrite <- !skipn_map. now rewrite Hall.
Qed.

Lemma batch_loop_throw (s : State vector) fuel : forall texts embeddings e,
  batch_loop fuel s texts embeddings = Throw e ->
  exists text, In text texts /\ generateEmbedding_resume s (Some text) = Throw e.
Proof.
  induction fuel as [| fuel IH]; intros texts embeddings e.
  - destruct texts; discriminate.
  - destruct texts as [| t texts']; [discriminate |].
    rewrite batch_loop_step by discriminate.
    destruct (promise_all _) as [chunk | e'] eqn:Hp.
    + intros H. apply IH in H. destruct H as [text [Hin Hthrow]].
      exists text. split; [| exact Hthrow].
      rewrite <- (firstn_skipn batchSize (t :: texts')). apply in_or_app. now right.
    + intros [= ->]. apply promise_all_throw in Hp. apply in_map_iff in Hp.
      destruct Hp as [text [Hthrow Hin]]. exists text. split; [| exact Hthrow].
      eapply in_firstn; eassumption.
Qed.

Lemma batch_loop_settles_ok (s : State vector) fuel : forall texts embeddings vs,
  length texts <= fuel ->
  batch_loop fuel s texts embeddings = Ok vs ->
  exists vs', vs = embeddings ++ vs'
    /\ map (fun text => generateEmbedding_resume s (Some text)) texts = map (@Ok _) vs'.
Proof.
  induction fuel as [| fuel IH]; intros texts embeddings vs Hfuel.
  - destruct texts; [| cbn in Hfuel; lia]. cbn. intros [= <-]. exists [].
    now rewrite app_nil_r.
  - destruct texts as [| t texts'].
    { cbn. intros [= <-]. exists []. now rewrite app_nil_r. }
    rewrite batch_loop_step by discriminate.
    destruct (promise_all _) as [chunk | e'] eqn:Hp; [| discriminate].
    intros H. apply IH in H.
    + destruct H as [rest [-> Hrest]]. exists (chunk ++ rest).
      split; [now rewrite app_assoc |].
      apply promise_all_ok in Hp.
      rewrite <- (firstn_skipn batchSize (t :: texts')) at 1.
      now rewrite map_app, Hp, Hrest, map_app.
    + apply skipn_shorter; [discriminate | exact Hfuel].
Qed.

(** X4: with the model loaded, [generateBatchEmbeddings] returns exactly
    when [generateEmbedding] returns on every text, and then gives the
    same embeddings in the same order, for any number of texts; when it
    throws, the error wraps the error of one of the texts.  The service
    is left as it was. *)
Theorem generateBatchEmbeddings_elementwise
        (pipeline : jsstring -> result (Model vector)) (s : State vector)
        (m : Model vector) (texts : list jsstring) :
  model s = Some m ->
  fst (generateBatchEmbeddings pipeline s texts) = s
  /\ (forall embeddings,
        snd (generateBatchEmbeddings pipeline s texts) = Ok embeddings
        <-> map (fun text => snd (generateEmbedding pipeline s (Some text))) texts
            = map (@Ok _) embeddings)
  /\ (forall e,
        snd (generateBatchEmbeddings pipeline s texts) = Throw e ->
        exists text e',
          In text texts
          /\ snd (generateEmbedding pipeline s (Some text)) = Throw e'
          /\ e = Error (lit "Failed to generate batch embeddings: "
                        ++ exn_toString e')).
Proof.
  intros Hm.
  assert (Hgen : forall text,
             snd (generateEmbedding pipeline s (Some text))
             = generateEmbedding_resume s (Some text)).
  { intros text. unfold generateEmbedding. now rewrite Hm. }
  unfold generateBatchEmbeddings. rewrite Hm. cbv beta iota zeta. rewrite Hm.
  cbn [fst snd].
  split; [reflexivity |]. split.
  - intros embeddings.
    rewrite (map_ext _ _ Hgen). split.
    + destruct (batch_loop (length texts) s texts []) as [vs | e] eqn:Hloop;
        [| discriminate].
      intros [= <-]. apply batch_loop_settles_ok in Hloop; [| lia].
      destruct Hloop as [vs' [-> Hvs']]. exact Hvs'.
    + intros Hall.
      now rewrite (@batch_loop_ok s (length texts) texts [] embeddings (le_n _) Hall).
  - intros e.
    destruct (batch_loop (length texts) s texts []) as [vs | e'] eqn:Hloop;
      [discriminate |].
    intros [= <-]. apply batch_loop_throw in Hloop.
    destruct Hloop as [text [Hin Hthrow]]. exists text, e'.
    rewrite Hgen. auto.
Qed.

End BatchFacts.
Section LoadingInvariants.
Variable vector : Type.

(** What one more load could cost: a load can start only when none is in
    flight and no model is present. *)
Lemma step_invariant (l : Loop vector) (e : event vector) (f : nat) :
  coherent l ->
  pipeline_calls l
  + (if isLoading (service l) then 0
     else match model (service l) with Some _ => 0 | None => 1 end) <= S f ->
  coherent (step l e)
  /\ pipeline_calls (step l e)
     + (if isLoading (service (step l e)) then 0
        else match model (service (step l e)) with Some _ => 0 | None => 1 end)
     <= S (f + failed_loads [e])
  /\ (forall m, model (service l) = Some m -> model (service (step l e)) = Some m).
Proof.
  intros [Hload Hnone] Hpot.
  destruct l as [[mo nm ld] calls lo early fin]. unfold coherent in *. cbn in *.
  destruct e as [c text | c | loaded]; cbn.
  - destruct mo as [m |]; cbn.
    + intuition (try discriminate; try congruence; try lia).
    + unfold initializeModel_enter; cbn. destruct ld; cbn;
        intuition (try discriminate; try congruence; try lia).
  - destruct (lookup_caller c early); cbn;
      intuition (try discriminate; try congruence; try lia).
  - destruct lo as [[c text] |]; cbn.
    + assert (Hld : ld = true) by (apply Hload; discriminate).
      subst ld. specialize (Hnone eq_refl). subst mo.
      destruct loaded as [m | err]; cbn;
        intuition (try discriminate; try congruence; try lia).
    + destruct loaded; intuition (try discriminate; try congruence; try lia).
Qed.

Lemma failed_loads_app (s1 s2 : list (event vector)) :
  failed_loads (s1 ++ s2) = failed_loads s1 + failed_loads s2.
Proof. unfold failed_loads. now rewrite filter_app, length_app. Qed.

Lemma run_invariant (schedule : list (event vector)) : forall (l : Loop vector) f,
  coherent l ->
  pipeline_calls l
  + (if isLoading (service l) then 0
     else match model (service l) with Some _ => 0 | None => 1 end) <= S f ->
  coherent (run l schedule)
  /\ pipeline_calls (run l schedule) <= S (f + failed_loads schedule)
  /\ (forall m, model (service l) = Some m ->
                model (service (run l schedule)) = Some m).
Proof.
  induction schedule as [| e schedule IH]; intros l f Hco Hpot.
  - split; [exact Hco |]. split; [| auto]. unfold failed_loads. cbn.
    destruct (isLoading (service l)), (model (service l)); lia.
  - destruct (step_invariant e Hco Hpot) as [Hco' [Hpot' Hkeep]].
    destruct (IH (step l e) (f + failed_loads [e]) Hco' Hpot') as [Hco'' [Hb Hk]].
    change (run l (e :: schedule)) with (run (step l e) schedule).
    change (e :: schedule) with ([e] ++ schedule). rewrite failed_loads_app.
    split; [exact Hco'' |]. split; [lia | auto].
Qed.

Lemma boot_coherent (name : option jsstring) : coherent (boot (new vector name)).
Proof. split; cbn; [split; [discriminate | congruence] | discriminate]. Qed.

(** X5: on a fresh service, under every schedule, the number of loads
    started is at most one more than the number of loads that failed;
    and once a model is present it stays, and no further load starts. *)
Theorem one_load_at_a_time (name : option jsstring)
        (before after : list (event vector)) :
  pipeline_calls (run (boot (new vector name)) before) <= S (failed_loads before)
  /\ forall m,
       model (service (run (boot (new vector name)) before)) = Some m ->
       model (service (run (boot (new vector name)) (before ++ after))) = Some m
       /\ pipeline_calls (run (boot (new vector name)) (before ++ after))
          = pipeline_calls (run (boot (new vector name)) before).
Proof.
  assert (Hboot : pipeline_calls (boot (new vector name))
                  + (if isLoading (service (boot (new vector name))) then 0
                     else match model (service (boot (new vector name))) with
                          | Some _ => 0 | None => 1 end) <= 1) by (cbn; lia).
  destruct (run_invariant before (boot_coherent name) Hboot) as [Hco [Hb _]].
  split; [exact Hb |].
  intros m Hm. unfold run. rewrite fold_left_app. fold (run (boot (new vector name)) before).
  set (l := run (boot (new vector name)) before) in *.
  split.
  - assert (Hpot : pipeline_calls l
                   + (if isLoading (service l) then 0
                      else match model (service l) with Some _ => 0 | None => 1 end)
                   <= S (pipeline_calls l)).
    { rewrite Hm. destruct (isLoading (service l)); lia. }
    now apply (run_invariant after Hco Hpot).
  - clearbody l. clear Hb Hboot. revert l Hco Hm.
    induction after as [| e after IH]; intros l Hco Hm; [reflexivity |].
    cbn [fold_left].
    assert (Hpot : pipeline_calls l
                   + (if isLoading (service l) then 0
                      else match model (service l) with Some _ => 0 | None => 1 end)
                   <= S (pipeline_calls l)).
    { rewrite Hm. destruct (isLoading (service l)); lia. }
    destruct (step_invariant e Hco Hpot) as [Hco' [_ Hkeep]].
    rewrite (IH (step l e) Hco' (Hkeep m Hm)).
    apply step_pipeline_calls. right. congruence.
Qed.

(** X6: on a service without a model and with no load in progress,
    [generateEmbedding] loads the model and embeds with it; the service
    then holds that model, is not loading and reports [isLoaded]; every
    later call embeds with the same model and never consults the
    loader. *)
Theorem generateEmbedding_loads_once
        (pipeline : jsstring -> result (Model vector)) (s : State vector)
        (m : Model vector) (text : option jsstring) :
  model s = None -> isLoading s = false -> pipeline (modelName s) = Ok m ->
  snd (generateEmbedding pipeline s text) = embed_with m text
  /\ model (fst (generateEmbedding pipeline s text)) = Some m
  /\ isLoading (fst (generateEmbedding pipeline s text)) = false
  /\ isLoaded (getModelInfo (fst (generateEmbedding pipeline s text))) = true
  /\ forall pipeline' text',
       generateEmbedding pipeline' (fst (generateEmbedding pipeline s text)) text'
       = (fst (generateEmbedding pipeline s text), embed_with m text').
Proof.
  intros Hm Hl Hp.
  assert (Hrun : generateEmbedding pipeline s text
                 = ({| model := Some m; modelName := modelName s;
                       isLoading := false |}, embed_with m text)).
  { unfold generateEmbedding, initializeModel, initializeModel_enter.
    rewrite Hm, Hl. cbn. rewrite Hp. reflexivity. }
  rewrite Hrun. cbn. repeat split.
Qed.

(** X7: when the load fails, [generateEmbedding] throws the wrapped load
    error and leaves the service exactly as it was, not loading, so a
    later call loads again. *)
Theorem failed_load_can_be_retried
        (pipeline : jsstring -> result (Model vector)) (s : State vector)
        (e : exn) (text : option jsstring) :
  model s = None -> isLoading s = false -> pipeline (modelName s) = Throw e ->
  generateEmbedding pipeline s text
  = (s, Throw (Error (lit "Failed to load embedding model: " ++ exn_toString e))).
Proof.
  intros Hm Hl Hp. destruct s as [mo nm ld]. cbn in *. subst mo ld.
  unfold generateEmbedding, initializeModel, initializeModel_enter. cbn.
  rewrite Hp. reflexivity.
Qed.

End LoadingInvariants.

End MoreEmbeddingFacts.

(** ** EmbeddingService on sample data *)

Section EmbeddingScenarios.

Import EmbeddingService Scenario.

Lemma sort_insert_permutes (A : Type) (cmp : A -> A -> float) x l :
  Permutation (sort_insert cmp x l) (x :: l).
Proof.
  induction l as [| y l IH]; cbn; [reflexivity |].
  destruct (0 <? cmp x y)%float; [| reflexivity].
  rewrite IH. apply perm_swap.
Qed.

Lemma insertion_sort_permutes (A : Type) (cmp : A -> A -> float) l :
  Permutation (insertion_sort cmp l) l.
Proof.
  induction l as [| x l IH]; cbn; [reflexivity |].
  rewrite sort_insert_permutes. now constructor.
Qed.

Lemma findMostSimilar_shape_witness :
  (forall cmp l, Permutation (@insertion_sort (Ranked jsstring) cmp l) l)
  /\ exists ranked,
       findMostSimilar (@insertion_sort _) [1; 0]%float candidates (Some 2%Z)
       = Ok ranked
       /\ map (@ranked_metadata _) ranked = [lit "parallel"; lit "diagonal"]
       /\ length ranked = 2
       /\ Forall (fun r => exists c,
                      In c candidates
                      /\ calculateSimilarity [1; 0]%float (embedding c)
                         = Ok (similarity r)
                      /\ ranked_metadata r = metadata c) ranked.
Proof.
  split; [intros cmp l; apply insertion_sort_permutes |].
  eexists. split; [vm_compute; reflexivity |]. split; [reflexivity |].
  apply (@findMostSimilar_shape jsstring (@insertion_sort _)
           (@insertion_sort_permutes _) [1; 0]%float candidates (Some 2%Z)).
  vm_compute. reflexivity.
Defined.

Lemma generateBatchEmbeddings_elementwise_witness :
  model loaded_service = Some constant_model
  /\ snd (generateBatchEmbeddings offline_pipeline loaded_service eleven_texts)
     = Ok (repeat query_vector 11).
Proof.
  split; [reflexivity |].
  apply (@generateBatchEmbeddings_elementwise vec offline_pipeline loaded_service
           constant_model eleven_texts eq_refl).
  reflexivity.
Defined.

Lemma generateEmbedding_loads_once_witness :
  model (new vec None) = None
  /\ isLoading (new vec None) = false
  /\ snd (generateEmbedding (fun _ => Ok constant_model) (new vec None)
            (Some (lit "My essay.")))
     = Ok query_vector
  /\ isLoaded (getModelInfo
                 (fst (generateEmbedding (fun _ => Ok constant_model) (new vec None)
                         (Some (lit "My essay."))))) = true.
Proof.
  split; [reflexivity |]. split; [reflexivity |].
  destruct (@generateEmbedding_loads_once vec (fun _ => Ok constant_model)
              (new vec None) constant_model (Some (lit "My essay."))
              eq_refl eq_refl eq_refl) as [Hout [_ [_ [Hinfo _]]]].
  split; [exact Hout | exact Hinfo].
Defined.

Lemma failed_load_can_be_retried_witness :
  model (new vec None) = None
  /\ isLoading (new vec None) = false
  /\ generateEmbedding offline_pipeline (new vec None) (Some (lit "My essay."))
     = (new vec None,
        Throw (Error (lit "Failed to load embedding model: Error: fetch failed"))).
Proof.
  split; [reflexivity |]. split; [reflexivity |].
  exact (@failed_load_can_be_retried vec offline_pipeline (new vec None)
           (Error (lit "fetch failed")) (Some (lit "My essay."))
           eq_refl eq_refl eq_refl).
Defined.

End EmbeddingScenarios.

(** ** PostgreSQL's readers *)

Section PostgresFacts.

Import Postgres.

(** Two identifiers written the way the database prints them are the
    same UUID only when they are the same text. *)
Lemma canonical_uuid_inj (i j : jsstring) :
  is_canonical_uuid i = true -> is_canonical_uuid j = true ->
  uuid_in i = uuid_in j -> i = j.
Proof.
  unfold is_canonical_uuid. intros Hi Hj Heq. rewrite <- Heq in Hj.
  destruct (uuid_in i) as [u |]; [| discriminate].
  apply jsstring_eqb_eq in Hi, Hj. congruence.
Qed.

Lemma canonical_uuid_valid (i : jsstring) :
  is_canonical_uuid i = true -> exists u, uuid_in i = Some u.
Proof.
  unfold is_canonical_uuid. destruct (uuid_in i) as [u |]; [eauto | discriminate].
Qed.

(** What the reader does with a plain unit inside an unquoted
    element. *)
Lemma array_step_plain r c :
  in_element r -> plain_unit c = true -> array_step r c = Some (plain_step r c).
Proof.
  intros [Hps [Hq He]] Hc. unfold plain_unit in Hc.
  repeat (apply andb_true_iff in Hc; destruct Hc as [Hc ?]).
  unfold array_step, plain_step. rewrite Hps, Hq, He.
  repeat match goal with
         | H : negb ?b = true |- _ => apply negb_true_iff in H; rewrite H
         end.
  destruct (array_isspace c); reflexivity.
Qed.

Lemma plain_step_in_element r c :
  in_element r -> in_element (plain_step r c).
Proof.
  intros [Hps [Hq He]]. unfold plain_step, in_element, keep.
  destruct (array_isspace c); cbn; auto.
Qed.

Lemma fold_plain_step_in_element rest : forall r,
  in_element r -> in_element (fold_left plain_step rest r).
Proof.
  induction rest as [| c rest IH]; intros r Hr; [exact Hr |].
  cbn. apply IH. now apply plain_step_in_element.
Qed.

Lemma array_read_plain rest : forall r tl,
  in_element r -> forallb plain_unit rest = true ->
  array_read r (rest ++ tl) = array_read (fold_left plain_step rest r) tl.
Proof.
  induction rest as [| c rest IH]; intros r tl Hr Hall; [reflexivity |].
  cbn in Hall. apply andb_true_iff in Hall. destruct Hall as [Hc Hall].
  cbn [app array_read fold_left]. rewrite (@array_step_plain r c Hr Hc).
  apply IH; [now apply plain_step_in_element | exact Hall].
Qed.

(** The units kept, together with the white space held back, are the
    units read; nothing else changes. *)
Lemma fold_plain_step rest : forall r,
  item (fold_left plain_step rest r) ++ spaces (fold_left plain_step rest r)
  = item r ++ spaces r ++ rest
  /\ hasquoting (fold_left plain_step rest r) = hasquoting r
  /\ items (fold_left plain_step rest r) = items r
  /\ counts (fold_left plain_step rest r) = counts r
  /\ dims (fold_left plain_step rest r) = dims r
  /\ leaf (fold_left plain_step rest r) = leaf r.
Proof.
  induction rest as [| c rest IH]; intros r.
  - cbn. rewrite app_nil_r. repeat split.
  - cbn [fold_left]. destruct (IH (plain_step r c)) as [Hi [Hh [Hit [Hc [Hd Hl]]]]].
    rewrite Hi, Hh, Hit, Hc, Hd, Hl. unfold plain_step, keep.
    destruct (array_isspace c); cbn; rewrite <- ?app_assoc; cbn; repeat split.
    apply orb_false_r.
Qed.

Lemma fold_plain_step_spaces rest : forall r,
  rest <> [] -> array_isspace (last rest 0%N) = false ->
  spaces (fold_left plain_step rest r) = [].
Proof.
  induction rest as [| c rest IH]; intros r Hne Hlast; [congruence |].
  destruct rest as [| c' rest'].
  - cbn [last] in Hlast. cbn [fold_left]. unfold plain_step. rewrite Hlast.
    reflexivity.
  - cbn [fold_left]. apply IH; [discriminate | exact Hlast].
Qed.

(** A plain topic between braces is read as the array of that one
    element. *)
Lemma array_in_plain (t : jsstring) :
  plain_topic t = true -> array_in (lit "{" ++ t ++ lit "}") = Some [Some t].
Proof.
  destruct t as [| c t]; [discriminate |].
  unfold plain_topic. intros H.
  apply andb_true_iff in H. destruct H as [H Hnull].
  apply andb_true_iff in H. destruct H as [H Hlast].
  apply andb_true_iff in H. destruct H as [Hall Hfirst].
  apply negb_true_iff in Hnull, Hlast, Hfirst.
  cbn [forallb] in Hall. apply andb_true_iff in Hall. destruct Hall as [Hc Hall].
  unfold array_in.
  change (lit "{" ++ (c :: t) ++ lit "}") with (lbrace :: c :: t ++ lit "}").
  cbn [array_read]. change (array_step array_start lbrace)
    with (Some {| parse_state := ARRAY_LEVEL_STARTED; in_quotes := false;
                  escaped := false; hasquoting := false;
                  item := []; spaces := []; items := [];
                  counts := [0]; dims := []; leaf := None |}).
  cbv iota beta.
  set (r0 := {| parse_state := ARRAY_LEVEL_STARTED; in_quotes := false;
                escaped := false; hasquoting := false;
                item := []; spaces := []; items := [];
                counts := [0]; dims := []; leaf := None |}).
  assert (Hstep : array_step r0 c = Some (keep r0 ARRAY_ELEM_STARTED false c)).
  { pose proof Hc as Hc'. unfold plain_unit in Hc'.
    repeat (apply andb_true_iff in Hc'; destruct Hc' as [Hc' ?]).
    unfold array_step. cbn [parse_state r0 escaped in_quotes].
    repeat match goal with
           | H : negb ?b = true |- _ => apply negb_true_iff in H; rewrite H
           end.
    rewrite Hfirst. reflexivity. }
  rewrite Hstep.
  set (r1 := keep r0 ARRAY_ELEM_STARTED false c).
  assert (Hr1 : in_element r1) by (repeat split).
  rewrite (@array_read_plain t r1 (lit "}") Hr1 Hall).
  set (r2 := fold_left plain_step t r1).
  destruct (fold_plain_step t r1) as [Hi [Hh [Hit [Hcn [Hd Hl]]]]].
  fold r2 in Hi, Hh, Hit, Hcn, Hd, Hl.
  assert (Hr2 : in_element r2).
  { unfold r2. now apply fold_plain_step_in_element. }
  assert (Hsp : spaces r2 = []).
  { destruct t as [| x t'].
    - reflexivity.
    - unfold r2. apply fold_plain_step_spaces; [discriminate |].
      exact Hlast. }
  rewrite Hsp, app_nil_r in Hi. cbn in Hi.
  destruct Hr2 as [Hps [Hq He]].
  change (lit "}") with [rbrace]. cbn [array_read].
  assert (Hclose : array_step r2 rbrace
                   = Some {| parse_state := ARRAY_CLOSED;
                             in_quotes := false; escaped := false;
                             hasquoting := false; item := []; spaces := [];
                             items := [Some (c :: t)]; counts := [];
                             dims := [(1, 1)]; leaf := Some 1 |}).
  { unfold array_step. rewrite Hps, He, Hq. cbn [N.eqb rbrace backslash dquote lbrace].
    change ((rbrace =? 0)%N) with false. cbv iota.
    change ((0x7D =? 0x5C)%N) with false.
    unfold close_item. rewrite Hps, Hcn, Hl. cbn.
    unfold read_item. rewrite Hh, Hi, Hit, Hd. cbn [negb andb].
    rewrite Hnull. reflexivity. }
  rewrite Hclose. reflexivity.
Qed.

End PostgresFacts.

(** ** SupabaseService: lookups, insertion, the category filter *)

Section MoreStoreFacts.

Import SupabaseService.

Variable vector : Type.

Lemma jsstring_eqb_refl a : jsstring_eqb a a = true.
Proof. now apply jsstring_eqb_eq. Qed.

Lemma jsstring_eqb_neq a b : jsstring_eqb a b = false <-> a <> b.
Proof.
  split.
  - intros H Heq. apply jsstring_eqb_eq in Heq. congruence.
  - intros H. destruct (jsstring_eqb a b) eqn:E; [| reflexivity].
    apply jsstring_eqb_eq in E. contradiction.
Qed.

(** *** Lookups and insertion *)

(** The topic filter on a plain topic is membership; on an absent or
    empty topic it lets every row through. *)
Lemma has_topic_plain (t : jsstring) (e : Essay vector) :
  Postgres.plain_topic t = true ->
  has_topic (Some t) e = existsb (jsstring_eqb t) (topics e).
Proof.
  intros Ht. unfold has_topic, topics_literal. cbn [or_default].
  rewrite (array_in_plain t Ht). cbn. apply andb_true_r.
Qed.

Lemma has_topic_empty (topic : option jsstring) (e : Essay vector) :
  topic = None \/ topic = Some [] -> has_topic topic e = true.
Proof. intros [-> | ->]; reflexivity. Qed.

(** The type filter of [getEssaysByTopic]. *)
Lemma getEssaysByTopic_online
      (essays : list (Essay vector)) (topic essayType : option jsstring)
      (limit : option Z) :
  (0 <= or_default limit 10)%Z ->
  Postgres.array_in (topics_literal topic) <> None ->
  getEssaysByTopic (Online essays) topic essayType limit
  = Ok (firstn (Z.to_nat (or_default limit 10%Z))
          (filter (on_topic topic essayType) essays)).
Proof.
  intros Hl Hlit. unfold getEssaysByTopic, select_by_topic, default_topic_limit.
  destruct (or_default limit 10 <? 0)%Z eqn:E; [apply Z.ltb_lt in E; lia |].
  destruct (Postgres.array_in (topics_literal topic)) as [elements |] eqn:Ha;
    [| congruence].
  cbv beta iota. f_equal. f_equal. apply filter_ext. intros e. unfold on_topic.
  destruct essayType as [t |]; [| reflexivity]. now destruct (truthy t).
Qed.

Lemma getEssaysByTopic_plain
      (essays : list (Essay vector)) (t : jsstring) (essayType : option jsstring)
      (limit : option Z) :
  (0 <= or_default limit 10)%Z -> Postgres.plain_topic t = true ->
  getEssaysByTopic (Online essays) (Some t) essayType limit
  = Ok (firstn (Z.to_nat (or_default limit 10%Z))
          (filter (fun e => existsb (jsstring_eqb t) (topics e)
                            && on_topic None essayType e) essays)).
Proof.
  intros Hl Ht.
  assert (Hlit : Postgres.array_in (topics_literal (Some t)) <> None).
  { unfold topics_literal. cbn [or_default]. now rewrite (array_in_plain t Ht). }
  rewrite (getEssaysByTopic_online essays (Some t) essayType limit Hl Hlit).
  f_equal. f_equal. apply filter_ext. intros e. unfold on_topic.
  rewrite (@has_topic_plain t e Ht).
  now rewrite (@has_topic_empty None e (or_introl eq_refl)).
Qed.

Lemma getEssaysByTopic_malformed
      (essays : list (Essay vector)) (topic essayType : option jsstring)
      (limit : option Z) :
  Postgres.array_in (topics_literal topic) = None ->
  exists error,
    getEssaysByTopic (Online essays) topic essayType limit = Throw error.
Proof.
  intros Hlit. unfold getEssaysByTopic, select_by_topic.
  destruct (or_default limit default_topic_limit <? 0)%Z; [cbn; eauto |].
  rewrite Hlit. cbn. eauto.
Qed.

(** X12: on a reachable store, [getEssaysByTopic] filters before it
    limits.  For a plain topic (not empty, without comma, brace, double
    quote or backslash, without white space at either end, and not the
    word NULL) it returns [limit] rows (default 10) whenever that many
    essays carry the topic and, when a type is given, have that type;
    every row is such an essay of the table.  An absent or empty topic
    filters nothing: the rows are then taken among all essays of the
    type. *)
Theorem getEssaysByTopic_filters_then_limits
        (essays : list (Essay vector)) (topic essayType : option jsstring)
        (limit : option Z) :
  (0 <= or_default limit 10)%Z ->
  (forall t,
      topic = Some t -> Postgres.plain_topic t = true ->
      exists rows,
        getEssaysByTopic (Online essays) topic essayType limit = Ok rows
        /\ rows
           = firstn (Z.to_nat (or_default limit 10%Z))
               (filter (fun e => existsb (jsstring_eqb t) (topics e)
                                 && on_topic None essayType e) essays)
        /\ Forall (fun e => In e essays
                            /\ In t (topics e)
                            /\ (forall ty, essayType = Some ty -> ty <> [] ->
                                           type e = ty))
             rows
        /\ length rows
           = Nat.min (Z.to_nat (or_default limit 10%Z))
               (length (filter (fun e => existsb (jsstring_eqb t) (topics e)
                                         && on_topic None essayType e) essays)))
  /\ (topic = None \/ topic = Some [] ->
      getEssaysByTopic (Online essays) topic essayType limit
      = Ok (firstn (Z.to_nat (or_default limit 10%Z))
              (filter (fun e => match essayType with
                                | Some (c :: ty) => jsstring_eqb (type e) (c :: ty)
                                | _ => true
                                end) essays))).
Proof.
  intros Hl. split.
  - intros t -> Ht.
    rewrite (@getEssaysByTopic_plain essays t essayType limit Hl Ht).
    eexists. split; [reflexivity |]. split; [reflexivity |].
    split; [| apply length_firstn].
    apply Forall_forall. intros e He. apply in_firstn in He.
    apply filter_In in He. destruct He as [Hin Hon].
    apply andb_true_iff in Hon. destruct Hon as [Htopic Htype].
    split; [exact Hin |]. split.
    + apply existsb_exists in Htopic. destruct Htopic as [x [Hx Heq]].
      apply jsstring_eqb_eq in Heq. now subst x.
    + intros ty -> Hne. destruct ty as [| c ty]; [congruence |].
      unfold on_topic in Htype. apply andb_true_iff in Htype.
      destruct Htype as [_ Htype]. cbn in Htype.
      unfold type_is in Htype. now apply jsstring_eqb_eq in Htype.
  - intros Htopic.
    assert (Hlit : Postgres.array_in (topics_literal topic) <> None)
      by (destruct Htopic as [-> | ->]; discriminate).
    rewrite (getEssaysByTopic_online essays topic essayType limit Hl Hlit).
    f_equal. f_equal. apply filter_ext. intros e. unfold on_topic.
    rewrite (@has_topic_empty topic e Htopic). cbn [andb].
    destruct essayType as [[| c ty] |]; reflexivity.
Qed.

(** Lookup by id on a table with a primary key. *)
Lemma filter_has_uuid_absent (essays : list (Essay vector)) u :
  (forall e, In e essays -> Postgres.uuid_in (id e) <> Some u) ->
  filter (has_uuid u) essays = [].
Proof.
  induction essays as [| a essays IH]; cbn; [reflexivity |].
  intros Habsent. unfold has_uuid at 1.
  destruct (Postgres.uuid_in (id a)) as [u' |] eqn:Ha.
  - destruct (jsstring_eqb u' u) eqn:E.
    + apply jsstring_eqb_eq in E. subst u'. exfalso.
      apply (Habsent a); [now left | exact Ha].
    + apply IH. intros e He. apply Habsent. now right.
  - apply IH. intros e He. apply Habsent. now right.
Qed.

Lemma filter_has_uuid_unique (essays : list (Essay vector)) e u :
  unique_ids essays -> canonical_ids essays -> In e essays ->
  Postgres.uuid_in (id e) = Some u ->
  filter (has_uuid u) essays = [e].
Proof.
  unfold unique_ids, canonical_ids.
  induction essays as [| a essays IH]; cbn; [tauto |].
  intros Hnd Hcan Hin Hu. inversion Hnd as [| ? ? Hnotin Hnd']; subst.
  inversion Hcan as [| ? ? Hca Hcan']; subst.
  assert (Hothers : forall x, In x essays -> id x <> id a).
  { intros x Hx Heq. apply Hnotin. rewrite <- Heq. now apply in_map. }
  destruct Hin as [-> | Hin].
  - unfold has_uuid at 1. rewrite Hu, jsstring_eqb_refl. f_equal.
    apply filter_has_uuid_absent. intros x Hx Hxu.
    apply (Hothers x Hx).
    apply canonical_uuid_inj; [| exact Hca | now rewrite Hxu, Hu].
    rewrite Forall_forall in Hcan'. now apply Hcan'.
  - unfold has_uuid at 1.
    destruct (Postgres.uuid_in (id a)) as [u' |] eqn:Ha; [| now apply IH].
    destruct (jsstring_eqb u' u) eqn:E; [| now apply IH].
    apply jsstring_eqb_eq in E. subst u'. exfalso.
    apply (Hothers e Hin).
    apply canonical_uuid_inj; [| exact Hca | now rewrite Hu, Ha].
    rewrite Forall_forall in Hcan'. now apply Hcan'.
Qed.

Lemma getEssayById_online (essays : list (Essay vector)) i u :
  Postgres.uuid_in i = Some u ->
  getEssayById (Online essays) i
  = match filter (has_uuid u) essays with
    | [row] => Ok (Some row)
    | _ => Ok None
    end.
Proof.
  intros Hu. unfold getEssayById, select_by_id. rewrite Hu.
  destruct (filter (has_uuid u) essays) as [| x [| y l]]; reflexivity.
Qed.

Lemma getEssayById_found (essays : list (Essay vector)) i e :
  unique_ids essays -> canonical_ids essays -> In e essays ->
  Postgres.uuid_in i = Postgres.uuid_in (id e) ->
  getEssayById (Online essays) i = Ok (Some e).
Proof.
  intros Hu Hcan He Hi.
  assert (Hce : Postgres.is_canonical_uuid (id e) = true)
    by (unfold canonical_ids in Hcan; rewrite Forall_forall in Hcan;
        now apply Hcan).
  destruct (canonical_uuid_valid _ Hce) as [u Hue].
  rewrite (@getEssayById_online essays i u) by (now rewrite Hi).
  now rewrite (@filter_has_uuid_unique essays e u Hu Hcan He Hue).
Qed.

Lemma getEssayById_absent (essays : list (Essay vector)) i u :
  Postgres.uuid_in i = Some u ->
  (forall e, In e essays -> Postgres.uuid_in (id e) <> Some u) ->
  getEssayById (Online essays) i = Ok None.
Proof.
  intros Hi Habsent. rewrite (@getEssayById_online essays i u Hi).
  now rewrite (@filter_has_uuid_absent essays u Habsent).
Qed.

Lemma getEssayById_not_a_uuid (essays : list (Essay vector)) i :
  Postgres.uuid_in i = None ->
  getEssayById (Online essays) i
  = Throw (Error (lit "Failed to get essay: "
                  ++ lit "invalid input syntax for type uuid: "
                  ++ [0x22%N] ++ i ++ [0x22%N])).
Proof.
  intros Hi. unfold getEssayById, select_by_id. rewrite Hi. reflexivity.
Qed.

(** X13: on a table whose identifiers are unique and written as the
    database prints them, [getEssayById] returns the essay with the
    given identifier, in whichever of the forms a UUID may be written,
    when there is one; it returns [null] without an error when the
    identifier is a UUID that no essay has; and it throws when the
    argument is not a UUID at all.  What it returns always carries the
    identifier asked for. *)
Theorem getEssayById_finds_exactly (essays : list (Essay vector)) :
  unique_ids essays -> canonical_ids essays ->
  (forall e, In e essays -> getEssayById (Online essays) (id e) = Ok (Some e))
  /\ (forall i e, In e essays ->
                  Postgres.uuid_in i = Postgres.uuid_in (id e) ->
                  getEssayById (Online essays) i = Ok (Some e))
  /\ (forall i u, Postgres.uuid_in i = Some u ->
                  (forall e, In e essays -> Postgres.uuid_in (id e) <> Some u) ->
                  getEssayById (Online essays) i = Ok None)
  /\ (forall i, Postgres.uuid_in i = None ->
                exists error, getEssayById (Online essays) i = Throw error)
  /\ (forall i e, getEssayById (Online essays) i = Ok (Some e) ->
                  In e essays /\ Postgres.uuid_in (id e) = Postgres.uuid_in i).
Proof.
  intros Hu Hcan.
  split; [| split; [| split; [| split]]].
  - intros e He. now apply getEssayById_found.
  - intros i e He Hi. now apply getEssayById_found.
  - intros i u Hi Habsent. now apply (@getEssayById_absent essays i u).
  - intros i Hi. rewrite (getEssayById_not_a_uuid essays i Hi). eauto.
  - intros i e. destruct (Postgres.uuid_in i) as [u |] eqn:Hi.
    + rewrite (@getEssayById_online essays i u Hi).
      destruct (filter (has_uuid u) essays) as [| x [| y l]] eqn:Hf;
        try discriminate.
      intros [= <-].
      assert (Hx : In x (filter (has_uuid u) essays)) by (rewrite Hf; now left).
      apply filter_In in Hx. destruct Hx as [Hin Hx]. split; [exact Hin |].
      unfold has_uuid in Hx.
      destruct (Postgres.uuid_in (id x)) as [u' |]; [| discriminate].
      apply jsstring_eqb_eq in Hx. now subst u'.
    + unfold getEssayById, select_by_id. rewrite Hi. cbn. discriminate.
Qed.

Section InsertionFacts.

Variable gen_random_uuid : list (Essay vector) -> jsstring.
Variable dimension : vector -> nat.
Variable float4 : vector -> vector.
Variable timestamptz : jsstring -> jsstring.

Local Abbreviation insertEssay :=
  (insertEssay gen_random_uuid dimension float4 timestamptz).

(** What a successful insert has checked. *)
Lemma insertEssay_ok essays essay created updated db' row :
  insertEssay (Online essays) essay created updated = (db', Ok row) ->
  row = stored_row gen_random_uuid float4 timestamptz essays essay created updated
  /\ db' = Online (essays ++ [row])
  /\ In (type row) essay_types
  /\ (forall v, embedding row = Some v -> dimension v = 384)
  /\ ~ In (id row) (map (@id vector) essays).
Proof.
  unfold SupabaseService.insertEssay, violated_constraint.
  set (row0 := stored_row gen_random_uuid float4 timestamptz essays essay
                 created updated).
  destruct (existsb (jsstring_eqb (type row0)) essay_types) eqn:Ht;
    cbn [negb]; [| discriminate].
  destruct (match embedding row0 with
            | Some v => if (dimension v =? 384) then None else Some v
            | None => None
            end) eqn:Hd; [discriminate |].
  destruct (existsb (fun e => jsstring_eqb (id e) (id row0)) essays) eqn:Hi;
    [discriminate |].
  intros [= <- <-]. repeat split.
  - apply existsb_exists in Ht. destruct Ht as [t [Hin Heq]].
    apply jsstring_eqb_eq in Heq. now rewrite Heq.
  - intros v Hv. rewrite Hv in Hd.
    destruct (dimension v =? 384) eqn:E; [| discriminate].
    now apply Nat.eqb_eq.
  - intros Hin. apply in_map_iff in Hin. destruct Hin as [e [He Hin]].
    assert (Hex : existsb (fun e => jsstring_eqb (id e) (id row0)) essays = true).
    { apply existsb_exists. exists e. split; [exact Hin |]. now apply jsstring_eqb_eq. }
    congruence.
Qed.

(** A failed insert leaves the database as it was. *)
Lemma insertEssay_throw (db db' : Backend vector) essay created updated e :
  insertEssay db essay created updated = (db', Throw e) -> db' = db.
Proof.
  unfold SupabaseService.insertEssay. destruct db as [essays | err | e']; cbn.
  - destruct (violated_constraint _ _ _); [| discriminate]. now intros [= <- _].
  - now intros [= <- _].
  - now intros [= <- _].
Qed.

Lemma unique_ids_snoc (essays : list (Essay vector)) row :
  unique_ids essays -> ~ In (id row) (map (@id vector) essays) ->
  unique_ids (essays ++ [row]).
Proof.
  unfold unique_ids. intros Hu Hn. rewrite map_app. cbn.
  apply NoDup_app; [exact Hu | repeat constructor; auto | ].
  intros x Hx [<- | []]. contradiction.
Qed.

(** X14: an essay that [insertEssay] has stored is found again by
    [getEssayById] under the identifier the insert returned, and every
    essay stored before is still found.  The row has the content, type
    and topics it was given; its embedding is the single-precision
    vector the column keeps of the one given, and its timestamps are
    the ones given as the column prints them. *)
Theorem insertEssay_then_getEssayById
        (essays : list (Essay vector)) (essay : NewEssay vector)
        (created updated : jsstring) (db' : Backend vector) (row : Essay vector) :
  unique_ids essays -> canonical_ids essays ->
  Postgres.is_canonical_uuid (gen_random_uuid essays) = true ->
  insertEssay (Online essays) essay created updated = (db', Ok row) ->
  getEssayById db' (id row) = Ok (Some row)
  /\ (forall e, In e essays -> getEssayById db' (id e) = Ok (Some e))
  /\ content row = new_content essay
  /\ type row = new_type essay
  /\ topics row = new_topics essay
  /\ embedding row = option_map float4 (new_embedding essay)
  /\ created_at row = timestamptz created
  /\ updated_at row = timestamptz updated.
Proof.
  intros Hu Hcan Hnew Hins.
  destruct (@insertEssay_ok _ _ _ _ _ _ Hins) as [Hrow [-> [_ [_ Hfresh]]]].
  pose proof (@unique_ids_snoc essays row Hu Hfresh) as Hu'.
  assert (Hcan' : canonical_ids (essays ++ [row])).
  { unfold canonical_ids in *. apply Forall_app. split; [exact Hcan |].
    constructor; [| constructor]. subst row. exact Hnew. }
  split; [| split].
  - apply getEssayById_found; [exact Hu' | exact Hcan' | | reflexivity].
    apply in_or_app. right. now left.
  - intros e He.
    apply getEssayById_found; [exact Hu' | exact Hcan' | | reflexivity].
    apply in_or_app. now left.
  - subst row. cbn. repeat split.
Qed.

(** X15: [insertEssay] keeps the table within its constraints: unique
    identifiers, a type among the four allowed, embeddings of dimension
    384. *)
Theorem insertEssay_keeps_table_well_formed
        (db : Backend vector) (essay : NewEssay vector) (created updated : jsstring) :
  well_formed dimension (table db) ->
  well_formed dimension (table (fst (insertEssay db essay created updated))).
Proof.
  intros Hwf. destruct db as [essays | err | e]; [| exact Hwf | exact Hwf].
  cbn [table] in Hwf.
  destruct (SupabaseService.insertEssay gen_random_uuid dimension float4
              timestamptz (Online essays) essay created updated)
    as [db' [row | e]] eqn:Hins.
  - destruct (@insertEssay_ok _ _ _ _ _ _ Hins) as [_ [-> [Ht [Hd Hfresh]]]].
    destruct Hwf as [Hu Hall]. cbn. split.
    + now apply unique_ids_snoc.
    + apply Forall_app. split; [exact Hall |].
      constructor; [split; assumption | constructor].
  - unfold SupabaseService.insertEssay in Hins.
    destruct (violated_constraint _ _ _); [| discriminate].
    injection Hins as <- _. exact Hwf.
Qed.

(** X16: a failed insert is reported by an exception and leaves the
    database as it was; an insert fails during an outage and for a type
    outside the four allowed. *)
Theorem insertEssay_failure_is_surfaced
        (db : Backend vector) (essay : NewEssay vector) (created updated : jsstring) :
  (forall e, snd (insertEssay db essay created updated) = Throw e ->
             fst (insertEssay db essay created updated) = db)
  /\ (outage db -> exists e, snd (insertEssay db essay created updated) = Throw e)
  /\ (~ In (new_type essay) essay_types ->
      exists e, snd (insertEssay db essay created updated) = Throw e).
Proof.
  unfold SupabaseService.insertEssay. repeat split.
  - intros e. destruct db as [essays | err | e']; cbn; try reflexivity.
    destruct (violated_constraint _ _ _); [reflexivity | discriminate].
  - destruct db; cbn; [tauto | eauto | eauto].
  - intros Hty. destruct db as [essays | err | e']; cbn; eauto.
    unfold violated_constraint. cbn [type stored_row].
    destruct (existsb (jsstring_eqb (new_type essay)) essay_types) eqn:E; cbn; eauto.
    exfalso. apply Hty. apply existsb_exists in E. destruct E as [t [Hin Heq]].
    apply jsstring_eqb_eq in Heq. now rewrite Heq.
Qed.

End InsertionFacts.

(** *** The category filter of the search *)

Section CategoryFacts.

Variable cosine_distance : vector -> vector -> Q.

(** X11: in [searchSimilarEssays] an empty category and the category
    [all] search like no category at all; any other category keeps, of
    the rows the unfiltered search returns, those of exactly that
    type. *)
Theorem searchSimilarEssays_category
        (db : Backend vector) (q : vector) (limit : option Z) (threshold : option Q) :
  searchSimilarEssays cosine_distance db q (Some []) limit threshold
  = searchSimilarEssays cosine_distance db q None limit threshold
  /\ searchSimilarEssays cosine_distance db q (Some (lit "all")) limit threshold
     = searchSimilarEssays cosine_distance db q None limit threshold
  /\ (forall t : jsstring,
         t <> [] -> t <> lit "all" ->
         searchSimilarEssays cosine_distance db q (Some t) limit threshold
         = filter (fun r => jsstring_eqb (type (essay r)) t)
             (searchSimilarEssays cosine_distance db q None limit threshold)
         /\ Forall (fun r => type (essay r) = t)
              (searchSimilarEssays cosine_distance db q (Some t) limit threshold)).
Proof.
  split; [reflexivity |]. split; [reflexivity |].
  intros t Hne Hall.
  assert (Ht : search_filter (Some t) = Some t).
  { unfold search_filter. destruct t as [| c t]; [congruence |].
    cbn [truthy andb].
    now rewrite (proj2 (jsstring_eqb_neq (c :: t) (lit "all")) Hall). }
  rewrite (category_filter_is_post_filter cosine_distance db q limit threshold Ht).
  split; [reflexivity |].
  apply Forall_forall. intros r Hr. apply filter_In in Hr.
  destruct Hr as [_ Hr]. unfold type_is in Hr. now apply jsstring_eqb_eq in Hr.
Qed.

End CategoryFacts.

End MoreStoreFacts.

(** ** SupabaseService on sample data *)

Section MoreStoreScenarios.

Import SupabaseService Scenario.

Lemma keyed_table_unique_ids : unique_ids [essay_e; essay_f].
Proof.
  unfold unique_ids. cbn.
  repeat (constructor; [cbn; intuition discriminate |]). constructor.
Qed.

Lemma keyed_table_canonical_ids : canonical_ids [essay_e; essay_f].
Proof. repeat constructor. Qed.

Lemma getEssaysByTopic_filters_then_limits_witness :
  (0 <= or_default (Some 1%Z) 10)%Z
  /\ Postgres.plain_topic (lit "identity") = true
  /\ (exists rows,
         getEssaysByTopic (Online [essay_a; essay_b; essay_c; essay_d])
           (Some (lit "identity")) (Some (lit "personal_statement")) (Some 1%Z)
         = Ok rows
         /\ map (@id vec) rows = [lit "b"])
  /\ (exists rows,
         getEssaysByTopic (Online [essay_a; essay_b; essay_c; essay_d])
           (Some []) None None
         = Ok rows
         /\ map (@id vec) rows = [lit "a"; lit "b"; lit "c"; lit "d"]).
Proof.
  split; [discriminate |]. split; [reflexivity |].
  destruct (@getEssaysByTopic_filters_then_limits vec
              [essay_a; essay_b; essay_c; essay_d]
              (Some (lit "identity")) (Some (lit "personal_statement")) (Some 1%Z)
              ltac:(discriminate))
    as [Hplain _].
  destruct (Hplain (lit "identity") eq_refl eq_refl) as [rows [Hrows [Heq _]]].
  split.
  - exists rows. split; [exact Hrows |]. rewrite Heq. reflexivity.
  - eexists. split; reflexivity.
Defined.

Lemma getEssayById_finds_exactly_witness :
  unique_ids [essay_e; essay_f]
  /\ canonical_ids [essay_e; essay_f]
  /\ getEssayById (Online [essay_e; essay_f])
       (lit "22222222-2222-4222-8222-222222222222")
     = Ok (Some essay_f)
  /\ getEssayById (Online [essay_e; essay_f])
       (lit "22222222222242228222222222222222")
     = Ok (Some essay_f)
  /\ getEssayById (Online [essay_e; essay_f])
       (lit "33333333-3333-4333-8333-333333333333")
     = Ok None
  /\ exists error, getEssayById (Online [essay_e; essay_f]) (lit "z") = Throw error.
Proof.
  split; [exact keyed_table_unique_ids |].
  split; [exact keyed_table_canonical_ids |].
  destruct (@getEssayById_finds_exactly vec [essay_e; essay_f]
              keyed_table_unique_ids keyed_table_canonical_ids)
    as [Hfound [Hform [Habsent [Hbad _]]]].
  split; [| split; [| split]].
  - apply (Hfound essay_f). cbn. tauto.
  - apply (Hform _ essay_f); [cbn; tauto | reflexivity].
  - eapply Habsent; [reflexivity |].
    intros e [<- | [<- | []]]; discriminate.
  - apply Hbad. reflexivity.
Defined.

Lemma insertEssay_then_getEssayById_witness :
  unique_ids [essay_e; essay_f]
  /\ canonical_ids [essay_e; essay_f]
  /\ Postgres.is_canonical_uuid (sample_uuid [essay_e; essay_f]) = true
  /\ exists row,
       insertEssay sample_uuid sample_dimension sample_float4 sample_timestamptz
         (Online [essay_e; essay_f]) new_essay
         (lit "2024-06-01T10:00:00.000Z") (lit "2024-06-01T10:00:00.001Z")
       = (Online ([essay_e; essay_f] ++ [row]), Ok row)
       /\ id row = lit "00000000-0000-4000-8000-000000000002"
       /\ created_at row = lit "2024-06-01T10:00:00+00:00"
       /\ getEssayById (Online ([essay_e; essay_f] ++ [row]))
            (lit "00000000-0000-4000-8000-000000000002") = Ok (Some row).
Proof.
  split; [exact keyed_table_unique_ids |].
  split; [exact keyed_table_canonical_ids |].
  split; [reflexivity |].
  eexists. split; [reflexivity |]. split; [reflexivity |]. split; [reflexivity |].
  apply (@insertEssay_then_getEssayById vec sample_uuid sample_dimension
           sample_float4 sample_timestamptz
           [essay_e; essay_f] new_essay
           (lit "2024-06-01T10:00:00.000Z") (lit "2024-06-01T10:00:00.001Z")
           _ _ keyed_table_unique_ids keyed_table_canonical_ids eq_refl eq_refl).
Defined.

Lemma insertEssay_keeps_table_well_formed_witness :
  well_formed sample_dimension (table (Online [essay_d]))
  /\ well_formed sample_dimension
       (table (fst (insertEssay sample_uuid sample_dimension sample_float4
                      sample_timestamptz (Online [essay_d])
                      new_essay (lit "2024-06-01T10:00:00.000Z")
                      (lit "2024-06-01T10:00:00.001Z")))).
Proof.
  assert (H : well_formed sample_dimension (table (Online [essay_d]))).
  { split.
    - unfold unique_ids. cbn. repeat constructor. cbn. tauto.
    - constructor; [| constructor]. split; [cbn; tauto | discriminate]. }
  split; [exact H |].
  exact (@insertEssay_keeps_table_well_formed vec sample_uuid sample_dimension
           sample_float4 sample_timestamptz
           (Online [essay_d]) new_essay _ _ H).
Defined.

End MoreStoreScenarios.

(** ** WritingSpecialistAgent: the shape of a turn, the read tools *)

Section MoreTurnFacts.

Import WritingSpecialistAgent.

Variable vector : Type.
Variable cosine_distance : vector -> vector -> Q.
Variable JSON_stringify : ToolResult vector -> jsstring.
Variable w : World vector.

Local Abbreviation handleToolCall := (handleToolCall cosine_distance w).
Local Abbreviation tool_outcome := (tool_outcome cosine_distance w).
Local Abbreviation processMessage := (processMessage cosine_distance JSON_stringify w).
Local Abbreviation answer := (answer cosine_distance JSON_stringify w).
Local Abbreviation requests_sent := (requests_sent cosine_distance JSON_stringify w).

(** A turn always ends with a string. *)
Lemma processMessage_returns message sessionId (st : AgentState vector) :
  exists reply, fst (processMessage message sessionId st) = Ok reply.
Proof.
  change (fst (processMessage message sessionId st)) with (answer message sessionId st).
  rewrite answer_unfold.
  destruct (anthropic_create w _ _) as [response | e]; [| eauto].
  destruct (find_tool_use _) as [[[id name] input] |]; [| eauto].
  destruct (fst (tool_outcome _ _ _)) as [toolResult | e]; [| eauto].
  destruct (anthropic_create w _ _); eauto.
Qed.

(** X17: when the first response of the language model holds no
    tool-use block, [processMessage] returns the first text block of that
    response, or the fixed fallback sentence when it has none; it sends
    that one request only, and leaves the embedding service as it was. *)
Theorem plain_turn_returns_the_text
        message sessionId (st : AgentState vector) response :
  anthropic_create w (length (requests st)) (first_request message) = Ok response ->
  find_tool_use (content response) = None ->
  answer message sessionId st
  = Ok (or_default (find_text (content response)) no_text_fallback)
  /\ requests_sent message sessionId st = [first_request message]
  /\ embeddingService (snd (processMessage message sessionId st))
     = embeddingService st.
Proof.
  intros Hfirst Hfind. split; [| split].
  - rewrite answer_unfold, Hfirst, Hfind. reflexivity.
  - rewrite requests_sent_unfold, Hfirst, Hfind. reflexivity.
  - rewrite processMessage_unfold. cbv zeta. rewrite Hfirst, Hfind. reflexivity.
Qed.

(** X18: whatever the language model, the tools and the store do, a turn
    of [processMessage] sends the first request and at most one more;
    every request it sends names the same model, allows 4000 tokens and
    carries the three tool definitions. *)
Theorem turn_sends_at_most_two_requests message sessionId (st : AgentState vector) :
  requests (snd (processMessage message sessionId st))
  = requests st ++ requests_sent message sessionId st
  /\ (exists followups,
         requests_sent message sessionId st = first_request message :: followups
         /\ length followups <= 1)
  /\ Forall (fun r => request_tools r = tools
                      /\ model r = claude_model /\ max_tokens r = 4000%Z)
       (requests_sent message sessionId st).
Proof.
  split; [| split].
  - rewrite requests_sent_unfold, processMessage_unfold. cbv zeta.
    destruct (anthropic_create w _ _) as [response | e]; [| reflexivity].
    destruct (find_tool_use _) as [[[id name] input] |]; [| reflexivity].
    destruct (fst (tool_outcome _ _ _)) as [toolResult | e]; cbn [snd requests];
      [| reflexivity].
    now rewrite <- app_assoc.
  - rewrite requests_sent_unfold. eexists. split; [reflexivity |].
    destruct (anthropic_create w _ _) as [response | e]; [| cbn; lia].
    destruct (find_tool_use _) as [[[id name] input] |]; [| cbn; lia].
    destruct (fst (tool_outcome _ _ _)); cbn; lia.
  - rewrite requests_sent_unfold. constructor; [repeat split |].
    destruct (anthropic_create w _ _) as [response | e]; [| constructor].
    destruct (find_tool_use _) as [[[id name] input] |]; [| constructor].
    destruct (fst (tool_outcome _ _ _)); repeat constructor.
Qed.

(** X19: the [search_similar_essays] tool answers with the empty list,
    and does not throw, whenever the embedding of the query fails; a tool
    input without a [query] is such a case. *)
Theorem search_tool_degrades_when_embedding_fails input (st : AgentState vector) :
  (forall e,
      snd (ES.generateEmbedding (pipeline w) (embeddingService st) (query input))
      = Throw e ->
      fst (handleToolCall (lit "search_similar_essays") input st)
      = Ok (SimilarEssays []))
  /\ (query input = None ->
      fst (handleToolCall (lit "search_similar_essays") input st)
      = Ok (SimilarEssays [])).
Proof.
  assert (Hfail : forall e,
             snd (ES.generateEmbedding (pipeline w) (embeddingService st) (query input))
             = Throw e ->
             fst (handleToolCall (lit "search_similar_essays") input st)
             = Ok (SimilarEssays [])).
  { intros e He. rewrite handleToolCall_search, searchSimilarEssays_unfold.
    cbn [fst]. now rewrite He. }
  split; [exact Hfail |].
  intros Hq.
  assert (exists e, snd (ES.generateEmbedding (pipeline w) (embeddingService st)
                           (query input)) = Throw e) as [e He].
  { rewrite Hq. unfold ES.generateEmbedding, ES.generateEmbedding_resume,
      ES.initializeModel.
    destruct (ES.model (embeddingService st)) as [m |] eqn:Hm; cbn; [eauto |].
    destruct (ES.initializeModel_enter (embeddingService st)) as [s' [|]] eqn:Hen.
    - unfold ES.initializeModel_enter in Hen. rewrite Hm in Hen. cbn in Hen.
      destruct (ES.isLoading (embeddingService st)); injection Hen as <-;
        try discriminate. rewrite Hm. cbn. eauto.
    - destruct (ES.initializeModel_settle s' _) as [s'' [u | e]] eqn:Hs; cbn; [| eauto].
      destruct (ES.model s''); cbn; eauto. }
  now apply (Hfail e).
Qed.

(** The agent's own test for the category [all] agrees with the one the
    store applies. *)
Lemma search_filter_all (essayType : option jsstring) :
  DB.search_filter
    (if jsstring_eqb (or_default essayType (lit "all")) (lit "all")
     then None else Some (or_default essayType (lit "all")))
  = DB.search_filter essayType.
Proof.
  destruct essayType as [t |]; cbn [or_default]; [| reflexivity].
  destruct (jsstring_eqb t (lit "all")) eqn:E; [| reflexivity].
  unfold DB.search_filter. rewrite E. cbn [negb]. now rewrite andb_false_r.
Qed.

(** X20: with the model loaded, the [search_similar_essays] tool is the
    store's search on the embedding of the cleaned query: same category,
    the input's limit or 5, and the store's default threshold of 0.7; the
    agent's state is left as it was. *)
Theorem search_tool_composes input (st : AgentState vector) m text v :
  ES.model (embeddingService st) = Some m ->
  query input = Some text ->
  m (ES.preprocessText text) = Ok v ->
  handleToolCall (lit "search_similar_essays") input st
  = (Ok (SimilarEssays
           (DB.searchSimilarEssays cosine_distance (database w) v
              (essay_type input) (Some (or_default (limit input) 5%Z)) None)),
     st).
Proof.
  intros Hm Hq Hv.
  assert (Hgen : ES.generateEmbedding (pipeline w) (embeddingService st) (Some text)
                 = (embeddingService st, Ok v)).
  { unfold ES.generateEmbedding, ES.generateEmbedding_resume. rewrite Hm.
    unfold ES.embed_with. now rewrite Hv. }
  unfold WritingSpecialistAgent.handleToolCall.
  change (jsstring_eqb (lit "search_similar_essays") (lit "analyze_essay")) with false.
  rewrite (proj2 (jsstring_eqb_eq _ _) eq_refl). cbv iota.
  unfold bind at 1. rewrite searchSimilarEssays_unfold, Hq, Hgen.
  cbn [fst snd]. unfold ret. destruct st as [reqs s]. cbn [requests embeddingService].
  f_equal. f_equal. f_equal.
  unfold DB.searchSimilarEssays. now rewrite search_filter_all.
Qed.

(** X21: on a reachable store the [get_essay_examples] tool never
    returns more than ten essays, all of them essays of the table, the
    [limit] of the tool input playing no part; the agent's state is left
    as it was.  For a plain topic they are the first ten of the essays
    that carry the topic and, when a type is given, have that type. *)
Theorem examples_tool_returns_ten_at_most
        input (st : AgentState vector) (essays : list (DB.Essay vector)) :
  database w = DB.Online essays ->
  (exists rows,
      handleToolCall (lit "get_essay_examples") input st = (Ok (Examples rows), st)
      /\ length rows <= 10
      /\ Forall (fun e => In e essays) rows)
  /\ (forall t,
         topic input = Some t -> Postgres.plain_topic t = true ->
         handleToolCall (lit "get_essay_examples") input st
         = (Ok (Examples
                  (firstn 10
                     (filter (fun e => existsb (jsstring_eqb t) (DB.topics e)
                                       && DB.on_topic None (essay_type input) e)
                        essays))),
            st)).
Proof.
  intros Hdb.
  assert (Hcall : handleToolCall (lit "get_essay_examples") input st
                  = (Ok (Examples
                           match DB.getEssaysByTopic (DB.Online essays) (topic input)
                                   (essay_type input) None with
                           | Ok rows => rows
                           | Throw _ => []
                           end), st)).
  { unfold WritingSpecialistAgent.handleToolCall.
    change (jsstring_eqb (lit "get_essay_examples") (lit "analyze_essay")) with false.
    change (jsstring_eqb (lit "get_essay_examples") (lit "search_similar_essays"))
      with false.
    rewrite (proj2 (jsstring_eqb_eq _ _) eq_refl). cbv iota.
    unfold bind at 1. rewrite getEssayExamples_unfold, Hdb. reflexivity. }
  rewrite Hcall. split.
  - destruct (Postgres.array_in (DB.topics_literal (topic input))) eqn:Hlit.
    + rewrite (@getEssaysByTopic_online vector essays (topic input)
                 (essay_type input) None); [| discriminate | congruence].
      eexists. split; [reflexivity |]. split.
      * rewrite length_firstn. cbn [or_default]. change (Z.to_nat 10) with 10. lia.
      * apply Forall_forall. intros e He. apply in_firstn in He.
        now apply filter_In in He.
    + destruct (@getEssaysByTopic_malformed vector essays (topic input)
                  (essay_type input) None Hlit) as [error ->].
      exists []. split; [reflexivity |]. split; [cbn; lia | constructor].
  - intros t Ht Hplain.
    rewrite Ht.
    rewrite (@getEssaysByTopic_plain vector essays t (essay_type input) None);
      [reflexivity | discriminate | exact Hplain].
Qed.

End MoreTurnFacts.

(** ** The server and the import script *)

Section ServerFacts.

Import Server.

Variable vector : Type.
Variable cosine_distance : vector -> vector -> Q.
Variable JSON_stringify : Agent.ToolResult vector -> jsstring.
Variable gen_random_uuid : list (DB.Essay vector) -> jsstring.
Variable dimension : vector -> nat.
Variable float4 : vector -> vector.
Variable timestamptz : jsstring -> jsstring.
Variable w : Agent.World vector.

Local Abbreviation processMessage :=
  (Agent.processMessage cosine_distance JSON_stringify w).
Local Abbreviation respond := (respond cosine_distance JSON_stringify w).

(** The common part of the handlers, once the service is ready. *)
Lemma respond_ready message sessionId result_event failure
      (st : Agent.AgentState vector) :
  exists reply,
    fst (processMessage message (string_or sessionId (lit "default")) st) = Ok reply
    /\ respond true message sessionId result_event failure st
       = ([agent_typing true; agent_typing false;
           result_event reply (string_or sessionId (lit "default"))],
          snd (processMessage message (string_or sessionId (lit "default")) st)).
Proof.
  destruct (processMessage_returns cosine_distance JSON_stringify w message
              (string_or sessionId (lit "default")) st) as [reply Hreply].
  exists reply. split; [exact Hreply |].
  unfold Server.respond. cbn [negb].
  destruct (processMessage message (string_or sessionId (lit "default")) st)
    as [[r | e] st']; cbn in *; [| discriminate].
  now injection Hreply as ->.
Qed.



(** X24: [initializeServices] sets the readiness flag only once the
    model is loaded: if the flag is set, the service holds a model,
    [getModelInfo] reports it as loaded, and every later
    [generateEmbedding] uses that model without loading again. *)
Theorem ready_means_loaded (s : ES.State vector) :
  snd (initializeServices w s) = true ->
  exists m,
    ES.model (fst (initializeServices w s)) = Some m
    /\ ES.isLoaded (ES.getModelInfo (fst (initializeServices w s))) = true
    /\ forall pipeline text,
         ES.generateEmbedding pipeline (fst (initializeServices w s)) text
         = (fst (initializeServices w s), ES.embed_with m text).
Proof.
  unfold initializeServices.
  destruct (ES.initializeModel (Agent.pipeline w) s) as [s1 [u | e]];
    [| discriminate].
  unfold ES.warmUp.
  destruct (ES.generateEmbedding (Agent.pipeline w) s1 _) as [s2 [v | e]] eqn:Hgen;
    [| discriminate].
  cbn [fst snd]. intros _.
  assert (Hm : exists m, ES.model s2 = Some m).
  { unfold ES.generateEmbedding, ES.generateEmbedding_resume in Hgen.
    destruct (ES.model s1) as [m |] eqn:Hm1.
    - injection Hgen as <- _. eauto.
    - destruct (ES.initializeModel (Agent.pipeline w) s1) as [s3 [u' | e]];
        [| discriminate].
      injection Hgen as <- Hres.
      destruct (ES.model s3) as [m |]; [eauto | discriminate]. }
  destruct Hm as [m Hm]. exists m. split; [exact Hm |]. split.
  - unfold ES.getModelInfo. rewrite Hm. reflexivity.
  - intros p text. unfold ES.generateEmbedding, ES.generateEmbedding_resume.
    now rewrite Hm.
Qed.


(** X25: [POST /api/essays], for a body of the declared shape.  A 200
    means the returned essay is the one row added to the table, with the
    content of the body.  Its embedding is what the column keeps of the
    embedding of its content when the service is ready, whatever
    embedding the body had, and what the column keeps of the body's own
    embedding, if any, when it is not.  Every failure is a 500 that
    leaves the table as it was; a failed embedding is one. *)
Theorem post_essays_outcomes
        (ready : bool) (essayData : DB.NewEssay vector) (created updated : jsstring)
        (s : ES.State vector) (db : DB.Backend vector) :
  (forall essay,
      fst (fst (post_essays gen_random_uuid dimension float4 timestamptz w ready
                  essayData created updated s db)) = Json essay ->
      ~ DB.outage db
      /\ snd (post_essays gen_random_uuid dimension float4 timestamptz w ready
                essayData created updated s db)
         = DB.Online (DB.table db ++ [essay])
      /\ DB.content essay = DB.new_content essayData
      /\ (ready = true ->
          exists v,
            snd (ES.generateEmbedding (Agent.pipeline w) s
                   (Some (DB.new_content essayData))) = Ok v
            /\ DB.embedding essay = Some (float4 v))
      /\ (ready = false ->
          DB.embedding essay = option_map float4 (DB.new_embedding essayData)))
  /\ (forall status err,
         fst (fst (post_essays gen_random_uuid dimension float4 timestamptz w ready
                     essayData created updated s db)) = Failed status err ->
         status = 500%Z
         /\ snd (post_essays gen_random_uuid dimension float4 timestamptz w ready
                   essayData created updated s db) = db)
  /\ (ready = true ->
      forall e,
        snd (ES.generateEmbedding (Agent.pipeline w) s
               (Some (DB.new_content essayData))) = Throw e ->
        fst (fst (post_essays gen_random_uuid dimension float4 timestamptz w ready
                    essayData created updated s db))
        = Failed 500 (lit "Failed to add essay")).
Proof.
  unfold post_essays. split; [| split].
  - intros essay. destruct ready.
    + destruct (ES.generateEmbedding _ _ _) as [s' [v | e]]; cbn [fst snd];
        [| discriminate].
      destruct (DB.insertEssay _ _ _ _ _ _ _ _) as [db' [row | e]] eqn:Hins;
        cbn [fst snd]; [| discriminate].
      intros [= ->]. destruct db as [essays | err | e']; try discriminate.
      apply insertEssay_ok in Hins. destruct Hins as [Hrow [-> _]].
      cbn [DB.outage DB.table]. split; [intros [] |]. split; [reflexivity |].
      subst essay. split; [reflexivity |]. split; [| discriminate].
      intros _. exists v. split; reflexivity.
    + destruct (DB.insertEssay _ _ _ _ _ _ _ _) as [db' [row | e]] eqn:Hins;
        cbn [fst snd]; [| discriminate].
      intros [= ->]. destruct db as [essays | err | e']; try discriminate.
      apply insertEssay_ok in Hins. destruct Hins as [Hrow [-> _]].
      cbn [DB.outage DB.table]. split; [intros [] |]. split; [reflexivity |].
      subst essay. split; [reflexivity |]. split; [discriminate |].
      intros _. reflexivity.
  - intros status err. destruct ready.
    + destruct (ES.generateEmbedding _ _ _) as [s' [v | e]]; cbn [fst snd].
      * destruct (DB.insertEssay _ _ _ _ _ _ _ _) as [db' [row | e]] eqn:Hins;
          cbn [fst snd]; [discriminate |].
        intros [= <- _]. split; [reflexivity |].
        eapply insertEssay_throw. exact Hins.
      * now intros [= <- _].
    + destruct (DB.insertEssay _ _ _ _ _ _ _ _) as [db' [row | e]] eqn:Hins;
        cbn [fst snd]; [discriminate |].
      intros [= <- _]. split; [reflexivity |].
      eapply insertEssay_throw. exact Hins.
  - intros -> e He. destruct (ES.generateEmbedding _ _ _) as [s' r]. cbn in He.
    now subst r.
Qed.

End ServerFacts.

Section RouteFacts.

Import Server.

Variable vector : Type.

(** X27: [GET /api/essays/:id] on a table whose identifiers are unique
    and written as the database prints them answers 200 with the essay
    that has the identifier when there is one, 404 when the identifier
    is a UUID that no essay has, and 500 when it is not a UUID at all;
    whatever the table, a 500 is answered only then or during a store
    outage. *)
Theorem get_essay_statuses (essays : list (DB.Essay vector)) :
  DB.unique_ids essays -> DB.canonical_ids essays ->
  (forall e, In e essays -> get_essay (DB.Online essays) (DB.id e) = Json e)
  /\ (forall i u,
         Postgres.uuid_in i = Some u ->
         (forall e, In e essays -> Postgres.uuid_in (DB.id e) <> Some u) ->
         get_essay (DB.Online essays) i = Failed 404 (lit "Essay not found"))
  /\ (forall i,
         Postgres.uuid_in i = None ->
         get_essay (DB.Online essays) i = Failed 500 (lit "Failed to fetch essay"))
  /\ (forall (db : DB.Backend vector) i status err,
         get_essay db i = Failed status err ->
         (status = 404%Z /\ err = lit "Essay not found")
         \/ (status = 500%Z /\ err = lit "Failed to fetch essay"
             /\ (DB.outage db \/ Postgres.uuid_in i = None))).
Proof.
  intros Hu Hcan. unfold get_essay. split; [| split; [| split]].
  - intros e He.
    now rewrite (@getEssayById_found vector essays (DB.id e) e Hu Hcan He eq_refl).
  - intros i u Hi Habsent.
    now rewrite (@getEssayById_absent vector essays i u Hi Habsent).
  - intros i Hi. now rewrite (@getEssayById_not_a_uuid vector essays i Hi).
  - intros db i status err. destruct db as [rows | perr | e].
    + destruct (Postgres.uuid_in i) as [u |] eqn:Hi.
      * rewrite (@getEssayById_online vector rows i u Hi).
        destruct (filter _ rows) as [| x [| y l]]; intros [= <- <-]; now left.
      * rewrite (@getEssayById_not_a_uuid vector rows i Hi).
        intros [= <- <-]. right. repeat split. now right.
    + unfold DB.getEssayById, DB.select_by_id.
      destruct (jsstring_eqb (DB.code perr) (lit "PGRST116")); intros [= <- <-];
        [now left | right; repeat split; left; exact I].
    + unfold DB.getEssayById, DB.select_by_id.
      intros [= <- <-]. right. repeat split. left. exact I.
Qed.

End RouteFacts.

Section ImportFacts.

Import ImportScript.

Variable vector : Type.
Variable gen_random_uuid : list (DB.Essay vector) -> jsstring.
Variable dimension : vector -> nat.
Variable float4 : vector -> vector.
Variable timestamptz : jsstring -> jsstring.
Variable pipeline : jsstring -> result (ES.Model vector).
Variable clock : nat -> jsstring * jsstring.

Local Abbreviation import_loop :=
  (import_loop gen_random_uuid dimension float4 timestamptz pipeline clock).
Local Abbreviation processJsonEssays :=
  (processJsonEssays gen_random_uuid dimension float4 timestamptz pipeline clock).

(** The loop, from any index, service state and database. *)
Lemma import_loop_appends (essaysData : list JsonEssay) :
  forall i (s : ES.State vector) (db : DB.Backend vector),
  exists added,
    DB.table (snd (import_loop i essaysData s db)) = DB.table db ++ added
    /\ length added <= length essaysData
    /\ Forall (fun e => In (DB.content e) (map content essaysData)
                        /\ In (DB.type e) DB.essay_types
                        /\ exists v, DB.embedding e = Some v /\ dimension v = 384)
         added
    /\ (DB.unique_ids (DB.table db) -> DB.unique_ids (DB.table db ++ added)).
Proof.
  induction essaysData as [| essay rest IH]; intros i s db.
  - exists []. cbn. rewrite app_nil_r. repeat split; auto.
  - cbn [ImportScript.import_loop].
    destruct (ES.generateEmbedding pipeline s (Some (content essay)))
      as [s' [embedding | e]].
    + destruct (DB.insertEssay gen_random_uuid dimension float4 timestamptz db
                  (prepared i essay embedding) (fst (clock i)) (snd (clock i)))
        as [db' [row | e]] eqn:Hins.
      * destruct db as [essays | err | e']; try discriminate.
        apply insertEssay_ok in Hins.
        destruct Hins as [Hrow [-> [Ht [Hd Hfresh]]]].
        destruct (IH (S i) s' (DB.Online (essays ++ [row])))
          as [added [Htab [Hlen [Hall Hu]]]].
        exists (row :: added). cbn [DB.table] in *. rewrite Htab, <- app_assoc.
        repeat split.
        -- cbn. lia.
        -- constructor.
           ++ split; [left; subst row; reflexivity |]. split; [exact Ht |].
              exists (float4 embedding). split; [subst row; reflexivity |].
              apply Hd. subst row. reflexivity.
           ++ eapply Forall_impl; [| exact Hall]. cbn. intros e [Hc H]. tauto.
        -- intros Hu0. change (essays ++ row :: added) with (essays ++ [row] ++ added).
           rewrite app_assoc. apply Hu. now apply unique_ids_snoc.
      * assert (db' = db) as -> by (eapply insertEssay_throw; eassumption).
        destruct (IH (S i) s' db) as [added [Htab [Hlen [Hall Hu]]]].
        exists added. repeat split; auto.
        -- cbn. lia.
        -- eapply Forall_impl; [| exact Hall]. cbn. intros e0 [Hc H]. tauto.
    + destruct (IH (S i) s' db) as [added [Htab [Hlen [Hall Hu]]]].
      exists added. repeat split; auto.
      * cbn. lia.
      * eapply Forall_impl; [| exact Hall]. cbn. intros e0 [Hc H]. tauto.
Qed.

(** X26: the import script only appends.  The table after
    [processJsonEssays] is the old table followed by at most one row per
    essay of the file, each with the content of an essay of the file and
    an embedding; the constraints of the table are kept; and nothing is
    imported when the model fails to load. *)
Theorem processJsonEssays_appends_embedded_rows
        (essaysData : list JsonEssay) (s : ES.State vector) (db : DB.Backend vector) :
  (exists added,
      DB.table (snd (processJsonEssays essaysData s db)) = DB.table db ++ added
      /\ length added <= length essaysData
      /\ Forall (fun e => In (DB.content e) (map content essaysData)
                          /\ exists v, DB.embedding e = Some v)
           added)
  /\ (DB.well_formed dimension (DB.table db) ->
      DB.well_formed dimension (DB.table (snd (processJsonEssays essaysData s db))))
  /\ (forall e, snd (ES.initializeModel pipeline s) = Throw e ->
                snd (processJsonEssays essaysData s db) = db).
Proof.
  unfold ImportScript.processJsonEssays.
  destruct (ES.initializeModel pipeline s) as [s' [u | e]]; cbn [snd].
  - destruct (import_loop_appends essaysData 0 s' db)
      as [added [Htab [Hlen [Hall Hu]]]].
    split; [| split].
    + exists added. repeat split; auto.
      eapply Forall_impl; [| exact Hall]. cbn. intros e [Hc [_ [v [Hv _]]]]. eauto.
    + intros [Hu0 Hall0]. rewrite Htab. split; [auto |].
      apply Forall_app. split; [exact Hall0 |].
      eapply Forall_impl; [| exact Hall]. cbn.
      intros e [_ [Ht [v [Hv Hd]]]]. split; [exact Ht |].
      intros v' Hv'. congruence.
    + intros e. discriminate.
  - split; [| split].
    + exists []. rewrite app_nil_r. repeat split; [cbn; lia | constructor].
    + auto.
    + reflexivity.
Qed.

End ImportFacts.

Section MoreTurnScenarios.

Import WritingSpecialistAgent Scenario.

Lemma plain_turn_returns_the_text_witness :
  find_tool_use (content final_text) = None
  /\ answer unit_cosine_distance stringify plain_world review_request session start
     = Ok (lit "Here is my feedback.")
  /\ requests_sent unit_cosine_distance stringify plain_world review_request
       session start
     = [first_request review_request].
Proof.
  split; [reflexivity |].
  destruct (@plain_turn_returns_the_text vec unit_cosine_distance stringify
              plain_world review_request session start final_text
              eq_refl eq_refl) as [Hanswer [Hsent _]].
  split; [exact Hanswer | exact Hsent].
Defined.

Lemma search_tool_composes_witness :
  EmbeddingService.model (embeddingService start) = Some constant_model
  /\ query search_input = Some (lit "essays about identity")
  /\ handleToolCall unit_cosine_distance
       (scripted_world (lit "search_similar_essays") search_input)
       (lit "search_similar_essays") search_input start
     = (Ok (SimilarEssays
              (DB.searchSimilarEssays unit_cosine_distance
                 (DB.Online [essay_a; essay_b; essay_c]) query_vector
                 (Some (lit "personal_statement")) (Some 2%Z) None)),
        start).
Proof.
  split; [reflexivity |]. split; [reflexivity |].
  exact (@search_tool_composes vec unit_cosine_distance
           (scripted_world (lit "search_similar_essays") search_input)
           search_input start constant_model (lit "essays about identity")
           query_vector eq_refl eq_refl eq_refl).
Defined.

Lemma examples_tool_returns_ten_at_most_witness :
  Postgres.plain_topic (lit "identity") = true
  /\ handleToolCall unit_cosine_distance
       (scripted_world (lit "get_essay_examples") search_input)
       (lit "get_essay_examples") search_input start
     = (Ok (Examples [essay_b; essay_c]), start).
Proof.
  split; [reflexivity |].
  destruct (@examples_tool_returns_ten_at_most vec unit_cosine_distance
              (scripted_world (lit "get_essay_examples") search_input)
              search_input start [essay_a; essay_b; essay_c] eq_refl)
    as [_ Hplain].
  rewrite (Hplain (lit "identity") eq_refl eq_refl). reflexivity.
Defined.

Lemma ready_means_loaded_witness :
  snd (Server.initializeServices plain_world (EmbeddingService.new vec None)) = true
  /\ exists m,
       EmbeddingService.model
         (fst (Server.initializeServices plain_world (EmbeddingService.new vec None)))
       = Some m.
Proof.
  split; [reflexivity |].
  destruct (@ready_means_loaded vec plain_world (EmbeddingService.new vec None) eq_refl)
    as [m [Hm _]].
  exists m. exact Hm.
Defined.

Lemma get_essay_statuses_witness :
  DB.unique_ids [essay_e; essay_f]
  /\ DB.canonical_ids [essay_e; essay_f]
  /\ Server.get_essay (DB.Online [essay_e; essay_f])
       (lit "22222222-2222-4222-8222-222222222222")
     = Server.Json essay_f
  /\ Server.get_essay (DB.Online [essay_e; essay_f])
       (lit "33333333-3333-4333-8333-333333333333")
     = Server.Failed 404 (lit "Essay not found")
  /\ Server.get_essay (DB.Online [essay_e; essay_f]) (lit "z")
     = Server.Failed 500 (lit "Failed to fetch essay").
Proof.
  split; [exact keyed_table_unique_ids |].
  split; [exact keyed_table_canonical_ids |].
  destruct (@get_essay_statuses vec [essay_e; essay_f]
              keyed_table_unique_ids keyed_table_canonical_ids)
    as [Hfound [Habsent [Hbad _]]].
  split; [| split].
  - apply (Hfound essay_f). cbn. tauto.
  - eapply Habsent; [reflexivity |].
    intros e [<- | [<- | []]]; discriminate.
  - apply Hbad. reflexivity.
Defined.

(** The import of two essays into an empty table, the second of a type
    the table refuses: one row is added. *)
Example import_skips_refused_essay :
  map (@DB.title vec)
    (DB.table
       (snd (ImportScript.processJsonEssays sample_uuid
               (fun _ => 384%nat) sample_float4 sample_timestamptz
               (fun _ => Ok constant_model)
               (fun _ => (lit "2024-06-01T10:00:00.000Z", lit "2024-06-01T10:00:00.000Z"))
               [ {| ImportScript.id := None; ImportScript.title := None;
                    ImportScript.content := lit "First.";
                    ImportScript.type := None; ImportScript.college := None;
                    ImportScript.prompt := None; ImportScript.topics := None |};
                 {| ImportScript.id := None; ImportScript.title := None;
                    ImportScript.content := lit "Second.";
                    ImportScript.type := Some (lit "diary");
                    ImportScript.college := None;
                    ImportScript.prompt := None; ImportScript.topics := None |} ]
               (EmbeddingService.new vec None) (DB.Online []))))
  = [Some (lit "Essay 1")].
Proof. reflexivity. Qed.

End MoreTurnScenarios.
